(** * IMC Prosperity 2025 traders: a shallow embedding and its properties

    The three traders of the repository ([ROUND-1/simple_mean_reversion.py],
    [ROUND-2/premium_narrowdown.py], [ROUND-3/short_itm.py]) are embedded as
    Rocq functions, one module per file, and the properties of the
    specification are stated and settled on these functions.

    Modelling conventions.
    - Python [int] is [Z].  Python [float] is [Q] with exact arithmetic:
      rounding, overflow and the non-finite floats are outside the model.
      The mid-prices are half-integers and the fair prices are means of at
      most five of them, so that their comparisons with integer prices and
      the truncation of the discounted intrinsic value come out as in
      floating point.  The square root of [statistics.stdev] is a parameter
      of the development.
    - A Python [dict] is an association list in insertion order; reading
      takes the first binding of a key, writing overwrites the binding in
      place or appends a new one, as Python does.
    - Exceptions are results ([Ok] / [Raise]); a method that mutates the
      trader object is a function from the object to the mutated object and
      a result, so that the mutations made before an exception survive it.
    - [state.traderData] is a string of which the traders only test the
      emptiness and which they hand to [json.loads]; it is modelled by the
      outcome of these two operations (type [blob]).  [json.dumps] is
      modelled by the value it is given. *)

From Stdlib Require Import ZArith QArith Qround Bool List String Ascii Lia.
From Stdlib Require Import Permutation Sorted Lqa.
Import ListNotations.
Open Scope string_scope.
Open Scope list_scope.
Open Scope Z_scope.
Set Warnings "-register-all".

(* ================================================================= *)
(** ** The fragment of Python the traders use *)

Module Py.

Inductive exn : Type :=
| JSONDecodeError | KeyError | TypeError | AttributeError
| ValueError | ZeroDivisionError.

Inductive res (A : Type) : Type :=
| Ok (a : A)
| Raise (e : exn).
Arguments Ok {A} a.
Arguments Raise {A} e.

Definition bind {A B : Type} (r : res A) (k : A -> res B) : res B :=
  match r with
  | Ok a => k a
  | Raise e => Raise e
  end.

(** Values that [json.loads] can return and that the traders store. *)
Inductive value : Type :=
| VNone
| VBool (b : bool)
| VInt (z : Z)
| VFloat (q : Q)
| VStr (s : string)
| VList (l : list value)
| VDict (d : list (value * value)).

(** ** Dictionaries, generic in the key comparison *)
Section Dict.
Context {K V : Type} (eqb : K -> K -> bool).

Fixpoint get (d : list (K * V)) (k : K) : option V :=
  match d with
  | [] => None
  | (k', v) :: d' => if eqb k' k then Some v else get d' k
  end.

(** [d[k] = v] *)
Fixpoint set (d : list (K * V)) (k : K) (v : V) : list (K * V) :=
  match d with
  | [] => [(k, v)]
  | (k', v') :: d' =>
      if eqb k' k then (k', v) :: d' else (k', v') :: set d' k v
  end.

Definition mem (d : list (K * V)) (k : K) : bool :=
  match get d k with Some _ => true | None => false end.

Definition keys (d : list (K * V)) : list K := map fst d.
Definition values (d : list (K * V)) : list V := map snd d.

(** [d.update(other)] for a mapping [other] *)
Definition update (d other : list (K * V)) : list (K * V) :=
  fold_left (fun acc kv => set acc (fst kv) (snd kv)) other d.
End Dict.

(** Truthiness of a container: non-empty. *)
Definition truthy {A : Type} (l : list A) : bool :=
  match l with [] => false | _ => true end.

(** ** Numbers *)

Definition Qltb (x y : Q) : bool := negb (Qle_bool y x).

(** [int(x)] for a float [x]: truncation towards zero. *)
Definition int_of_float (x : Q) : Z := Z.quot (Qnum x) (Zpos (Qden x)).

(** The value of a number in arithmetic; [True] is 1 and [False] is 0. *)
Definition num_of (v : value) : option Q :=
  match v with
  | VBool b => Some (inject_Z (if b then 1 else 0))
  | VInt z => Some (inject_Z z)
  | VFloat q => Some q
  | _ => None
  end.

(** [==] on hashable values, as used for dictionary keys. *)
Definition key_eqb (a b : value) : bool :=
  match a, b with
  | VNone, VNone => true
  | VStr s, VStr t => String.eqb s t
  | _, _ =>
      match num_of a, num_of b with
      | Some x, Some y => Qeq_bool x y
      | _, _ => false
      end
  end.

Definition hashable (v : value) : bool :=
  match v with
  | VList _ | VDict _ => false
  | _ => true
  end.

(** The numbers of a list of values, when all of them are numbers. *)
Fixpoint numbers (l : list value) : option (list Q) :=
  match l with
  | [] => Some []
  | v :: l' =>
      match num_of v, numbers l' with
      | Some x, Some xs => Some (x :: xs)
      | _, _ => None
      end
  end.

(** [sum(l)]: starts from the int 0 and adds the elements in order. *)
Fixpoint sum_from (acc : Q) (l : list value) : res Q :=
  match l with
  | [] => Ok acc
  | v :: l' =>
      match num_of v with
      | Some x => sum_from (acc + x)%Q l'
      | None => Raise TypeError
      end
  end.

Definition sum (l : list value) : res Q := sum_from 0%Q l.

(** ** Sequences *)

(** [l[-n:]] *)
Definition last_n {A : Type} (n : nat) (l : list A) : list A :=
  skipn (List.length l - n) l.

(** [max(l)] and [min(l)] of a non-empty list of ints. *)
Definition max_list (l : list Z) : Z :=
  match l with
  | [] => 0
  | x :: l' => fold_left Z.max l' x
  end.

Definition min_list (l : list Z) : Z :=
  match l with
  | [] => 0
  | x :: l' => fold_left Z.min l' x
  end.

(** [sorted(l)] on ints. *)
Fixpoint insert_sorted (x : Z) (l : list Z) : list Z :=
  match l with
  | [] => [x]
  | y :: l' => if x <=? y then x :: l else y :: insert_sorted x l'
  end.

Definition sorted (l : list Z) : list Z :=
  fold_right insert_sorted [] l.

(** [sorted(l, reverse=True)] on ints. *)
Definition sorted_reverse (l : list Z) : list Z := rev (sorted l).

(** ** Strings *)

(** [s.startswith(p)] *)
Definition startswith (s p : string) : bool := String.prefix p s.

(** The last field of [s.split('_')]. *)
Fixpoint last_field (s : string) (cur : string) : string :=
  match s with
  | EmptyString => cur
  | String c s' =>
      if Ascii.eqb c "_"%char then last_field s' EmptyString
      else last_field s' (cur ++ String c EmptyString)%string
  end.

Definition digit_of (c : ascii) : option Z :=
  let n := Z.of_nat (nat_of_ascii c) in
  if (48 <=? n) && (n <=? 57) then Some (n - 48) else None.

Fixpoint digits_from (acc : Z) (s : string) : option Z :=
  match s with
  | EmptyString => Some acc
  | String c s' =>
      match digit_of c with
      | Some d => digits_from (10 * acc + d) s'
      | None => None
      end
  end.

(** The default of [sys.int_max_str_digits]: [int] refuses a string with
    more digits, leading zeros counted and the sign not. *)
Definition int_max_str_digits : nat := 4300.

(** [int(s)] on a string without underscores: an optional sign and at most
    4300 ASCII decimal digits.  (Python also accepts surrounding blanks and
    the decimal digits of other scripts; no product identifier has them.) *)
Definition int_of_string (s : string) : res Z :=
  let unsigned (t : string) : option Z :=
    match t with
    | EmptyString => None
    | _ =>
        if (int_max_str_digits <? String.length t)%nat then None
        else digits_from 0 t
    end in
  let r :=
    match s with
    | String "-"%char t => option_map Z.opp (unsigned t)
    | String "+"%char t => unsigned t
    | _ => unsigned s
    end in
  match r with
  | Some z => Ok z
  | None => Raise ValueError
  end.

(** ** Loops *)

(** [for a in l: s = body(s, a)], stopped by the first exception. *)
Fixpoint for_each {A S : Type} (body : S -> A -> res S) (l : list A) (s : S)
  : res S :=
  match l with
  | [] => Ok s
  | a :: l' =>
      match body s a with
      | Ok s' => for_each body l' s'
      | Raise e => Raise e
      end
  end.

(** The elements that [for x in v] visits. *)
Definition iter (v : value) : res (list value) :=
  match v with
  | VList l => Ok l
  | VDict d => Ok (keys d)
  | VStr s => Ok (map (fun c => VStr (String c EmptyString)) (list_ascii_of_string s))
  | _ => Raise TypeError
  end.

End Py.

Import Py.

Notation "x <- c1 ;; c2" := (Py.bind c1 (fun x => c2))
  (at level 61, c1 at next level, right associativity).

(* ================================================================= *)
(** ** The data the exchange hands to a trader *)

Module Exchange.

(** Modelled from the spec: the class [Order] of the exchange's [datamodel]
    module, which is not part of the repository: product identifier, price
    and signed quantity (positive buys, negative sells). *)
Record Order : Type := mkOrder
  { symbol : string; price : Z; quantity : Z }.

(** Modelled from the spec: the class [OrderDepth] of [datamodel]: bid price
    to available buy volume, ask price to available sell volume. *)
Record OrderDepth : Type := mkOrderDepth
  { buy_orders : list (Z * Z); sell_orders : list (Z * Z) }.

(** [state.traderData] as the traders see it: an empty string, a string that
    [json.loads] rejects, or a string that [json.loads] decodes to a value. *)
Inductive blob : Type :=
| BlobEmpty
| BlobUndecodable
| BlobValue (v : value).

(** Modelled from the spec: the fields of [datamodel.TradingState] that the
    traders read. *)
Record TradingState : Type := mkTradingState
  { traderData : blob;
    timestamp : Z;
    order_depths : list (string * OrderDepth);
    position : list (string * Z) }.

(** [state.position.get(product, 0)] *)
Definition position_of (state : TradingState) (product : string) : Z :=
  match get String.eqb (position state) product with
  | Some p => p
  | None => 0
  end.

(** [book[price]] for a price taken from the keys of [book]. *)
Definition volume_at (book : list (Z * Z)) (p : Z) : Z :=
  match get Z.eqb book p with
  | Some v => v
  | None => 0
  end.

(** The output mapping of a tick: product to its orders. *)
Definition Result : Type := list (string * list Order).

End Exchange.

Import Exchange.

(* ================================================================= *)
(** ** The order generator shared by the three traders

    The two loops below are written out identically in
    [simple_mean_reversion.py] (lines 58-72), [premium_narrowdown.py]
    (lines 161-175) and [short_itm.py] (lines 146-160). *)

Module OrderGen.

(** Body of [for ask_price in sorted(order_depth.sell_orders.keys())]. *)
Definition buy_level (product : string) (fair_price : Q) (position_limit : Z)
  (asks : list (Z * Z)) (st : list Order * Z) (ask_price : Z)
  : list Order * Z :=
  let '(orders, current_position) := st in
  let ask_volume := volume_at asks ask_price in
  if Qltb (inject_Z ask_price) fair_price
     && (current_position <? position_limit)
  then
    let volume := Z.min (- ask_volume) (position_limit - current_position) in
    (orders ++ [mkOrder product ask_price volume], current_position + volume)
  else st.

(** Body of
    [for bid_price in sorted(order_depth.buy_orders.keys(), reverse=True)]. *)
Definition sell_level (product : string) (fair_price : Q) (position_limit : Z)
  (bids : list (Z * Z)) (st : list Order * Z) (bid_price : Z)
  : list Order * Z :=
  let '(orders, current_position) := st in
  let bid_volume := volume_at bids bid_price in
  if Qltb fair_price (inject_Z bid_price)
     && (- position_limit <? current_position)
  then
    let volume := Z.min bid_volume (current_position + position_limit) in
    (orders ++ [mkOrder product bid_price (- volume)], current_position - volume)
  else st.

(** The BUY loop followed by the SELL loop, from the orders and the position
    [st] reached so far. *)
Definition book_walk_from (product : string) (fair_price : Q)
  (position_limit : Z) (order_depth : OrderDepth) (st : list Order * Z)
  : list Order * Z :=
  let st1 :=
    fold_left (buy_level product fair_price position_limit
                 (sell_orders order_depth))
      (sorted (keys (sell_orders order_depth))) st in
  fold_left (sell_level product fair_price position_limit
               (buy_orders order_depth))
    (sorted_reverse (keys (buy_orders order_depth))) st1.

Definition book_walk (product : string) (fair_price : Q) (position_limit : Z)
  (current_position : Z) (order_depth : OrderDepth) : list Order :=
  fst (book_walk_from product fair_price position_limit order_depth
         ([], current_position)).

(** [max(buy_orders.keys())] and [min(sell_orders.keys())]. *)
Definition best_bid_of (order_depth : OrderDepth) : Z :=
  max_list (keys (buy_orders order_depth)).

Definition best_ask_of (order_depth : OrderDepth) : Z :=
  min_list (keys (sell_orders order_depth)).

(** [(best_bid + best_ask) / 2] *)
Definition mid_price_of (order_depth : OrderDepth) : Q :=
  (inject_Z (best_bid_of order_depth + best_ask_of order_depth) / 2)%Q.

(** [not order_depth.buy_orders or not order_depth.sell_orders] *)
Definition one_sided (order_depth : OrderDepth) : bool :=
  negb (truthy (buy_orders order_depth))
  || negb (truthy (sell_orders order_depth)).

(** [sum(history) / len(history)] *)
Definition average (history : value) : res Q :=
  l <- iter history;;
  s <- sum l;;
  match l with
  | [] => Raise ZeroDivisionError
  | _ => Ok (s / inject_Z (Z.of_nat (List.length l)))%Q
  end.

(** The price-history update of the moving-average products, on the mapping
    [ph] from product to history:
    [if product not in ph: ph[product] = []],
    [ph[product].append(mid_price)],
    [if len(ph[product]) > 5: ph[product] = ph[product][-5:]].
    The mapping is returned also when an exception stops the update. *)
Definition push_mid (ph : list (value * value)) (product : string) (mid_price : Q)
  : list (value * value) * res unit :=
  let k := VStr product in
  let ph1 := if mem key_eqb ph k then ph else set key_eqb ph k (VList []) in
  match get key_eqb ph1 k with
  | Some (VList h) =>
      let h1 := h ++ [VFloat mid_price] in
      let ph2 := set key_eqb ph1 k (VList h1) in
      if (5 <? List.length h1)%nat
      then (set key_eqb ph2 k (VList (last_n 5 h1)), Ok tt)
      else (ph2, Ok tt)
  | Some (VStr _) | Some (VDict _) | Some VNone | Some (VBool _)
  | Some (VInt _) | Some (VFloat _) => (ph1, Raise AttributeError)
  | None => (ph1, Raise KeyError)
  end.

End OrderGen.

Import OrderGen.

(* ================================================================= *)
(** ** ROUND-1/simple_mean_reversion.py *)

Module Round1.

Definition position_limits : list (string * Z) :=
  [("RAINFOREST_RESIN"%string, 50); ("KELP"%string, 50);
   ("SQUID_INK"%string, 50)].

(** Lines 35-51 of [run]: the fair price of [product] and the price history
    after the product has been looked at.  [price_history] is whatever
    [json.loads] returned.  When it is not a dict, the fallback branch fails
    on [price_history.get] ([AttributeError]); the other branch fails with
    [TypeError], on [product not in price_history] for a number, a boolean
    or [None], and on the indexing by [product] that follows the membership
    test for a list or a string. *)
Definition fair_price_of (price_history : value) (product : string)
  (order_depth : OrderDepth) : res (value * Q) :=
  if one_sided order_depth then
    (* fallback if no bid/ask data *)
    let mid_price :=
      if String.eqb product "RAINFOREST_RESIN" then 10000 else 1000 in
    match price_history with
    | VDict ph =>
        let history :=
          match get key_eqb ph (VStr product) with
          | Some h => h
          | None => VList [VInt mid_price]
          end in
        fair_price <- average history;;
        Ok (price_history, fair_price)
    | _ => Raise AttributeError
    end
  else
    match price_history with
    | VDict ph =>
        match push_mid ph product (mid_price_of order_depth) with
        | (ph', Ok _) =>
            match get key_eqb ph' (VStr product) with
            | Some history =>
                fair_price <- average history;;
                Ok (VDict ph', fair_price)
            | None => Raise KeyError
            end
        | (_, Raise e) => Raise e
        end
    | _ => Raise TypeError
    end.

(** Body of [for product in state.order_depths] (lines 25-74). *)
Definition process_product (state : TradingState) (st : value * Result)
  (product : string) : res (value * Result) :=
  let '(price_history, result) := st in
  match get String.eqb (order_depths state) product with
  | None => Raise KeyError
  | Some order_depth =>
      match get String.eqb position_limits product with
      | None => Raise KeyError
      | Some position_limit =>
          let current_position := position_of state product in
          r <- fair_price_of price_history product order_depth;;
          let '(price_history', fair_price) := r in
          if String.eqb product "SQUID_INK" then
            Ok (price_history', set String.eqb result product [])
          else
            Ok (price_history',
                set String.eqb result product
                  (book_walk product fair_price position_limit
                     current_position order_depth))
      end
  end.

(** [Trader.run]: the output mapping, the conversions and the value given to
    [json.dumps]. *)
Definition run (state : TradingState) : res (Result * Z * value) :=
  price_history <-
    match traderData state with
    | BlobEmpty => Ok (VDict [])
    | BlobUndecodable => Raise JSONDecodeError
    | BlobValue v => Ok v
    end;;
  r <- for_each (process_product state) (keys (order_depths state))
         (price_history, []);;
  let '(price_history', result) := r in
  Ok (result, 0, price_history').

End Round1.

(* ================================================================= *)
(** ** Python's [statistics] module on floats *)

Module Statistics.

Definition sumQ (l : list Q) : Q := fold_left Qplus l 0%Q.

Definition lenQ (l : list Q) : Q := inject_Z (Z.of_nat (List.length l)).

(** [statistics.mean] *)
Definition mean (l : list Q) : Q := (sumQ l / lenQ l)%Q.

(** [statistics.variance]: the sample variance. *)
Definition variance (l : list Q) : Q :=
  let m := mean l in
  (sumQ (map (fun x => (x - m) * (x - m)) l) / (lenQ l - 1))%Q.

Fixpoint insertQ (x : Q) (l : list Q) : list Q :=
  match l with
  | [] => [x]
  | y :: l' => if Qle_bool x y then x :: l else y :: insertQ x l'
  end.

Definition sortQ (l : list Q) : list Q := fold_right insertQ [] l.

(** [statistics.median] of a non-empty list: the middle element, or the mean
    of the two middle elements. *)
Definition median (l : list Q) : Q :=
  let data := sortQ l in
  let n := List.length data in
  if Nat.odd n then nth (n / 2) data 0%Q
  else ((nth (n / 2 - 1) data 0 + nth (n / 2) data 0) / 2)%Q.

Section Stdev.
Variable sqrt_float : Q -> Q.

(** [statistics.stdev]: the square root of the sample variance.  The square
    root of floats is a parameter of the development. *)
Definition stdev (l : list Q) : Q := sqrt_float (variance l).

(** [calculate_z_score] of [premium_narrowdown.py] (lines 61-67) and
    [pb_calculate_z_score] of [short_itm.py] (lines 191-197), over the
    rolling window [history] and its configured size [window]. *)
Definition z_score (window : nat) (history : list Q) (current_price : Q) : Q :=
  if (List.length history <? window)%nat then 0%Q
  else
    let mean := mean history in
    let std_dev :=
      if (1 <? List.length history)%nat then stdev history else 0%Q in
    if negb (Qeq_bool std_dev 0) then ((current_price - mean) / std_dev)%Q
    else 0%Q.

End Stdev.

(** [update_croissant_history] / [pb_update_croissant_history]:
    [history.append(current_price)], then [history.pop(0)] when the window is
    exceeded. *)
Definition push_window (window : nat) (history : list Q) (current_price : Q)
  : list Q :=
  let h := history ++ [current_price] in
  if (window <? List.length h)%nat then tl h else h.

(** [max(a, b)] and [min(a, b)]: the first argument wins a tie. *)
Definition py_max (a b : Q) : Q := if Qltb a b then b else a.
Definition py_min (a b : Q) : Q := if Qltb b a then b else a.

End Statistics.

Import Statistics.

(* ================================================================= *)
(** ** State restoration shared by rounds 2 and 3

    The loop of [premium_narrowdown.py] (lines 118-128) and [short_itm.py]
    (lines 61-71) merges the decoded blob into [self.trader_data]. *)

Module Restore.

(** The two items that [dict.update] reads from one element of a sequence
    argument. *)
Definition pair_of (e : value) : res (value * value) :=
  l <- iter e;;
  match l with
  | [k; v] => Ok (k, v)
  | _ => Raise ValueError
  end.

(** [d.update(l)] for a sequence [l] of key/value pairs; the bindings made
    before a failing element stay. *)
Fixpoint update_from_pairs (d : list (value * value)) (l : list value)
  : list (value * value) * res unit :=
  match l with
  | [] => (d, Ok tt)
  | e :: l' =>
      match pair_of e with
      | Ok (k, v) =>
          if hashable k then update_from_pairs (set key_eqb d k v) l'
          else (d, Raise TypeError)
      | Raise err => (d, Raise err)
      end
  end.

(** [d.update(arg)] for any decoded value [arg]. *)
Definition dict_update (d : list (value * value)) (arg : value)
  : list (value * value) * res unit :=
  match arg with
  | VDict other => (update key_eqb d other, Ok tt)
  | VList l => update_from_pairs d l
  | VStr s =>
      update_from_pairs d
        (map (fun c => VStr (String c EmptyString)) (list_ascii_of_string s))
  | VNone | VBool _ | VInt _ | VFloat _ => (d, Raise TypeError)
  end.

(** [loaded_data[key]] for a string [key]. *)
Definition loaded_item (loaded_data : value) (key : value) : res value :=
  match loaded_data with
  | VDict d =>
      match get key_eqb d key with
      | Some v => Ok v
      | None => Raise KeyError
      end
  | _ => Raise TypeError
  end.

(** One round of [for key in loaded_data] on [self.trader_data], a dict
    whose keys are the strings given by the constructor. *)
Definition merge_key (loaded_data : value) (trader_data : list (value * value))
  (key : value) : list (value * value) * res unit :=
  if negb (hashable key) then (trader_data, Raise TypeError)
  else
    match get key_eqb trader_data key with
    | None => (trader_data, Ok tt)
    | Some (VDict field) =>
        match loaded_item loaded_data key with
        | Ok arg =>
            let '(field', r) := dict_update field arg in
            (set key_eqb trader_data key (VDict field'), r)
        | Raise e => (trader_data, Raise e)
        end
    | Some _ =>
        match loaded_item loaded_data key with
        | Ok v => (set key_eqb trader_data key v, Ok tt)
        | Raise e => (trader_data, Raise e)
        end
    end.

Fixpoint merge_keys (loaded_data : value) (trader_data : list (value * value))
  (ks : list value) : list (value * value) * res unit :=
  match ks with
  | [] => (trader_data, Ok tt)
  | key :: ks' =>
      match merge_key loaded_data trader_data key with
      | (trader_data', Ok _) => merge_keys loaded_data trader_data' ks'
      | (trader_data', Raise e) => (trader_data', Raise e)
      end
  end.

(** The body of the [try]: [json.loads] and the merge loop. *)
Definition try_merge (trader_data : list (value * value)) (b : blob)
  : list (value * value) * res unit :=
  match b with
  | BlobEmpty | BlobUndecodable => (trader_data, Raise JSONDecodeError)
  | BlobValue loaded_data =>
      match iter loaded_data with
      | Ok ks => merge_keys loaded_data trader_data ks
      | Raise e => (trader_data, Raise e)
      end
  end.

(** [if state.traderData: try: ... except: pass] *)
Definition restore (trader_data : list (value * value)) (b : blob)
  : list (value * value) :=
  match b with
  | BlobEmpty => trader_data
  | _ => fst (try_merge trader_data b)
  end.

End Restore.

Import Restore.

(* ================================================================= *)
(** ** The two strategies written out in rounds 2 and 3 *)

Module Strategy.

(** The RAINFOREST_RESIN and KELP branch ([premium_narrowdown.py] lines
    149-175, [short_itm.py] lines 137-160), on [self.trader_data]: the
    moving-average update, the fair price and the walk of the book. *)
Definition mean_reversion (trader_data : list (value * value))
  (product : string) (order_depth : OrderDepth)
  (position_limit current_position : Z)
  : list (value * value) * res (list Order) :=
  match get key_eqb trader_data (VStr "price_history") with
  | Some (VDict ph) =>
      let '(ph', r) := push_mid ph product (mid_price_of order_depth) in
      let trader_data' :=
        set key_eqb trader_data (VStr "price_history") (VDict ph') in
      match r with
      | Raise e => (trader_data', Raise e)
      | Ok _ =>
          match get key_eqb ph' (VStr product) with
          | Some history =>
              (trader_data',
               fair_price <- average history;;
               Ok (book_walk product fair_price position_limit
                     current_position order_depth))
          | None => (trader_data', Raise KeyError)
          end
      end
  | Some _ => (trader_data, Raise TypeError)
  | None => (trader_data, Raise KeyError)
  end.

Definition croissant_window : nat := 100.
Definition std_threshold : Q := 15 # 10.
Definition max_trade_size : Z := 10.

(** The CROISSANTS branch after the update of the rolling window
    ([premium_narrowdown.py] lines 182-197, [short_itm.py] lines 167-181):
    the orders for the z-score [z]. *)
Definition threshold_orders (z : Q) (product : string)
  (order_depth : OrderDepth) (position_limit current_position : Z)
  : list Order :=
  if Qltb std_threshold z then
    let sell_volume := Z.min max_trade_size (position_limit + current_position) in
    if 0 <? sell_volume
    then [mkOrder product (best_bid_of order_depth) (- sell_volume)]
    else []
  else if Qltb z (- std_threshold) then
    let buy_volume := Z.min max_trade_size (position_limit - current_position) in
    if 0 <? buy_volume
    then [mkOrder product (best_ask_of order_depth) buy_volume]
    else []
  else [].

End Strategy.

Import Strategy.

(* ================================================================= *)
(** ** ROUND-3/short_itm.py *)

Module Round3.

(** One entry of [pb_dynamic_params]. *)
Record BufferParams : Type := mkBufferParams
  { buffer_multiplier : Q; min_buffer : Q; max_buffer : Q;
    current_buffer : Q }.

(** The attributes of a [Trader] object that can change.  The attributes
    that [__init__] sets and nothing reassigns are the constants below. *)
Record Trader : Type := mkTrader
  { vr_price : Q;
    vr_last_prices : list Q;
    pb_croissant_history : list Q;
    pb_dynamic_params : list (string * BufferParams);
    trader_data : list (value * value) }.

Definition vr_max_short : Z := 200.

Definition pb_position_limits : list (string * Z) :=
  [("RAINFOREST_RESIN"%string, 50); ("KELP"%string, 50);
   ("CROISSANTS"%string, 250); ("PICNIC_BASKET1"%string, 60);
   ("PICNIC_BASKET2"%string, 100)].

Definition pb_croissant_window : nat := croissant_window.
Definition pb_std_threshold : Q := std_threshold.
Definition pb_max_trade_size : Z := max_trade_size.

(** [Trader.__init__] *)
Definition init : Trader :=
  {| vr_price := 10500;
     vr_last_prices := [];
     pb_croissant_history := [];
     pb_dynamic_params :=
       [("PICNIC_BASKET1"%string, mkBufferParams (22 # 10) 2 10 3);
        ("PICNIC_BASKET2"%string, mkBufferParams 2 (15 # 10) 8 2)];
     trader_data :=
       [(VStr "last_timestamp", VInt 0);
        (VStr "price_history", VDict []);
        (VStr "spread_history",
          VDict [(VStr "PICNIC_BASKET1", VList []);
                 (VStr "PICNIC_BASKET2", VList [])])] |}.

Definition set_trader_data (tr : Trader) (td : list (value * value)) : Trader :=
  {| vr_price := vr_price tr;
     vr_last_prices := vr_last_prices tr;
     pb_croissant_history := pb_croissant_history tr;
     pb_dynamic_params := pb_dynamic_params tr;
     trader_data := td |}.

Definition set_croissant_history (tr : Trader) (h : list Q) : Trader :=
  {| vr_price := vr_price tr;
     vr_last_prices := vr_last_prices tr;
     pb_croissant_history := h;
     pb_dynamic_params := pb_dynamic_params tr;
     trader_data := trader_data tr |}.

(** [vr_update_market_data] *)
Definition vr_update_market_data (tr : Trader) (state : TradingState) : Trader :=
  match get String.eqb (order_depths state) "VOLCANIC_ROCK" with
  | Some depth =>
      let bids := buy_orders depth in
      let asks := sell_orders depth in
      if truthy bids && truthy asks then
        let p := (inject_Z (max_list (keys bids) + min_list (keys asks)) / 2)%Q in
        let l := vr_last_prices tr ++ [p] in
        {| vr_price := p;
           vr_last_prices := if (20 <? List.length l)%nat then tl l else l;
           pb_croissant_history := pb_croissant_history tr;
           pb_dynamic_params := pb_dynamic_params tr;
           trader_data := trader_data tr |}
      else tr
  | None => tr
  end.

(** [vr_short_itm_voucher]; it reads the object and does not change it. *)
Definition vr_short_itm_voucher (tr : Trader) (product : string)
  (state : TradingState) : res (list Order) :=
  strike <- int_of_string (last_field product EmptyString);;
  if Qle_bool (vr_price tr) (inject_Z strike) then Ok []
  else
    let current_pos := position_of state product in
    let short_capacity := vr_max_short + current_pos in
    if short_capacity <=? 0 then Ok []
    else
      let quantity := Z.min 10 short_capacity in
      let intrinsic := (vr_price tr - inject_Z strike)%Q in
      let price := int_of_float (intrinsic * (95 # 100))%Q in
      Ok [mkOrder product price (- quantity)].

Section WithSqrt.
Variable sqrt_float : Q -> Q.

(** [pb_calculate_z_score] *)
Definition pb_calculate_z_score (tr : Trader) (current_price : Q) : Q :=
  z_score sqrt_float pb_croissant_window (pb_croissant_history tr)
    current_price.

(** [pb_update_croissant_history] *)
Definition pb_update_croissant_history (tr : Trader) (current_price : Q)
  : Trader :=
  set_croissant_history tr
    (push_window pb_croissant_window (pb_croissant_history tr) current_price).

(** [pb_process_product] *)
Definition pb_process_product (tr : Trader) (product : string)
  (state : TradingState) : Trader * res (list Order) :=
  match get String.eqb (order_depths state) product with
  | None => (tr, Raise KeyError)
  | Some order_depth =>
      match get String.eqb pb_position_limits product with
      | None => (tr, Raise KeyError)
      | Some position_limit =>
          let current_position := position_of state product in
          if one_sided order_depth then (tr, Ok [])
          else if String.eqb product "RAINFOREST_RESIN"
                  || String.eqb product "KELP" then
            let '(td', r) :=
              mean_reversion (trader_data tr) product order_depth
                position_limit current_position in
            (set_trader_data tr td', r)
          else if String.eqb product "CROISSANTS" then
            let mid_price := mid_price_of order_depth in
            let tr' := pb_update_croissant_history tr mid_price in
            let z_score := pb_calculate_z_score tr' mid_price in
            (tr',
             Ok (threshold_orders z_score product order_depth position_limit
                   current_position))
          else (tr, Ok [])
      end
  end.

(** First loop of [run] (lines 74-78), from the output mapping built so
    far. *)
Fixpoint voucher_loop (tr : Trader) (state : TradingState)
  (products : list string) (result : Result) : res Result :=
  match products with
  | [] => Ok result
  | product :: rest =>
      if startswith product "VOLCANIC_ROCK_VOUCHER" then
        orders <- vr_short_itm_voucher tr product state;;
        voucher_loop tr state rest
          (if truthy orders then set String.eqb result product orders
           else result)
      else voucher_loop tr state rest result
  end.

(** Second loop of [run] (lines 81-85). *)
Fixpoint pb_loop (tr : Trader) (state : TradingState)
  (products : list string) (result : Result) : Trader * res Result :=
  match products with
  | [] => (tr, Ok result)
  | product :: rest =>
      if mem String.eqb pb_position_limits product then
        match pb_process_product tr product state with
        | (tr', Ok orders) =>
            pb_loop tr' state rest
              (if truthy orders then set String.eqb result product orders
               else result)
        | (tr', Raise e) => (tr', Raise e)
        end
      else pb_loop tr state rest result
  end.

(** [Trader.run]: the object after the call and, unless an exception
    escapes, the output mapping, the conversions and the value given to
    [json.dumps]. *)
Definition run (tr : Trader) (state : TradingState)
  : Trader * res (Result * Z * value) :=
  let tr1 := set_trader_data tr (restore (trader_data tr) (traderData state)) in
  let tr2 := vr_update_market_data tr1 state in
  let products := keys (order_depths state) in
  match voucher_loop tr2 state products [] with
  | Raise e => (tr2, Raise e)
  | Ok result1 =>
      match pb_loop tr2 state products result1 with
      | (tr3, Raise e) => (tr3, Raise e)
      | (tr3, Ok result) =>
          let tr4 :=
            set_trader_data tr3
              (set key_eqb (trader_data tr3) (VStr "last_timestamp")
                 (VInt (timestamp state))) in
          (tr4, Ok (result, 0, VDict (trader_data tr4)))
      end
  end.

End WithSqrt.

End Round3.

(* ================================================================= *)
(** ** ROUND-2/premium_narrowdown.py

    Line 150 of the file reads [Update price history] without the comment
    mark of its neighbours; it is read here as the comment it was meant to
    be. *)

Module Round2.

Definition POSITION_LIMITS : list (string * Z) :=
  [("RAINFOREST_RESIN", 50); ("KELP", 50); ("CROISSANTS", 250);
   ("PICNIC_BASKET1", 60); ("PICNIC_BASKET2", 100)].

Definition COMPONENTS : list (string * list (string * Z)) :=
  [("PICNIC_BASKET1", [("CROISSANTS", 6); ("JAMS", 3); ("DJEMBES", 1)]);
   ("PICNIC_BASKET2", [("CROISSANTS", 4); ("JAMS", 2)])].

(** One entry of [dynamic_params]. *)
Record BufferParams : Type := mkBufferParams
  { buffer_multiplier : Q; min_buffer : Q; max_buffer : Q;
    current_buffer : Q }.

(** The attributes of a [Trader] object that can change. *)
Record Trader : Type := mkTrader
  { croissant_history : list Q;
    trader_data : list (value * value);
    dynamic_params : list (string * BufferParams) }.

(** [Trader.__init__] *)
Definition init : Trader :=
  {| croissant_history := [];
     trader_data :=
       [(VStr "spread_history",
          VDict [(VStr "PICNIC_BASKET1", VList []);
                 (VStr "PICNIC_BASKET2", VList [])]);
        (VStr "last_timestamp", VInt 0);
        (VStr "open_positions", VDict []);
        (VStr "price_history", VDict [])];
     dynamic_params :=
       [("PICNIC_BASKET1", mkBufferParams (22 # 10) 2 10 3);
        ("PICNIC_BASKET2", mkBufferParams 2 (15 # 10) 8 2)] |}.

Definition set_trader_data (tr : Trader) (td : list (value * value)) : Trader :=
  {| croissant_history := croissant_history tr;
     trader_data := td;
     dynamic_params := dynamic_params tr |}.

Definition set_croissant_history (tr : Trader) (h : list Q) : Trader :=
  {| croissant_history := h;
     trader_data := trader_data tr;
     dynamic_params := dynamic_params tr |}.

Definition set_dynamic_params (tr : Trader) (dp : list (string * BufferParams))
  : Trader :=
  {| croissant_history := croissant_history tr;
     trader_data := trader_data tr;
     dynamic_params := dp |}.

(** [update_croissant_history] *)
Definition update_croissant_history (tr : Trader) (current_price : Q) : Trader :=
  set_croissant_history tr
    (push_window croissant_window (croissant_history tr) current_price).

(** [calculate_spread_stats] *)
Definition calculate_spread_stats (order_depth : OrderDepth) : option Z :=
  if one_sided order_depth then None
  else Some (min_list (keys (sell_orders order_depth))
             - max_list (keys (buy_orders order_depth))).

(** [calculate_liquidity] *)
Definition calculate_liquidity (order_depth : OrderDepth) : Z :=
  if one_sided order_depth then 0
  else Z.min (max_list (values (buy_orders order_depth)))
         (Z.abs (min_list (values (sell_orders order_depth)))).

(** [update_dynamic_buffers].  On a history with an element that is not a
    number, [statistics.median] or the product with the multiplier raises
    [TypeError], after the history has been extended. *)
Definition update_dynamic_buffers (tr : Trader) (product : string)
  (current_spread : Q) : Trader * res unit :=
  match get key_eqb (trader_data tr) (VStr "spread_history") with
  | Some (VDict sh) =>
      match get key_eqb sh (VStr product) with
      | Some (VList history) =>
          let h1 := history ++ [VFloat current_spread] in
          let h2 := if (20 <? List.length h1)%nat then tl h1 else h1 in
          let tr' :=
            set_trader_data tr
              (set key_eqb (trader_data tr) (VStr "spread_history")
                 (VDict (set key_eqb sh (VStr product) (VList h2)))) in
          if (5 <=? List.length h2)%nat then
            match numbers h2 with
            | Some xs =>
                let median_spread := median xs in
                match get String.eqb (dynamic_params tr) product with
                | Some params =>
                    let buffer :=
                      py_max (min_buffer params)
                        (py_min (max_buffer params)
                           (median_spread * buffer_multiplier params)%Q) in
                    (set_dynamic_params tr'
                       (set String.eqb (dynamic_params tr) product
                          (mkBufferParams (buffer_multiplier params)
                             (min_buffer params) (max_buffer params) buffer)),
                     Ok tt)
                | None => (tr', Raise KeyError)
                end
            | None => (tr', Raise TypeError)
            end
          else (tr', Ok tt)
      | Some _ => (tr, Raise AttributeError)
      | None => (tr, Raise KeyError)
      end
  | Some _ => (tr, Raise TypeError)
  | None => (tr, Raise KeyError)
  end.

(** [sum(p*v for p,v in book.items()) / sum(book.values())], with the
    volumes taken through [f] (the identity for bids, [abs] for asks). *)
Definition vwap (f : Z -> Z) (book : list (Z * Z)) : res Q :=
  let num := fold_left (fun acc pv => acc + fst pv * f (snd pv)) book 0 in
  let den := fold_left (fun acc v => acc + f v) (values book) 0 in
  if den =? 0 then Raise ZeroDivisionError
  else Ok (inject_Z num / inject_Z den)%Q.

(** Body of [for comp, qty in components.items()] in
    [calculate_fair_value]; [None] is the early [return None]. *)
Definition add_component (state : TradingState) (total : option Q)
  (cq : string * Z) : res (option Q) :=
  match total with
  | None => Ok None
  | Some total =>
      match get String.eqb (order_depths state) (fst cq) with
      | None => Ok None
      | Some depth =>
          if one_sided depth then Ok None
          else
            bid_vwap <- vwap (fun v => v) (buy_orders depth);;
            ask_vwap <- vwap Z.abs (sell_orders depth);;
            Ok (Some (total + inject_Z (snd cq) * (bid_vwap + ask_vwap) / 2)%Q)
      end
  end.

(** [calculate_fair_value] *)
Definition calculate_fair_value (components : list (string * Z))
  (state : TradingState) : res (option Q) :=
  for_each (add_component state) components (Some 0%Q).

Section WithSqrt.
Variable sqrt_float : Q -> Q.

(** [calculate_z_score] *)
Definition calculate_z_score (tr : Trader) (current_price : Q) : Q :=
  z_score sqrt_float croissant_window (croissant_history tr) current_price.

(** Body of [for product in state.order_depths] in [run] (lines 131-199). *)
Definition process_product (state : TradingState) (st : Trader * Result)
  (product : string) : Trader * res Result :=
  let '(tr, result) := st in
  match get String.eqb POSITION_LIMITS product with
  | None => (tr, Ok result)
  | Some position_limit =>
      match get String.eqb (order_depths state) product with
      | None => (tr, Raise KeyError)
      | Some order_depth =>
          let current_position := position_of state product in
          if one_sided order_depth then
            (* Skip if no market data *)
            (tr, Ok (set String.eqb result product []))
          else if String.eqb product "RAINFOREST_RESIN"
                  || String.eqb product "KELP" then
            match mean_reversion (trader_data tr) product order_depth
                    position_limit current_position with
            | (td', Ok orders) =>
                (set_trader_data tr td',
                 Ok (set String.eqb result product orders))
            | (td', Raise e) => (set_trader_data tr td', Raise e)
            end
          else if String.eqb product "CROISSANTS" then
            let mid_price := mid_price_of order_depth in
            let tr' := update_croissant_history tr mid_price in
            let z_score := calculate_z_score tr' mid_price in
            (tr',
             Ok (set String.eqb result product
                   (threshold_orders z_score product order_depth
                      position_limit current_position)))
          else (tr, Ok (set String.eqb result product []))
      end
  end.

Fixpoint product_loop (state : TradingState) (products : list string)
  (st : Trader * Result) : Trader * res Result :=
  match products with
  | [] => (fst st, Ok (snd st))
  | product :: rest =>
      match process_product state st product with
      | (tr', Ok result') => product_loop state rest (tr', result')
      | (tr', Raise e) => (tr', Raise e)
      end
  end.

(** [Trader.run] *)
Definition run (tr : Trader) (state : TradingState)
  : Trader * res (Result * Z * value) :=
  let tr1 := set_trader_data tr (restore (trader_data tr) (traderData state)) in
  match product_loop state (keys (order_depths state)) (tr1, []) with
  | (tr2, Raise e) => (tr2, Raise e)
  | (tr2, Ok result) =>
      let tr3 :=
        set_trader_data tr2
          (set key_eqb (trader_data tr2) (VStr "last_timestamp")
             (VInt (timestamp state))) in
      (tr3, Ok (result, 0, VDict (trader_data tr3)))
  end.

End WithSqrt.

End Round2.

(* ================================================================= *)
(** ** Notions of the specification *)

Module Spec.

(** The running position stays in [[-L, L]] after every order of [orders],
    applied in order from position [p]. *)
Fixpoint within_limit (L p : Z) (orders : list Order) : Prop :=
  match orders with
  | [] => True
  | o :: rest =>
      - L <= p + quantity o <= L /\ within_limit L (p + quantity o) rest
  end.

(** The order book of the data model: bid volumes are positive, ask volumes
    are negative, and a side holds a price once. *)
Definition wf_depth (order_depth : OrderDepth) : Prop :=
  Forall (fun pv => 0 < snd pv) (buy_orders order_depth)
  /\ Forall (fun pv => snd pv < 0) (sell_orders order_depth)
  /\ NoDup (keys (buy_orders order_depth))
  /\ NoDup (keys (sell_orders order_depth)).

(** Every book of the snapshot is a book of the data model. *)
Definition wf_books (state : TradingState) : Prop :=
  Forall (fun pd => wf_depth (snd pd)) (order_depths state).

(** Buy side of the order generator, in the words of the specification:
    over the ask levels in the given order, a level priced strictly below
    [F] met while the position is below [L] is bought for
    [min(|v|, L - p)] at its price. *)
Fixpoint spec_buys (product : string) (F : Q) (L p : Z) (levels : list (Z * Z))
  : list Order * Z :=
  match levels with
  | [] => ([], p)
  | (a, v) :: rest =>
      if Qltb (inject_Z a) F && (p <? L) then
        let q := Z.min (Z.abs v) (L - p) in
        let '(os, p') := spec_buys product F L (p + q) rest in
        (mkOrder product a q :: os, p')
      else spec_buys product F L p rest
  end.

(** Sell side, in the words of the specification: over the bid levels in the
    given order, a level priced strictly above [F] met while the position is
    above [-L] is sold for [min(v, p + L)] at its price. *)
Fixpoint spec_sells (product : string) (F : Q) (L p : Z) (levels : list (Z * Z))
  : list Order * Z :=
  match levels with
  | [] => ([], p)
  | (b, v) :: rest =>
      if Qltb F (inject_Z b) && (- L <? p) then
        let q := Z.min v (p + L) in
        let '(os, p') := spec_sells product F L (p - q) rest in
        (mkOrder product b (- q) :: os, p')
      else spec_sells product F L p rest
  end.

(** Levels in ascending and in descending price order. *)
Definition ascending (levels : list (Z * Z)) : Prop :=
  StronglySorted (fun x y => fst x < fst y) levels.

Definition descending (levels : list (Z * Z)) : Prop :=
  StronglySorted (fun x y => fst x > fst y) levels.

(** What the BUY and SELL loops keep true: the orders emitted so far are
    within the limit from the starting position [p0] and lead to the running
    position. *)
Definition walk_inv (L p0 : Z) (st : list Order * Z) : Prop :=
  within_limit L p0 (fst st)
  /\ fold_left (fun q o => q + quantity o) (fst st) p0 = snd st
  /\ - L <= snd st <= L.

(** The configured position limit of a product of round 3: the short limit
    for a voucher, the entry of [pb_position_limits] otherwise. *)
Definition limit_of_round3 (product : string) : option Z :=
  if startswith product "VOLCANIC_ROCK_VOUCHER" then Some Round3.vr_max_short
  else get String.eqb Round3.pb_position_limits product.

(** The book of [product] in [state], if there is one, is a book of the
    data model. *)
Definition wf_book_of (state : TradingState) (product : string) : Prop :=
  forall order_depth,
    get String.eqb (order_depths state) product = Some order_depth ->
    wf_depth order_depth.

(** Every order list of an output mapping keeps its product within the
    product's limit, from the product's position in [state], when the book
    of the product is a book of the data model. *)
Definition result_safe (limit_of : string -> option Z) (state : TradingState)
  (result : Result) : Prop :=
  forall product orders L,
    get String.eqb result product = Some orders ->
    limit_of product = Some L ->
    wf_book_of state product ->
    - L <= position_of state product <= L ->
    within_limit L (position_of state product) orders.

(** The levels of [book] at the prices [ks]. *)
Definition levels_at (book : list (Z * Z)) (ks : list Z) : list (Z * Z) :=
  map (fun k => (k, volume_at book k)) ks.

(** The volume-weighted average price over all levels of one side of a
    book: the prices weighted by the magnitudes of the volumes. *)
Definition weighted_sum (book : list (Z * Z)) : Z :=
  fold_right (fun pv acc => fst pv * Z.abs (snd pv) + acc) 0 book.

Definition total_volume (book : list (Z * Z)) : Z :=
  fold_right (fun pv acc => Z.abs (snd pv) + acc) 0 book.

Definition spec_vwap (book : list (Z * Z)) : Q :=
  (inject_Z (weighted_sum book) / inject_Z (total_volume book))%Q.

(** Fair price of a component: the mean of its bid and ask VWAP. *)
Definition component_fair (state : TradingState) (comp : string) : Q :=
  match get String.eqb (order_depths state) comp with
  | Some depth =>
      ((spec_vwap (buy_orders depth) + spec_vwap (sell_orders depth)) / 2)%Q
  | None => 0%Q
  end.

(** The sum over the components of quantity times component fair price. *)
Definition spec_fair_value (components : list (string * Z))
  (state : TradingState) : Q :=
  fold_right
    (fun cq acc => (inject_Z (snd cq) * component_fair state (fst cq) + acc)%Q)
    0%Q components.

(** The book of a component is missing or has an empty side. *)
Definition component_unavailable (state : TradingState) (comp : string) : Prop :=
  match get String.eqb (order_depths state) comp with
  | None => True
  | Some depth => buy_orders depth = [] \/ sell_orders depth = []
  end.

(** A square root on floats to run the traders with: the floor of the root
    to three decimals. *)
Definition sqrt_milli (x : Q) : Q :=
  (inject_Z (Z.sqrt (Qfloor (x * 1000000))) / 1000)%Q.

(** A two-level book: bids 99 and 98, asks 101 and 102, five units each. *)
Definition small_book : OrderDepth :=
  mkOrderDepth [(99, 5); (98, 5)] [(101, -5); (102, -5)].

(** A round-1 tick: KELP quoted by [small_book], a stored history of one
    price 90, no position. *)
Definition tick_kelp_round1 : TradingState :=
  mkTradingState (BlobValue (VDict [(VStr "KELP", VList [VInt 90])])) 100
    [("KELP", small_book)] [].

(** A tick for rounds 2 and 3: the same KELP history in the blob, and books
    for KELP, a voucher, CROISSANTS and a basket; no underlying, no
    position. *)
Definition tick_mixed : TradingState :=
  mkTradingState
    (BlobValue
       (VDict [(VStr "price_history",
                 VDict [(VStr "KELP", VList [VInt 90])])]))
    100
    [("KELP", small_book);
     ("VOLCANIC_ROCK_VOUCHER_10250", mkOrderDepth [] []);
     ("CROISSANTS", small_book);
     ("PICNIC_BASKET1", small_book)]
    [].

(** A tick with books for the components of PICNIC_BASKET2. *)
Definition tick_basket2 : TradingState :=
  mkTradingState BlobEmpty 100
    [("CROISSANTS", small_book); ("JAMS", small_book)] [].

(** The components of PICNIC_BASKET2 in [COMPONENTS]. *)
Definition basket2 : list (string * Z) := [("CROISSANTS", 4); ("JAMS", 2)].

(** The same tick without a book for JAMS. *)
Definition tick_no_jams : TradingState :=
  mkTradingState BlobEmpty 100 [("CROISSANTS", small_book)] [].

(** Rolling windows of 100 prices: a flat one, and one whose last price is an
    outlier. *)
Definition flat_window : list Q := repeat 100%Q 100.
Definition outlier_window : list Q := repeat 100%Q 99 ++ [200%Q].

(** A round-3 trader that has seen the underlying at 10600. *)
Definition trader_at_10600 : Round3.Trader :=
  Round3.mkTrader 10600 [10600%Q] []
    (Round3.pb_dynamic_params Round3.init) (Round3.trader_data Round3.init).

(** A tick that quotes the voucher of strike 10500 only. *)
Definition tick_voucher_10500 : TradingState :=
  mkTradingState BlobEmpty 100
    [("VOLCANIC_ROCK_VOUCHER_10500", small_book)] [].

(** The tick [state] with another blob. *)
Definition with_blob (state : TradingState) (b : blob) : TradingState :=
  mkTradingState b (timestamp state) (order_depths state) (position state).

(** A blob that decodes, and whose second field cannot be merged:
    [{"spread_history": {"X": 1}, "price_history": 3}]. *)
Definition half_merged_blob : blob :=
  BlobValue
    (VDict [(VStr "spread_history", VDict [(VStr "X", VInt 1)]);
            (VStr "price_history", VInt 3)]).

(** A first tick on which KELP has asks and no bid. *)
Definition tick_kelp_no_bid : TradingState :=
  mkTradingState BlobEmpty 100 [("KELP", mkOrderDepth [] [(900, -5)])] [].

(** [clamp(x, lo, hi)] *)
Definition clamp (x lo hi : Q) : Q :=
  if Qltb x lo then lo else if Qltb hi x then hi else x.

(** A tick that quotes PICNIC_BASKET1 with [small_book] (spread 2), the blob
    holding four earlier spreads of 10 for it. *)
Definition tick_basket1 : TradingState :=
  mkTradingState
    (BlobValue
       (VDict [(VStr "spread_history",
                 VDict [(VStr "PICNIC_BASKET1",
                          VList [VInt 10; VInt 10; VInt 10; VInt 10])])]))
    100 [("PICNIC_BASKET1", small_book)] [].

(** The round-2 trader after the restoration of the blob of
    [tick_basket1]. *)
Definition trader_basket1 : Round2.Trader :=
  Round2.set_trader_data Round2.init
    (restore (Round2.trader_data Round2.init) (traderData tick_basket1)).

(** *** The round-3 trader under the protocol of the exchange *)

(** A price history given by its products and float prices, as the value the
    trader stores. *)
Definition encode_history (es : list (string * list Q)) : list (value * value) :=
  map (fun e => (VStr (fst e), VList (map VFloat (snd e)))) es.

(** The moving-average update on such a history. *)
Definition push_price (es : list (string * list Q)) (product : string)
  (mid_price : Q) : list (string * list Q) :=
  let es1 := if mem String.eqb es product then es
             else set String.eqb es product [] in
  match get String.eqb es1 product with
  | Some h =>
      let h1 := h ++ [mid_price] in
      let es2 := set String.eqb es1 product h1 in
      if (5 <? List.length h1)%nat
      then set String.eqb es2 product (last_n 5 h1)
      else es2
  | None => es1
  end.

(** The spread histories that [__init__] creates. *)
Definition empty_spread_history : list (value * value) :=
  [(VStr "PICNIC_BASKET1", VList []); (VStr "PICNIC_BASKET2", VList [])].

(** [trader_data] with an int timestamp, float price histories under
    distinct products, and the spread histories of the constructor. *)
Definition plain_trader_data (t : Z) (es : list (string * list Q))
  : list (value * value) :=
  [(VStr "last_timestamp", VInt t);
   (VStr "price_history", VDict (encode_history es));
   (VStr "spread_history", VDict empty_spread_history)].

Definition is_plain (td : list (value * value)) : Prop :=
  exists t es, NoDup (keys es) /\ td = plain_trader_data t es.

(** The blobs that the exchange hands over: the empty one of the first
    tick, or the serialization of a plain [trader_data]. *)
Definition plain_blob (b : blob) : Prop :=
  b = BlobEmpty \/ exists td, is_plain td /\ b = BlobValue (VDict td).

(** A trader object together with the blob that the exchange holds for it:
    a fresh object and the empty blob at the start; after a tick that
    returns, the object and the blob it returned; after a tick that raises,
    the object and the old blob; and at any time a fresh object may take
    over with the blob held. *)
Inductive served (sqrt_float : Q -> Q) : Round3.Trader -> blob -> Prop :=
| served_start : served sqrt_float Round3.init BlobEmpty
| served_tick tr state tr' result c v :
    served sqrt_float tr (traderData state) ->
    Round3.run sqrt_float tr state = (tr', Ok (result, c, v)) ->
    served sqrt_float tr' (BlobValue v)
| served_failed tr state tr' e :
    served sqrt_float tr (traderData state) ->
    Round3.run sqrt_float tr state = (tr', Raise e) ->
    served sqrt_float tr' (traderData state)
| served_restart tr b :
    served sqrt_float tr b -> served sqrt_float Round3.init b.

(** The underlying is not quoted, or quoted on one side only. *)
Definition no_underlying (state : TradingState) : Prop :=
  component_unavailable state "VOLCANIC_ROCK".

(** The strike in the identifier of a voucher. *)
Definition strike_of (product : string) : res Z :=
  int_of_string (last_field product EmptyString).

(** A first tick: the underlying quoted around 10000, CROISSANTS and KELP
    quoted by [small_book]. *)
Definition tick_first : TradingState :=
  mkTradingState BlobEmpty 100
    [("VOLCANIC_ROCK", mkOrderDepth [(9999, 5)] [(10001, -5)]);
     ("CROISSANTS", small_book); ("KELP", small_book)] [].

(** The blob that the round-3 trader returns on [tick_first]. *)
Definition blob_after_first : value :=
  VDict (plain_trader_data 100 [("KELP", [200 # 2])]).

(** A second tick, with that blob: a voucher of strike 10250 and no quote
    of the underlying. *)
Definition tick_second : TradingState :=
  mkTradingState (BlobValue blob_after_first) 200
    [("VOLCANIC_ROCK_VOUCHER_10250", small_book)] [].

(** A first tick without a quote of the underlying: three vouchers, of
    strikes 10250, 10500 and 9500, and KELP. *)
Definition tick_first_no_underlying : TradingState :=
  mkTradingState BlobEmpty 100
    [("VOLCANIC_ROCK_VOUCHER_10250", small_book);
     ("VOLCANIC_ROCK_VOUCHER_10500", small_book);
     ("VOLCANIC_ROCK_VOUCHER_9500", small_book);
     ("KELP", small_book)] [].

End Spec.

Import Spec.

(* ================================================================= *)
(** ** Notions for the further properties *)

Module Cover.

(** The volume offered strictly below the price [F] on the ask side, and the
    volume bid strictly above [F] on the bid side. *)
Definition offered_below (F : Q) (asks : list (Z * Z)) : Z :=
  fold_right
    (fun pv acc =>
       if Qltb (inject_Z (fst pv)) F then Z.abs (snd pv) + acc else acc)
    0 asks.

Definition bid_above (F : Q) (bids : list (Z * Z)) : Z :=
  fold_right
    (fun pv acc => if Qltb F (inject_Z (fst pv)) then snd pv + acc else acc)
    0 bids.

(** The position reached by applying [orders] in order from [p]. *)
Definition position_after (p : Z) (orders : list Order) : Z :=
  fold_left (fun q o => q + quantity o) orders p.

(** The book has both sides and its best bid is not above its best ask. *)
Definition uncrossed (order_depth : OrderDepth) : Prop :=
  buy_orders order_depth <> [] /\ sell_orders order_depth <> []
  /\ best_bid_of order_depth <= best_ask_of order_depth.

(** A buy of at most the volume of an ask level priced below [F], or a sell
    of at most the volume of a bid level priced above [F]. *)
Definition fills_a_level (product : string) (F : Q) (order_depth : OrderDepth)
  (o : Order) : Prop :=
  symbol o = product
  /\ ((0 < quantity o
       /\ (inject_Z (price o) < F)%Q
       /\ exists v, In (price o, v) (sell_orders order_depth)
                    /\ quantity o <= - v)
      \/ (quantity o < 0
          /\ (F < inject_Z (price o))%Q
          /\ exists v, In (price o, v) (buy_orders order_depth)
                       /\ - quantity o <= v)).

(** The square root of floats maps zero to zero. *)
Definition sqrt_zero (sqrt_float : Q -> Q) : Prop :=
  forall x, (x == 0)%Q -> (sqrt_float x == 0)%Q.

(** A book with a bid above and an ask below the fair price 100: bids 103
    and 99, asks 97 and 101, of 20, 5, 30 and 5 units. *)
Definition crossed_book : OrderDepth :=
  mkOrderDepth [(103, 20); (99, 5)] [(97, -30); (101, -5)].

(** An order that takes a quote of the book: a buy at the price of an ask
    level or a sell at the price of a bid level, for the product. *)
Definition takes_quote (product : string) (order_depth : OrderDepth)
  (o : Order) : Prop :=
  symbol o = product
  /\ ((0 < quantity o /\ In (price o) (keys (sell_orders order_depth)))
      \/ (quantity o < 0 /\ In (price o) (keys (buy_orders order_depth)))).

(** The order lists that the strategies of the three traders produce for a
    product with book [order_depth] and limit [L]: none, the walk of the
    book at some fair price, or the threshold orders of some z-score on a
    book with both sides. *)
Inductive strategy_orders (state : TradingState) (product : string)
  (order_depth : OrderDepth) (L : Z) : list Order -> Prop :=
| no_orders : strategy_orders state product order_depth L []
| walk_orders (F : Q) :
    strategy_orders state product order_depth L
      (book_walk product F L (position_of state product) order_depth)
| z_orders (z : Q) :
    one_sided order_depth = false ->
    strategy_orders state product order_depth L
      (threshold_orders z product order_depth L (position_of state product)).




(** A first tick of round 1 that quotes SQUID_INK by a crossed book, and
    KELP. *)
Definition tick_squid_ink : TradingState :=
  mkTradingState BlobEmpty 100
    [("SQUID_INK", crossed_book); ("KELP", small_book)] [].

(** *** The round-2 trader under the protocol of the exchange *)

(** [trader_data] of round 2 with an int timestamp, float price histories
    under distinct products, and the spread histories and open positions of
    the constructor. *)
Definition round2_trader_data (t : Z) (es : list (string * list Q))
  : list (value * value) :=
  [(VStr "spread_history", VDict empty_spread_history);
   (VStr "last_timestamp", VInt t);
   (VStr "open_positions", VDict []);
   (VStr "price_history", VDict (encode_history es))].

Definition is_round2_data (td : list (value * value)) : Prop :=
  exists t es, NoDup (keys es) /\ td = round2_trader_data t es.

Definition round2_blob (b : blob) : Prop :=
  b = BlobEmpty \/ exists td, is_round2_data td /\ b = BlobValue (VDict td).

(** A round-2 trader object together with the blob that the exchange holds
    for it, as [served] for round 3. *)
Inductive served2 (sqrt_float : Q -> Q) : Round2.Trader -> blob -> Prop :=
| served2_start : served2 sqrt_float Round2.init BlobEmpty
| served2_tick tr state tr' result c v :
    served2 sqrt_float tr (traderData state) ->
    Round2.run sqrt_float tr state = (tr', Ok (result, c, v)) ->
    served2 sqrt_float tr' (BlobValue v)
| served2_failed tr state tr' e :
    served2 sqrt_float tr (traderData state) ->
    Round2.run sqrt_float tr state = (tr', Raise e) ->
    served2 sqrt_float tr' (traderData state)
| served2_restart tr b :
    served2 sqrt_float tr b -> served2 sqrt_float Round2.init b.

(** Every stored price history holds one to five prices. *)
Definition bounded_histories (es : list (string * list Q)) : Prop :=
  Forall (fun e => (1 <= List.length (snd e) <= 5)%nat) es.

(** The blobs that the exchange holds for the round-1 trader, whose only
    state is the blob: the empty one at the start, and after a tick that
    returns, the blob it returned. *)
Inductive served1 : blob -> Prop :=
| served1_start : served1 BlobEmpty
| served1_tick state result c v :
    served1 (traderData state) ->
    Round1.run state = Ok (result, c, v) ->
    served1 (BlobValue v).

(** Every entry of an output mapping satisfies [Q]. *)
Definition entries (Q : string -> list Order -> Prop) (result : Result)
  : Prop :=
  forall product orders,
    get String.eqb result product = Some orders -> Q product orders.

End Cover.

Import Cover.

(* ================================================================= *)
(** * Properties *)

Lemma Ok_inj {A : Type} (a b : A) : Ok a = Ok b -> a = b.
Proof. intros H. injection H. auto. Qed.

Lemma Some_inj {A : Type} (a b : A) : Some a = Some b -> a = b.
Proof. intros H. injection H. auto. Qed.

(** ** Dictionaries *)

Section DictFacts.
Context {K V : Type} (eqb : K -> K -> bool).
Hypothesis eqb_eq : forall a b, eqb a b = true <-> a = b.

Lemma get_set_same (d : list (K * V)) k v : get eqb (set eqb d k v) k = Some v.
Proof.
  induction d as [|[k' v'] d IH]; simpl.
  - assert (E : eqb k k = true) by (apply eqb_eq; reflexivity).
    rewrite E. reflexivity.
  - destruct (eqb k' k) eqn:E; simpl; rewrite E; auto.
Qed.

Lemma get_set_other (d : list (K * V)) k k' v :
  k <> k' -> get eqb (set eqb d k v) k' = get eqb d k'.
Proof.
  intros Hne. induction d as [|[k0 v0] d IH]; simpl.
  - destruct (eqb k k') eqn:E; auto. apply eqb_eq in E. contradiction.
  - destruct (eqb k0 k) eqn:E; simpl.
    + apply eqb_eq in E. subst k0.
      destruct (eqb k k') eqn:E'; auto. apply eqb_eq in E'. contradiction.
    + destruct (eqb k0 k'); auto.
Qed.

Lemma get_In (d : list (K * V)) k v : get eqb d k = Some v -> In (k, v) d.
Proof.
  induction d as [|[k0 v0] d IH]; simpl; intros H; [discriminate|].
  destruct (eqb k0 k) eqn:E.
  - apply eqb_eq in E. inversion H. subst. auto.
  - auto.
Qed.

Lemma In_get (d : list (K * V)) k v :
  NoDup (keys d) -> In (k, v) d -> get eqb d k = Some v.
Proof.
  induction d as [|[k0 v0] d IH]; simpl; intros Hnd Hin; [contradiction|].
  inversion Hnd as [|? ? Hnot Hnd']; subst.
  destruct Hin as [Heq|Hin].
  - inversion Heq; subst.
    assert (E : eqb k k = true) by (apply eqb_eq; reflexivity).
    rewrite E. reflexivity.
  - destruct (eqb k0 k) eqn:E.
    + apply eqb_eq in E. subst k0. exfalso. apply Hnot.
      change k with (fst (k, v)). apply in_map. exact Hin.
    + auto.
Qed.

End DictFacts.

Lemma string_eqb_iff (a b : string) : String.eqb a b = true <-> a = b.
Proof. apply String.eqb_eq. Qed.

Lemma Z_eqb_iff (a b : Z) : Z.eqb a b = true <-> a = b.
Proof. apply Z.eqb_eq. Qed.

(** ** Position-limit safety of the order generator *)

Lemma within_limit_app L p os1 os2 :
  within_limit L p (os1 ++ os2) <->
  within_limit L p os1
  /\ within_limit L (fold_left (fun q o => q + quantity o) os1 p) os2.
Proof.
  revert p. induction os1 as [|o os1 IH]; intros p; simpl.
  - tauto.
  - rewrite IH. tauto.
Qed.

Lemma volume_at_neg asks a :
  Forall (fun pv => snd pv < 0) asks -> volume_at asks a <= 0.
Proof.
  unfold volume_at. intros H.
  destruct (get Z.eqb asks a) as [v|] eqn:E; [|lia].
  apply (get_In Z.eqb Z_eqb_iff) in E.
  rewrite Forall_forall in H. apply H in E. simpl in E. lia.
Qed.

Lemma volume_at_pos bids b :
  Forall (fun pv => 0 < snd pv) bids -> 0 <= volume_at bids b.
Proof.
  unfold volume_at. intros H.
  destruct (get Z.eqb bids b) as [v|] eqn:E; [|lia].
  apply (get_In Z.eqb Z_eqb_iff) in E.
  rewrite Forall_forall in H. apply H in E. simpl in E. lia.
Qed.

Lemma buy_level_inv product F L asks p0 st a :
  Forall (fun pv => snd pv < 0) asks ->
  walk_inv L p0 st -> walk_inv L p0 (buy_level product F L asks st a).
Proof.
  intros Hasks (Hw & Hpos & Hb). destruct st as [orders p]. simpl in *.
  unfold buy_level.
  destruct (Qltb (inject_Z a) F && (p <? L)) eqn:E;
    [|unfold walk_inv; simpl; auto].
  apply andb_true_iff in E. destruct E as [_ E]. apply Z.ltb_lt in E.
  pose proof (volume_at_neg asks a Hasks) as Hv.
  unfold walk_inv. simpl. rewrite within_limit_app, fold_left_app. simpl.
  rewrite Hpos. repeat split; auto; lia.
Qed.

Lemma sell_level_inv product F L bids p0 st b :
  Forall (fun pv => 0 < snd pv) bids ->
  walk_inv L p0 st -> walk_inv L p0 (sell_level product F L bids st b).
Proof.
  intros Hbids (Hw & Hpos & Hb). destruct st as [orders p]. simpl in *.
  unfold sell_level.
  destruct (Qltb F (inject_Z b) && (- L <? p)) eqn:E;
    [|unfold walk_inv; simpl; auto].
  apply andb_true_iff in E. destruct E as [_ E]. apply Z.ltb_lt in E.
  pose proof (volume_at_pos bids b Hbids) as Hv.
  unfold walk_inv. simpl. rewrite within_limit_app, fold_left_app. simpl.
  rewrite Hpos. repeat split; auto; lia.
Qed.

Lemma fold_left_inv {A S : Type} (P : S -> Prop) (f : S -> A -> S) l s :
  (forall s a, P s -> P (f s a)) -> P s -> P (fold_left f l s).
Proof.
  intros Hf. revert s. induction l as [|a l IH]; simpl; auto.
Qed.

Lemma book_walk_within_limit product F L p order_depth :
  wf_depth order_depth -> - L <= p <= L ->
  within_limit L p (book_walk product F L p order_depth).
Proof.
  intros (Hb & Ha & _ & _) Hp.
  unfold book_walk, book_walk_from.
  apply (fold_left_inv (walk_inv L p)).
  - intros st b. apply sell_level_inv. exact Hb.
  - apply (fold_left_inv (walk_inv L p)).
    + intros st a. apply buy_level_inv. exact Ha.
    + unfold walk_inv. simpl. auto.
Qed.

Lemma threshold_orders_within_limit z product order_depth L p :
  - L <= p <= L ->
  within_limit L p (threshold_orders z product order_depth L p).
Proof.
  intros Hp. unfold threshold_orders, max_trade_size.
  destruct (Qltb std_threshold z).
  - destruct (0 <? Z.min 10 (L + p)) eqn:E; [|exact I].
    apply Z.ltb_lt in E. cbn [within_limit quantity]. lia.
  - destruct (Qltb z (- std_threshold)); [|exact I].
    destruct (0 <? Z.min 10 (L - p)) eqn:E; [|exact I].
    apply Z.ltb_lt in E. cbn [within_limit quantity]. lia.
Qed.

Lemma vr_short_itm_voucher_within_limit tr product state orders :
  Round3.vr_short_itm_voucher tr product state = Ok orders ->
  - Round3.vr_max_short <= position_of state product <= Round3.vr_max_short ->
  within_limit Round3.vr_max_short (position_of state product) orders.
Proof.
  unfold Round3.vr_short_itm_voucher, Round3.vr_max_short. intros H Hp.
  destruct (int_of_string _) as [strike|]; cbn [Py.bind] in H; [|discriminate].
  destruct (Qle_bool _ _); [apply Ok_inj in H; subst; exact I|].
  destruct (200 + position_of state product <=? 0) eqn:E;
    [apply Ok_inj in H; subst; exact I|].
  apply Z.leb_gt in E. apply Ok_inj in H. subst orders.
  cbn [within_limit quantity]. lia.
Qed.

Lemma result_safe_nil limit_of state : result_safe limit_of state [].
Proof. intros product orders L H. discriminate. Qed.

Lemma result_safe_set limit_of state result product orders :
  result_safe limit_of state result ->
  (forall L, limit_of product = Some L ->
             wf_book_of state product ->
             - L <= position_of state product <= L ->
             within_limit L (position_of state product) orders) ->
  result_safe limit_of state (set String.eqb result product orders).
Proof.
  intros Hr Ho P os L Hget Hlim Hwfp Hp.
  destruct (string_dec product P) as [->|Hne].
  - rewrite (get_set_same String.eqb string_eqb_iff) in Hget.
    apply Some_inj in Hget. subst. auto.
  - rewrite (get_set_other String.eqb string_eqb_iff) in Hget by exact Hne.
    eapply Hr; eauto.
Qed.

Lemma wf_books_get state product order_depth :
  wf_books state ->
  get String.eqb (order_depths state) product = Some order_depth ->
  wf_depth order_depth.
Proof.
  intros Hwf Hget. apply (get_In String.eqb string_eqb_iff) in Hget.
  unfold wf_books in Hwf. rewrite Forall_forall in Hwf.
  apply Hwf in Hget. exact Hget.
Qed.

Lemma for_each_inv {A S : Type} (P : S -> Prop) (body : S -> A -> res S) l s r :
  (forall s a s', P s -> body s a = Ok s' -> P s') ->
  P s -> for_each body l s = Ok r -> P r.
Proof.
  intros Hbody. revert s. induction l as [|a l IH]; simpl; intros s Hs H.
  - inversion H; subst; auto.
  - destruct (body s a) as [s'|] eqn:E; [|discriminate]. eauto.
Qed.

(** *** Round 1 *)

Lemma round1_process_product_safe state st product st' :
  result_safe (get String.eqb Round1.position_limits) state (snd st) ->
  Round1.process_product state st product = Ok st' ->
  result_safe (get String.eqb Round1.position_limits) state (snd st').
Proof.
  intros Hsafe H. destruct st as [ph result]. cbn [snd] in Hsafe.
  unfold Round1.process_product in H.
  destruct (get String.eqb (order_depths state) product) as [od|] eqn:Eod;
    [|discriminate].
  destruct (get String.eqb Round1.position_limits product) as [lim|] eqn:El;
    [|discriminate].
  destruct (Round1.fair_price_of ph product od) as [[ph' F]|];
    cbn [Py.bind] in H; [|discriminate].
  destruct (String.eqb product "SQUID_INK"); apply Ok_inj in H; subst st';
    cbn [snd]; apply result_safe_set; auto.
  - intros L _ _ _. exact I.
  - intros L HL Hwfp Hp. rewrite El in HL. apply Some_inj in HL. subst lim.
    apply book_walk_within_limit; auto.
Qed.

Lemma round1_run_safe state result c td :
  Round1.run state = Ok (result, c, td) ->
  result_safe (get String.eqb Round1.position_limits) state result.
Proof.
  intros H. unfold Round1.run in H.
  destruct (match traderData state with
            | BlobEmpty => Ok (VDict [])
            | BlobUndecodable => Raise JSONDecodeError
            | BlobValue v => Ok v
            end) as [ph|]; cbn [Py.bind] in H; [|discriminate].
  destruct (for_each _ _ _) as [[ph' result']|] eqn:E; cbn [Py.bind] in H;
    [|discriminate].
  apply Ok_inj in H. injection H as -> _ _.
  change result with (snd (ph', result)).
  eapply (for_each_inv
            (fun st => result_safe (get String.eqb Round1.position_limits)
                         state (snd st))); [| |exact E].
  - intros s a s' Hs Hb. eapply round1_process_product_safe; eauto.
  - apply result_safe_nil.
Qed.

(** *** Rounds 2 and 3 *)

Lemma mean_reversion_orders td product order_depth L p td' orders :
  mean_reversion td product order_depth L p = (td', Ok orders) ->
  exists F, orders = book_walk product F L p order_depth.
Proof.
  unfold mean_reversion. intros H.
  destruct (get key_eqb td (VStr "price_history")) as [[| | | | | |ph]|];
    try discriminate.
  destruct (push_mid ph product (mid_price_of order_depth)) as [ph' [[]|e]];
    try discriminate.
  destruct (get key_eqb ph' (VStr product)) as [history|]; try discriminate.
  destruct (average history) as [F|]; cbn [Py.bind] in H; try discriminate.
  exists F. injection H as _ H. symmetry. exact H.
Qed.

Lemma round2_process_product_safe sqrt_float state st product tr' result' :
  result_safe (get String.eqb Round2.POSITION_LIMITS) state (snd st) ->
  Round2.process_product sqrt_float state st product = (tr', Ok result') ->
  result_safe (get String.eqb Round2.POSITION_LIMITS) state result'.
Proof.
  intros Hsafe H. destruct st as [tr result]. cbn [snd] in Hsafe.
  unfold Round2.process_product in H.
  destruct (get String.eqb Round2.POSITION_LIMITS product) as [lim|] eqn:El.
  2:{ injection H as _ H. subst. exact Hsafe. }
  destruct (get String.eqb (order_depths state) product) as [od|] eqn:Eod;
    [|discriminate].
  assert (Hlim : forall orders,
             within_limit lim (position_of state product) orders \/
             orders = [] ->
             result_safe (get String.eqb Round2.POSITION_LIMITS) state
               (set String.eqb result product orders)).
  { intros orders Ho. apply result_safe_set; auto.
    intros L HL Hwfp Hp. rewrite El in HL. apply Some_inj in HL. subst L.
    destruct Ho as [Ho| ->]; [exact Ho|exact I]. }
  destruct (one_sided od).
  { injection H as _ H. subst. apply Hlim. right. reflexivity. }
  destruct (String.eqb product "RAINFOREST_RESIN" || String.eqb product "KELP").
  { destruct (mean_reversion _ _ _ _ _) as [td' [orders|e]] eqn:Em;
      [|discriminate].
    injection H as _ H. subst result'.
    apply result_safe_set; auto.
    intros L HL Hwfp Hp. rewrite El in HL. apply Some_inj in HL. subst L.
    apply mean_reversion_orders in Em. destruct Em as [F ->].
    apply book_walk_within_limit; auto. }
  destruct (String.eqb product "CROISSANTS").
  { injection H as _ H. subst result'.
    apply result_safe_set; auto.
    intros L HL Hwfp Hp. rewrite El in HL. apply Some_inj in HL. subst L.
    apply threshold_orders_within_limit. exact Hp. }
  injection H as _ H. subst. apply Hlim. right. reflexivity.
Qed.

Lemma round2_product_loop_safe sqrt_float state products st tr' result' :
  result_safe (get String.eqb Round2.POSITION_LIMITS) state (snd st) ->
  Round2.product_loop sqrt_float state products st = (tr', Ok result') ->
  result_safe (get String.eqb Round2.POSITION_LIMITS) state result'.
Proof.
  revert st. induction products as [|product rest IH];
    intros st Hsafe H; cbn [Round2.product_loop] in H.
  - injection H as _ H. subst. exact Hsafe.
  - destruct (Round2.process_product sqrt_float state st product)
      as [tr1 [result1|e]] eqn:E; [|discriminate].
    apply (IH (tr1, result1)); [|exact H].
    cbn [snd]. eapply round2_process_product_safe; eauto.
Qed.

Lemma round2_run_safe sqrt_float tr state tr' result c td :
  Round2.run sqrt_float tr state = (tr', Ok (result, c, td)) ->
  result_safe (get String.eqb Round2.POSITION_LIMITS) state result.
Proof.
  intros H. unfold Round2.run in H.
  destruct (Round2.product_loop _ _ _ _) as [tr2 [result2|e]] eqn:E;
    [|discriminate].
  injection H as _ H _ _. subst result2.
  eapply round2_product_loop_safe; [|exact E].
  cbn [snd]. apply result_safe_nil.
Qed.

Lemma pb_product_not_voucher product L :
  get String.eqb Round3.pb_position_limits product = Some L ->
  startswith product "VOLCANIC_ROCK_VOUCHER" = false.
Proof.
  unfold Round3.pb_position_limits. cbn [get]. intros H.
  repeat match type of H with
         | (if String.eqb ?a product then _ else _) = _ =>
             destruct (String.eqb a product) eqn:E;
             [apply String.eqb_eq in E; subst product; reflexivity|clear E]
         end.
  discriminate.
Qed.

Lemma pb_process_product_safe sqrt_float tr product state tr' orders L :
  wf_book_of state product ->
  Round3.pb_process_product sqrt_float tr product state = (tr', Ok orders) ->
  get String.eqb Round3.pb_position_limits product = Some L ->
  - L <= position_of state product <= L ->
  within_limit L (position_of state product) orders.
Proof.
  intros Hwfp H HL Hp. unfold Round3.pb_process_product in H.
  destruct (get String.eqb (order_depths state) product) as [od|] eqn:Eod;
    [|discriminate].
  rewrite HL in H.
  destruct (one_sided od).
  { injection H as _ H. subst. exact I. }
  destruct (String.eqb product "RAINFOREST_RESIN" || String.eqb product "KELP").
  { destruct (mean_reversion _ _ _ _ _) as [td' r] eqn:Em.
    injection H as _ H. subst r.
    apply mean_reversion_orders in Em. destruct Em as [F ->].
    apply book_walk_within_limit; auto. }
  destruct (String.eqb product "CROISSANTS").
  { injection H as _ H. subst orders.
    apply threshold_orders_within_limit. exact Hp. }
  injection H as _ H. subst. exact I.
Qed.

Lemma voucher_loop_safe tr state products result result' :
  result_safe limit_of_round3 state result ->
  Round3.voucher_loop tr state products result = Ok result' ->
  result_safe limit_of_round3 state result'.
Proof.
  revert result. induction products as [|product rest IH];
    intros result Hsafe H; cbn [Round3.voucher_loop] in H.
  - apply Ok_inj in H. subst. exact Hsafe.
  - destruct (startswith product "VOLCANIC_ROCK_VOUCHER") eqn:Ev;
      [|eapply IH; eauto].
    destruct (Round3.vr_short_itm_voucher tr product state) as [orders|]
      eqn:Eo; cbn [Py.bind] in H; [|discriminate].
    eapply IH; [|exact H].
    destruct (truthy orders); [|exact Hsafe].
    apply result_safe_set; auto.
    intros L HL Hwfp Hp. unfold limit_of_round3 in HL. rewrite Ev in HL.
    apply Some_inj in HL. subst L.
    eapply vr_short_itm_voucher_within_limit; eauto.
Qed.

Lemma pb_loop_safe sqrt_float tr state products result tr' result' :
  result_safe limit_of_round3 state result ->
  Round3.pb_loop sqrt_float tr state products result = (tr', Ok result') ->
  result_safe limit_of_round3 state result'.
Proof.
  revert tr result. induction products as [|product rest IH];
    intros tr result Hsafe H; cbn [Round3.pb_loop] in H.
  - injection H as _ H. subst. exact Hsafe.
  - unfold mem in H.
    destruct (get String.eqb Round3.pb_position_limits product) as [lim|]
      eqn:El; [|eapply IH; eauto].
    destruct (Round3.pb_process_product sqrt_float tr product state)
      as [tr1 [orders|e]] eqn:Ep; [|discriminate].
    eapply IH; [|exact H].
    destruct (truthy orders); [|exact Hsafe].
    apply result_safe_set; auto.
    intros L HL Hwfp Hp. unfold limit_of_round3 in HL.
    rewrite (pb_product_not_voucher product lim El) in HL.
    eapply pb_process_product_safe; eauto.
Qed.

Lemma round3_run_safe sqrt_float tr state tr' result c td :
  Round3.run sqrt_float tr state = (tr', Ok (result, c, td)) ->
  result_safe limit_of_round3 state result.
Proof.
  intros H. unfold Round3.run in H.
  destruct (Round3.voucher_loop _ _ _ _) as [result1|] eqn:E1; [|discriminate].
  destruct (Round3.pb_loop _ _ _ _ _) as [tr3 [result3|e]] eqn:E3;
    [|discriminate].
  injection H as _ H _ _. subst result3.
  eapply pb_loop_safe; [|exact E3].
  eapply voucher_loop_safe; [|exact E1]. apply result_safe_nil.
Qed.

(** ** C1: position-limit safety *)

(** C1.  For every product with configured limit [L], every starting position
    [p] with [|p| <= L] and every order book of the data model, the orders
    that a tick emits for the product, applied in emission order to [p], keep
    the running position in [[-L, L]] after every order.  This holds for the
    three traders, and so for the walk of the book (buy and sell), the z-score
    threshold orders and the intrinsic-value short. *)
Theorem C1_position_limit_safety :
  forall (sqrt_float : Q -> Q) (state : TradingState) (product : string)
         (L : Z) (orders : list Order),
    wf_book_of state product ->
    - L <= position_of state product <= L ->
    (forall result c td,
        get String.eqb Round1.position_limits product = Some L ->
        Round1.run state = Ok (result, c, td) ->
        get String.eqb result product = Some orders ->
        within_limit L (position_of state product) orders)
    /\ (forall tr tr' result c td,
        get String.eqb Round2.POSITION_LIMITS product = Some L ->
        Round2.run sqrt_float tr state = (tr', Ok (result, c, td)) ->
        get String.eqb result product = Some orders ->
        within_limit L (position_of state product) orders)
    /\ (forall tr tr' result c td,
        limit_of_round3 product = Some L ->
        Round3.run sqrt_float tr state = (tr', Ok (result, c, td)) ->
        get String.eqb result product = Some orders ->
        within_limit L (position_of state product) orders).
Proof.
  intros sqrt_float state product L orders Hwf Hp. repeat split.
  - intros result c td HL Hrun Hget.
    eapply (round1_run_safe state result c td Hrun); eauto.
  - intros tr tr' result c td HL Hrun Hget.
    eapply (round2_run_safe sqrt_float tr state tr' result c td Hrun);
      eauto.
  - intros tr tr' result c td HL Hrun Hget.
    eapply (round3_run_safe sqrt_float tr state tr' result c td Hrun);
      eauto.
Qed.

Ltac solve_nodup :=
  repeat (apply NoDup_cons; [cbn [In]; intuition discriminate|]);
  apply NoDup_nil.

Lemma small_book_wf : wf_depth small_book.
Proof.
  unfold wf_depth, small_book, keys. cbn [buy_orders sell_orders map fst].
  repeat split.
  - repeat constructor.
  - repeat constructor.
  - solve_nodup.
  - solve_nodup.
Defined.

Lemma empty_book_wf : wf_depth (mkOrderDepth [] []).
Proof. unfold wf_depth, keys. cbn. repeat split; constructor. Defined.

Lemma C1_witness :
  within_limit 50 0
    [mkOrder "KELP" 99 (-5); mkOrder "KELP" 98 (-5)]
  /\ within_limit 50 0
    [mkOrder "KELP" 99 (-5); mkOrder "KELP" 98 (-5)]
  /\ within_limit 200 0 [mkOrder "VOLCANIC_ROCK_VOUCHER_10250" 237 (-10)].
Proof.
  assert (W1 : wf_book_of tick_kelp_round1 "KELP").
  { intros od H. change (Some small_book = Some od) in H.
    apply Some_inj in H. subst od. apply small_book_wf. }
  assert (W2 : wf_book_of tick_mixed "KELP").
  { intros od H. change (Some small_book = Some od) in H.
    apply Some_inj in H. subst od. apply small_book_wf. }
  assert (W3 : wf_book_of tick_mixed "VOLCANIC_ROCK_VOUCHER_10250").
  { intros od H. change (Some (mkOrderDepth [] []) = Some od) in H.
    apply Some_inj in H. subst od. apply empty_book_wf. }
  assert (P : forall L, 0 <= L -> - L <= 0 <= L) by (intros; lia).
  split; [|split].
  - eapply (proj1 (C1_position_limit_safety sqrt_milli tick_kelp_round1
                     "KELP" 50 _ W1 (P 50 ltac:(lia)))).
    + reflexivity.
    + vm_compute. reflexivity.
    + reflexivity.
  - eapply (proj1 (proj2 (C1_position_limit_safety sqrt_milli tick_mixed
                            "KELP" 50 _ W2 (P 50 ltac:(lia))))
              Round2.init).
    + reflexivity.
    + vm_compute. reflexivity.
    + reflexivity.
  - eapply (proj2 (proj2 (C1_position_limit_safety sqrt_milli tick_mixed
                            "VOLCANIC_ROCK_VOUCHER_10250" 200 _ W3
                            (P 200 ltac:(lia))))
              Round3.init).
    + reflexivity.
    + vm_compute. reflexivity.
    + reflexivity.
Defined.

(** ** C5: the walk of the book *)

Lemma insert_sorted_perm x l : Permutation (insert_sorted x l) (x :: l).
Proof.
  induction l as [|y l IH]; cbn [insert_sorted]; auto.
  destruct (x <=? y); auto.
  rewrite IH. apply perm_swap.
Qed.

Lemma sorted_perm l : Permutation (sorted l) l.
Proof.
  induction l as [|x l IH]; cbn [sorted fold_right]; auto.
  fold (sorted l). rewrite insert_sorted_perm. auto.
Qed.

Lemma insert_sorted_le x l :
  StronglySorted Z.le l -> StronglySorted Z.le (insert_sorted x l).
Proof.
  induction l as [|y l IH]; cbn [insert_sorted]; intros Hs.
  - constructor; constructor.
  - apply StronglySorted_inv in Hs. destruct Hs as [Hs Hy].
    destruct (x <=? y) eqn:E.
    + apply Z.leb_le in E. constructor.
      * constructor; auto.
      * constructor; auto.
        eapply Forall_impl; [|exact Hy]. intros z Hz. cbv beta in Hz. lia.
    + apply Z.leb_gt in E. constructor; auto.
      eapply Permutation_Forall; [symmetry; apply insert_sorted_perm|].
      constructor; [lia|exact Hy].
Qed.

Lemma sorted_le l : StronglySorted Z.le (sorted l).
Proof.
  induction l as [|x l IH]; cbn [sorted fold_right].
  - constructor.
  - apply insert_sorted_le. exact IH.
Qed.

Lemma sorted_lt l : NoDup l -> StronglySorted Z.lt (sorted l).
Proof.
  intros Hnd.
  assert (Hnd' : NoDup (sorted l)).
  { eapply Permutation_NoDup; [|exact Hnd]. symmetry. apply sorted_perm. }
  pose proof (sorted_le l) as Hs.
  induction Hs as [|x l' Hs IH Hx]; constructor.
  - apply IH. inversion Hnd'; auto.
  - inversion Hnd' as [|? ? Hnot _]; subst.
    rewrite Forall_forall in *. intros y Hy.
    specialize (Hx y Hy). assert (x <> y) by congruence. lia.
Qed.

Lemma StronglySorted_snoc {A : Type} (R : A -> A -> Prop) l a :
  StronglySorted R l -> Forall (fun x => R x a) l ->
  StronglySorted R (l ++ [a]).
Proof.
  induction 1 as [|x l Hs IH Hx]; intros Ha; cbn [app].
  - constructor; constructor.
  - inversion Ha; subst. constructor; auto.
    apply Forall_app. split; auto.
Qed.

Lemma StronglySorted_rev {A : Type} (R : A -> A -> Prop) l :
  StronglySorted R l -> StronglySorted (fun x y => R y x) (rev l).
Proof.
  induction 1 as [|x l Hs IH Hx]; cbn [rev].
  - constructor.
  - apply StronglySorted_snoc; auto.
    apply Forall_rev. exact Hx.
Qed.

Lemma StronglySorted_map {A B : Type} (R : A -> A -> Prop)
  (R' : B -> B -> Prop) (f : A -> B) l :
  (forall x y, R x y -> R' (f x) (f y)) ->
  StronglySorted R l -> StronglySorted R' (map f l).
Proof.
  intros Hf. induction 1 as [|x l Hs IH Hx]; cbn [map]; constructor; auto.
  rewrite Forall_map. eapply Forall_impl; [|exact Hx]. auto.
Qed.

Lemma levels_at_keys book :
  NoDup (keys book) -> levels_at book (keys book) = book.
Proof.
  intros Hnd. unfold levels_at, keys. rewrite map_map.
  rewrite <- (map_id book) at 2. apply map_ext_in.
  intros [k v] Hin. cbn [fst]. unfold volume_at.
  rewrite (In_get Z.eqb Z_eqb_iff book k v Hnd Hin). reflexivity.
Qed.

Lemma levels_at_perm book ks :
  NoDup (keys book) -> Permutation ks (keys book) ->
  Permutation (levels_at book ks) book.
Proof.
  intros Hnd Hp. rewrite <- (levels_at_keys book Hnd) at 2.
  unfold levels_at. apply Permutation_map. exact Hp.
Qed.

Lemma buy_loop_spec product F L asks ks orders p :
  Forall (fun pv => snd pv < 0) asks ->
  fold_left (buy_level product F L asks) ks (orders, p)
  = (orders ++ fst (spec_buys product F L p (levels_at asks ks)),
     snd (spec_buys product F L p (levels_at asks ks))).
Proof.
  intros Hasks. revert orders p.
  induction ks as [|a ks IH]; intros orders p; cbn [fold_left levels_at map].
  - cbn. rewrite app_nil_r. reflexivity.
  - fold (levels_at asks ks). cbn [spec_buys buy_level].
    destruct (Qltb (inject_Z a) F && (p <? L)).
    + rewrite IH.
      pose proof (volume_at_neg asks a Hasks) as Hv.
      replace (Z.abs (volume_at asks a)) with (- volume_at asks a) by lia.
      destruct (spec_buys product F L _ (levels_at asks ks)) as [os p'].
      cbn [fst snd]. rewrite <- app_assoc. reflexivity.
    + apply IH.
Qed.

Lemma sell_loop_spec product F L bids ks orders p :
  fold_left (sell_level product F L bids) ks (orders, p)
  = (orders ++ fst (spec_sells product F L p (levels_at bids ks)),
     snd (spec_sells product F L p (levels_at bids ks))).
Proof.
  revert orders p.
  induction ks as [|b ks IH]; intros orders p; cbn [fold_left levels_at map].
  - cbn. rewrite app_nil_r. reflexivity.
  - fold (levels_at bids ks). cbn [spec_sells sell_level].
    destruct (Qltb F (inject_Z b) && (- L <? p)).
    + rewrite IH.
      destruct (spec_sells product F L _ (levels_at bids ks)) as [os p'].
      cbn [fst snd]. rewrite <- app_assoc. reflexivity.
    + apply IH.
Qed.

Lemma Qltb_lt x y : Qltb x y = true -> (x < y)%Q.
Proof.
  unfold Qltb. intros H. apply negb_true_iff in H.
  apply Qnot_le_lt. intros Hle. apply Qle_bool_iff in Hle. congruence.
Qed.

Lemma spec_buys_prices product F L p levels :
  Forall (fun o => (inject_Z (price o) < F)%Q)
    (fst (spec_buys product F L p levels)).
Proof.
  revert p. induction levels as [|[a v] levels IH]; intros p; cbn [spec_buys].
  - constructor.
  - destruct (Qltb (inject_Z a) F && (p <? L)) eqn:E; [|apply IH].
    apply andb_true_iff in E. destruct E as [E _].
    specialize (IH (p + Z.min (Z.abs v) (L - p))).
    destruct (spec_buys product F L _ levels) as [os p'].
    cbn [fst] in *. constructor; [|exact IH].
    cbn [price]. apply Qltb_lt. exact E.
Qed.

Lemma spec_sells_prices product F L p levels :
  Forall (fun o => (F < inject_Z (price o))%Q)
    (fst (spec_sells product F L p levels)).
Proof.
  revert p. induction levels as [|[b v] levels IH]; intros p; cbn [spec_sells].
  - constructor.
  - destruct (Qltb F (inject_Z b) && (- L <? p)) eqn:E; [|apply IH].
    apply andb_true_iff in E. destruct E as [E _].
    specialize (IH (p - Z.min v (p + L))).
    destruct (spec_sells product F L _ levels) as [os p'].
    cbn [fst] in *. constructor; [|exact IH].
    cbn [price]. apply Qltb_lt. exact E.
Qed.

(** C5.  On a book of the data model, the generator visits the ask levels in
    ascending price order and buys [min(|v|, L - position)] at the exact
    price of each level priced strictly below the fair price while the
    running position is below [L]; it then visits the bid levels in
    descending price order and sells [min(v, position + L)] at the exact
    price of each level priced strictly above the fair price while the
    running position is above [-L].  No order is priced at the fair
    price. *)
Theorem C5_book_walk_generation :
  forall (product : string) (F : Q) (L p : Z) (order_depth : OrderDepth),
    wf_depth order_depth ->
    exists asks bids : list (Z * Z),
      Permutation asks (sell_orders order_depth) /\ ascending asks
      /\ Permutation bids (buy_orders order_depth) /\ descending bids
      /\ book_walk product F L p order_depth
         = fst (spec_buys product F L p asks)
           ++ fst (spec_sells product F L
                     (snd (spec_buys product F L p asks)) bids)
      /\ Forall (fun o => ~ (inject_Z (price o) == F)%Q)
           (book_walk product F L p order_depth).
Proof.
  intros product F L p od (Hb & Ha & Hndb & Hnda).
  exists (levels_at (sell_orders od) (sorted (keys (sell_orders od)))).
  exists (levels_at (buy_orders od) (sorted_reverse (keys (buy_orders od)))).
  assert (Hwalk :
    book_walk product F L p od
    = fst (spec_buys product F L p
             (levels_at (sell_orders od) (sorted (keys (sell_orders od)))))
      ++ fst (spec_sells product F L
                (snd (spec_buys product F L p
                        (levels_at (sell_orders od)
                           (sorted (keys (sell_orders od))))))
                (levels_at (buy_orders od)
                   (sorted_reverse (keys (buy_orders od)))))).
  { unfold book_walk, book_walk_from.
    rewrite (buy_loop_spec product F L (sell_orders od) _ [] p Ha).
    rewrite sell_loop_spec. cbn [fst app]. reflexivity. }
  repeat split.
  - apply levels_at_perm; auto. apply sorted_perm.
  - unfold ascending, levels_at.
    apply (StronglySorted_map Z.lt); [intros x y H; exact H|].
    apply sorted_lt. exact Hnda.
  - apply levels_at_perm; auto. unfold sorted_reverse.
    rewrite <- Permutation_rev. apply sorted_perm.
  - unfold descending, levels_at, sorted_reverse.
    apply (StronglySorted_map (fun x y => y < x));
      [intros x y H; cbn [fst]; lia|].
    apply StronglySorted_rev. apply sorted_lt. exact Hndb.
  - exact Hwalk.
  - rewrite Hwalk. apply Forall_app. split.
    + eapply Forall_impl; [|apply spec_buys_prices].
      intros o Ho Heq. cbv beta in Ho. rewrite Heq in Ho.
      exact (Qlt_irrefl _ Ho).
    + eapply Forall_impl; [|apply spec_sells_prices].
      intros o Ho Heq. cbv beta in Ho. rewrite Heq in Ho.
      exact (Qlt_irrefl _ Ho).
Qed.

Lemma C5_witness :
  exists asks bids : list (Z * Z),
    Permutation asks (sell_orders small_book) /\ ascending asks
    /\ Permutation bids (buy_orders small_book) /\ descending bids
    /\ book_walk "KELP" (1015 # 10) 50 0 small_book
       = fst (spec_buys "KELP" (1015 # 10) 50 0 asks)
         ++ fst (spec_sells "KELP" (1015 # 10) 50
                   (snd (spec_buys "KELP" (1015 # 10) 50 0 asks)) bids)
    /\ Forall (fun o => ~ (inject_Z (price o) == 1015 # 10)%Q)
         (book_walk "KELP" (1015 # 10) 50 0 small_book).
Proof.
  exact (C5_book_walk_generation "KELP" (1015 # 10) 50 0 small_book
           small_book_wf).
Defined.

(** The scenarios of the specification: at fair price 100 a book with bid 99
    and ask 101 yields no order; at fair price 100.5 an ask of 5 at 100 is
    bought whole. *)
Example book_walk_at_fair_price :
  book_walk "KELP" 100 50 0 (mkOrderDepth [(99, 5)] [(101, -5)]) = [].
Proof. reflexivity. Qed.

Example book_walk_below_fair_price :
  book_walk "KELP" (1005 # 10) 50 0 (mkOrderDepth [(99, 5)] [(100, -5)])
  = [mkOrder "KELP" 100 5].
Proof. reflexivity. Qed.

(** ** C6: composite fair value *)

Lemma fold_left_add_shift (f : Z -> Z) vs acc :
  fold_left (fun a v => a + f v) vs acc
  = acc + fold_left (fun a v => a + f v) vs 0.
Proof.
  revert acc. induction vs as [|v vs IH]; intros acc; cbn [fold_left].
  - lia.
  - rewrite IH. rewrite (IH (0 + f v)). lia.
Qed.

Lemma den_total_volume (f : Z -> Z) book :
  Forall (fun pv => f (snd pv) = Z.abs (snd pv)) book ->
  fold_left (fun acc v => acc + f v) (values book) 0 = total_volume book.
Proof.
  induction 1 as [|pv book Hpv _ IH]; cbn [values map fold_left total_volume fold_right].
  - reflexivity.
  - fold (values book). fold (total_volume book).
    rewrite fold_left_add_shift, IH, Hpv. lia.
Qed.

Lemma num_shift (f : Z -> Z) (book : list (Z * Z)) acc :
  fold_left (fun a pv => a + fst pv * f (snd pv)) book acc
  = acc + fold_left (fun a pv => a + fst pv * f (snd pv)) book 0.
Proof.
  revert acc. induction book as [|pv book IH]; intros acc; cbn [fold_left].
  - lia.
  - rewrite IH. rewrite (IH (0 + _)). lia.
Qed.

Lemma num_weighted_sum (f : Z -> Z) book :
  Forall (fun pv => f (snd pv) = Z.abs (snd pv)) book ->
  fold_left (fun acc pv => acc + fst pv * f (snd pv)) book 0
  = weighted_sum book.
Proof.
  induction 1 as [|pv book Hpv _ IH]; cbn [fold_left weighted_sum fold_right].
  - reflexivity.
  - fold (weighted_sum book). rewrite num_shift, IH, Hpv. lia.
Qed.

Lemma total_volume_pos book :
  Forall (fun pv => snd pv <> 0) book -> book <> [] -> 0 < total_volume book.
Proof.
  intros H Hne. destruct H as [|pv book Hpv H]; [congruence|].
  cbn [total_volume fold_right]. fold (total_volume book).
  assert (0 <= total_volume book).
  { clear. induction book as [|x book IH]; cbn [total_volume fold_right];
      [lia|]. fold (total_volume book). lia. }
  lia.
Qed.

Lemma vwap_spec (f : Z -> Z) book :
  Forall (fun pv => f (snd pv) = Z.abs (snd pv)) book ->
  Forall (fun pv => snd pv <> 0) book -> book <> [] ->
  Round2.vwap f book = Ok (spec_vwap book).
Proof.
  intros Hf Hnz Hne. unfold Round2.vwap.
  rewrite (den_total_volume f book Hf), (num_weighted_sum f book Hf).
  pose proof (total_volume_pos book Hnz Hne) as Hpos.
  destruct (total_volume book =? 0) eqn:E; [apply Z.eqb_eq in E; lia|].
  reflexivity.
Qed.

Lemma truthy_false {A : Type} (l : list A) : truthy l = false <-> l = [].
Proof. destruct l; cbn; split; congruence. Qed.

Lemma one_sided_iff order_depth :
  one_sided order_depth = true <->
  buy_orders order_depth = [] \/ sell_orders order_depth = [].
Proof.
  unfold one_sided. rewrite orb_true_iff, !negb_true_iff, !truthy_false.
  reflexivity.
Qed.

Lemma for_each_add_component_none state components :
  for_each (Round2.add_component state) components None = Ok None.
Proof.
  induction components as [|cq components IH]; cbn [for_each]; auto.
Qed.

Lemma add_component_spec state total cq :
  wf_books state ->
  (component_unavailable state (fst cq) ->
   Round2.add_component state (Some total) cq = Ok None)
  /\ (~ component_unavailable state (fst cq) ->
      Round2.add_component state (Some total) cq
      = Ok (Some (total + inject_Z (snd cq)
                          * (spec_vwap
                               (buy_orders
                                  match get String.eqb (order_depths state)
                                          (fst cq) with
                                  | Some d => d
                                  | None => mkOrderDepth [] []
                                  end)
                             + spec_vwap
                               (sell_orders
                                  match get String.eqb (order_depths state)
                                          (fst cq) with
                                  | Some d => d
                                  | None => mkOrderDepth [] []
                                  end)) / 2)%Q)).
Proof.
  intros Hwf. unfold component_unavailable, Round2.add_component.
  destruct (get String.eqb (order_depths state) (fst cq)) as [d|] eqn:E.
  2:{ split; [reflexivity|tauto]. }
  pose proof (wf_books_get state (fst cq) d Hwf E) as (Hb & Ha & _ & _).
  destruct (one_sided d) eqn:Eo.
  - apply one_sided_iff in Eo. split; [reflexivity|tauto].
  - assert (Hn : ~ (buy_orders d = [] \/ sell_orders d = [])).
    { intros H. apply one_sided_iff in H. congruence. }
    split; [tauto|]. intros _.
    rewrite (vwap_spec (fun v => v) (buy_orders d)).
    + rewrite (vwap_spec Z.abs (sell_orders d)).
      * reflexivity.
      * apply Forall_forall. reflexivity.
      * eapply Forall_impl; [|exact Ha]. intros pv H. cbv beta in H. lia.
      * tauto.
    + eapply Forall_impl; [|exact Hb]. intros pv H. cbv beta in H. lia.
    + eapply Forall_impl; [|exact Hb]. intros pv H. cbv beta in H. lia.
    + tauto.
Qed.

Lemma fair_value_unavailable state components total :
  wf_books state ->
  (exists c q, In (c, q) components /\ component_unavailable state c) ->
  for_each (Round2.add_component state) components (Some total) = Ok None.
Proof.
  intros Hwf. revert total.
  induction components as [|cq components IH]; intros total (c & q & Hin & Hc).
  - destruct Hin.
  - cbn [for_each].
    destruct (add_component_spec state total cq Hwf) as [Hbad Hgood].
    destruct Hin as [->|Hin].
    + rewrite (Hbad Hc). apply for_each_add_component_none.
    + assert (Hdec : component_unavailable state (fst cq)
                     \/ ~ component_unavailable state (fst cq)).
      { unfold component_unavailable.
        destruct (get String.eqb (order_depths state) (fst cq)) as [d|];
          [|auto].
        destruct (buy_orders d); [auto|].
        destruct (sell_orders d); [auto|].
        right. intros [H|H]; discriminate. }
      destruct Hdec as [Hu|Hu].
      * rewrite (Hbad Hu). apply for_each_add_component_none.
      * rewrite (Hgood Hu). apply IH. eauto.
Qed.

Lemma fair_value_available state components total :
  wf_books state ->
  (forall c q, In (c, q) components -> ~ component_unavailable state c) ->
  exists v,
    for_each (Round2.add_component state) components (Some total)
    = Ok (Some v)
    /\ (v == total + spec_fair_value components state)%Q.
Proof.
  intros Hwf. revert total.
  induction components as [|[c q] components IH]; intros total Hall.
  - exists total. split; [reflexivity|]. cbn. ring.
  - cbn [for_each].
    destruct (add_component_spec state total (c, q) Hwf) as [_ Hgood].
    rewrite Hgood by (apply (Hall c q); left; reflexivity).
    destruct (IH (total + inject_Z (snd (c, q))
                          * (spec_vwap
                               (buy_orders
                                  match get String.eqb (order_depths state)
                                          (fst (c, q)) with
                                  | Some d => d
                                  | None => mkOrderDepth [] []
                                  end)
                             + spec_vwap
                               (sell_orders
                                  match get String.eqb (order_depths state)
                                          (fst (c, q)) with
                                  | Some d => d
                                  | None => mkOrderDepth [] []
                                  end)) / 2)%Q)
      as (v & Hv & Heq).
    { intros c' q' Hin. apply (Hall c' q'). right. exact Hin. }
    exists v. split; [exact Hv|].
    rewrite Heq. cbn [spec_fair_value fold_right fst snd].
    fold (spec_fair_value components state).
    unfold component_fair.
    assert (Hc : ~ component_unavailable state c)
      by (apply (Hall c q); left; reflexivity).
    unfold component_unavailable in Hc.
    destruct (get String.eqb (order_depths state) c) as [d|]; [|tauto].
    field.
Qed.

(** C6.  On books of the data model, the multi-leg valuation returns [None]
    if and only if the book of at least one component is missing or has an
    empty bid or ask side; otherwise it returns the sum over the components
    of [q_i * (bid_vwap_i + ask_vwap_i) / 2], each VWAP taken over all
    levels of its side. *)
Theorem C6_composite_fair_value :
  forall (components : list (string * Z)) (state : TradingState),
    wf_books state ->
    (Round2.calculate_fair_value components state = Ok None <->
     exists c q, In (c, q) components /\ component_unavailable state c)
    /\ ((forall c q, In (c, q) components ->
                     ~ component_unavailable state c) ->
        exists v,
          Round2.calculate_fair_value components state = Ok (Some v)
          /\ (v == spec_fair_value components state)%Q).
Proof.
  intros components state Hwf.
  assert (Hdec : (exists c q, In (c, q) components
                              /\ component_unavailable state c)
                 \/ (forall c q, In (c, q) components ->
                                 ~ component_unavailable state c)).
  { clear Hwf. induction components as [|[c q] components IH].
    - right. intros c q [].
    - destruct IH as [(c' & q' & Hin & Hu)|Hall].
      + left. exists c', q'. split; [right; exact Hin|exact Hu].
      + assert (Hd : component_unavailable state c
                     \/ ~ component_unavailable state c).
        { unfold component_unavailable.
          destruct (get String.eqb (order_depths state) c) as [d|]; [|auto].
          destruct (buy_orders d); [auto|].
          destruct (sell_orders d); [auto|].
          right. intros [H|H]; discriminate. }
        destruct Hd as [Hu|Hu].
        * left. exists c, q. split; [left; reflexivity|exact Hu].
        * right. intros c' q' [Heq|Hin].
          -- injection Heq as <- <-. exact Hu.
          -- eapply Hall; eauto. }
  unfold Round2.calculate_fair_value. split.
  - split.
    + intros Hnone. destruct Hdec as [Hex|Hall]; [exact Hex|].
      destruct (fair_value_available state components 0%Q Hwf Hall)
        as (v & Hv & _).
      rewrite Hv in Hnone. discriminate.
    + apply fair_value_unavailable. exact Hwf.
  - intros Hall.
    destruct (fair_value_available state components 0%Q Hwf Hall)
      as (v & Hv & Heq).
    exists v. split; [exact Hv|]. rewrite Heq. ring.
Qed.

Lemma C6_witness :
  (exists v,
      Round2.calculate_fair_value basket2 tick_basket2
      = Ok (Some v)
      /\ (v == spec_fair_value basket2 tick_basket2)%Q)
  /\ Round2.calculate_fair_value basket2 tick_no_jams
     = Ok None.
Proof.
  assert (W1 : wf_books tick_basket2).
  { repeat (apply Forall_cons; [apply small_book_wf|]). apply Forall_nil. }
  assert (W2 : wf_books tick_no_jams).
  { repeat (apply Forall_cons; [apply small_book_wf|]). apply Forall_nil. }
  split.
  - apply (proj2 (C6_composite_fair_value basket2
                    tick_basket2 W1)).
    unfold basket2. intros c q [H|[H|[]]]; injection H as <- <-;
      unfold component_unavailable; cbn; intros [H|H]; discriminate.
  - apply (proj1 (C6_composite_fair_value basket2
                    tick_no_jams W2)).
    exists "JAMS", 2. split.
    + right. left. reflexivity.
    + unfold component_unavailable. cbn. exact I.
Defined.

Example components_basket2 :
  get String.eqb Round2.COMPONENTS "PICNIC_BASKET2" = Some basket2.
Proof. reflexivity. Qed.

Example fair_value_basket2 :
  Round2.calculate_fair_value basket2 tick_basket2
  = Ok (Some (0 + 4 * ((985 # 10) + (1015 # 10)) / 2
                + 2 * ((985 # 10) + (1015 # 10)) / 2))%Q.
Proof. reflexivity. Qed.

(** ** C7: the z-score *)

(** C7.  For every input price, the z-score of rounds 2 and 3 is exactly 0
    when the rolling window holds fewer than 100 observations and when the
    sample standard deviation of the full window is 0; otherwise it is
    [(v - mean) / stdev], mean and sample standard deviation taken over the
    full window. *)
Theorem C7_z_score :
  forall (sqrt_float : Q -> Q) (history : list Q) (v : Q)
         (tr2 : Round2.Trader) (tr3 : Round3.Trader),
    Round2.croissant_history tr2 = history ->
    Round3.pb_croissant_history tr3 = history ->
    ((List.length history < 100)%nat ->
     Round2.calculate_z_score sqrt_float tr2 v = 0%Q
     /\ Round3.pb_calculate_z_score sqrt_float tr3 v = 0%Q)
    /\ ((100 <= List.length history)%nat ->
        (stdev sqrt_float history == 0)%Q ->
        Round2.calculate_z_score sqrt_float tr2 v = 0%Q
        /\ Round3.pb_calculate_z_score sqrt_float tr3 v = 0%Q)
    /\ ((100 <= List.length history)%nat ->
        ~ (stdev sqrt_float history == 0)%Q ->
        Round2.calculate_z_score sqrt_float tr2 v
        = ((v - mean history) / stdev sqrt_float history)%Q
        /\ Round3.pb_calculate_z_score sqrt_float tr3 v
           = ((v - mean history) / stdev sqrt_float history)%Q).
Proof.
  intros sqrt_float history v tr2 tr3 H2 H3.
  unfold Round2.calculate_z_score, Round3.pb_calculate_z_score,
    Round3.pb_croissant_window, croissant_window, z_score.
  rewrite H2, H3.
  split; [|split].
  - intros Hlen. apply Nat.ltb_lt in Hlen. rewrite Hlen. split; reflexivity.
  - intros Hlen Hsd. apply Nat.ltb_ge in Hlen. rewrite Hlen.
    assert (H1 : (1 <? List.length history)%nat = true)
      by (apply Nat.ltb_lt; apply Nat.ltb_ge in Hlen; lia).
    rewrite H1. apply Qeq_bool_iff in Hsd. rewrite Hsd. split; reflexivity.
  - intros Hlen Hsd. apply Nat.ltb_ge in Hlen. rewrite Hlen.
    assert (H1 : (1 <? List.length history)%nat = true)
      by (apply Nat.ltb_lt; apply Nat.ltb_ge in Hlen; lia).
    rewrite H1.
    destruct (Qeq_bool (stdev sqrt_float history) 0) eqn:E;
      [apply Qeq_bool_iff in E; contradiction|split; reflexivity].
Qed.

Lemma C7_witness :
  (Round2.calculate_z_score sqrt_milli Round2.init 100 = 0%Q
   /\ Round3.pb_calculate_z_score sqrt_milli Round3.init 100 = 0%Q)
  /\ (Round2.calculate_z_score sqrt_milli
        (Round2.set_croissant_history Round2.init flat_window) 130 = 0%Q
      /\ Round3.pb_calculate_z_score sqrt_milli
           (Round3.set_croissant_history Round3.init flat_window) 130 = 0%Q)
  /\ (Round2.calculate_z_score sqrt_milli
        (Round2.set_croissant_history Round2.init outlier_window) 200
      = ((200 - mean outlier_window) / stdev sqrt_milli outlier_window)%Q
      /\ Round3.pb_calculate_z_score sqrt_milli
           (Round3.set_croissant_history Round3.init outlier_window) 200
         = ((200 - mean outlier_window) / stdev sqrt_milli outlier_window)%Q).
Proof.
  split; [|split].
  - apply (proj1 (C7_z_score sqrt_milli [] 100 Round2.init Round3.init
                    eq_refl eq_refl)).
    cbn. lia.
  - apply (proj1 (proj2 (C7_z_score sqrt_milli flat_window 130
                           (Round2.set_croissant_history Round2.init flat_window)
                           (Round3.set_croissant_history Round3.init flat_window)
                           eq_refl eq_refl))).
    + apply Nat.leb_le. vm_compute. reflexivity.
    + vm_compute. reflexivity.
  - apply (proj2 (proj2 (C7_z_score sqrt_milli outlier_window 200
                           (Round2.set_croissant_history Round2.init outlier_window)
                           (Round3.set_croissant_history Round3.init outlier_window)
                           eq_refl eq_refl))).
    + apply Nat.leb_le. vm_compute. reflexivity.
    + intros H. vm_compute in H. discriminate.
Defined.

(** The z-score of the outlier of [outlier_window], with the square root
    taken to three decimals: about 9.9, above the threshold 1.5. *)
Example z_score_outlier :
  Qltb std_threshold
    (z_score sqrt_milli croissant_window outlier_window 200) = true
  /\ threshold_orders
       (z_score sqrt_milli croissant_window outlier_window 200)
       "CROISSANTS" small_book 250 0
     = [mkOrder "CROISSANTS" 99 (-10)].
Proof. split; vm_compute; reflexivity. Qed.

(** ** C8: the intrinsic-value short *)

Lemma int_of_float_floor (x : Q) : (0 <= x)%Q -> int_of_float x = Qfloor x.
Proof.
  destruct x as [n d]. unfold Qle, int_of_float, Qfloor. cbn [Qnum Qden].
  intros H. apply Z.quot_div_nonneg; lia.
Qed.

(** C8.  For a voucher whose identifier ends in the strike [K] and every
    underlying fair price [U], the trader emits no order when [U <= K] or
    when the short capacity [vr_max_short + position] is not positive;
    otherwise it emits exactly one sell order, of quantity
    [- min(10, capacity)] at price [floor((U - K) * 0.95)].  With [U = 10600],
    [K = 10500] and no position: one order of quantity -10 at price 95. *)
Theorem C8_intrinsic_value_short :
  forall (tr : Round3.Trader) (product : string) (state : TradingState)
         (K : Z),
    int_of_string (last_field product EmptyString) = Ok K ->
    let U := Round3.vr_price tr in
    let capacity := Round3.vr_max_short + position_of state product in
    ((U <= inject_Z K)%Q \/ capacity <= 0 ->
     Round3.vr_short_itm_voucher tr product state = Ok [])
    /\ ((inject_Z K < U)%Q -> 0 < capacity ->
        Round3.vr_short_itm_voucher tr product state
        = Ok [mkOrder product (Qfloor ((U - inject_Z K) * (95 # 100)))
                (- Z.min 10 capacity)])
    /\ Round3.vr_short_itm_voucher trader_at_10600
         "VOLCANIC_ROCK_VOUCHER_10500" tick_voucher_10500
       = Ok [mkOrder "VOLCANIC_ROCK_VOUCHER_10500" 95 (-10)].
Proof.
  intros tr product state K HK U capacity.
  unfold Round3.vr_short_itm_voucher. rewrite HK. cbn [Py.bind].
  fold U. fold capacity.
  split; [|split].
  - intros [HU|Hc].
    + apply Qle_bool_iff in HU. rewrite HU. reflexivity.
    + destruct (Qle_bool U (inject_Z K)); [reflexivity|].
      apply Z.leb_le in Hc. rewrite Hc. reflexivity.
  - intros HU Hc.
    destruct (Qle_bool U (inject_Z K)) eqn:E.
    { apply Qle_bool_iff in E. exfalso. exact (Qlt_not_le _ _ HU E). }
    destruct (capacity <=? 0) eqn:Ec; [apply Z.leb_le in Ec; lia|].
    rewrite int_of_float_floor; [reflexivity|].
    apply Qmult_le_0_compat; [|discriminate].
    apply Qlt_le_weak. unfold Qminus. rewrite <- Qlt_minus_iff. exact HU.
  - reflexivity.
Qed.

Lemma C8_witness :
  (Round3.vr_short_itm_voucher Round3.init "VOLCANIC_ROCK_VOUCHER_10500"
     tick_voucher_10500 = Ok [])
  /\ Round3.vr_short_itm_voucher trader_at_10600
       "VOLCANIC_ROCK_VOUCHER_10500" tick_voucher_10500
     = Ok [mkOrder "VOLCANIC_ROCK_VOUCHER_10500"
             (Qfloor ((10600 - inject_Z 10500) * (95 # 100)))
             (- Z.min 10 (Round3.vr_max_short + 0))].
Proof.
  split.
  - apply (proj1 (C8_intrinsic_value_short Round3.init
                    "VOLCANIC_ROCK_VOUCHER_10500" tick_voucher_10500 10500
                    eq_refl)).
    left. vm_compute. discriminate.
  - apply (proj1 (proj2 (C8_intrinsic_value_short trader_at_10600
                           "VOLCANIC_ROCK_VOUCHER_10500" tick_voucher_10500
                           10500 eq_refl))).
    + vm_compute. reflexivity.
    + vm_compute. reflexivity.
Defined.

(** An underlying at 10400, below the strike 10500, yields no order. *)
Example voucher_out_of_the_money :
  Round3.vr_short_itm_voucher
    (Round3.mkTrader 10400 [] [] [] (Round3.trader_data Round3.init))
    "VOLCANIC_ROCK_VOUCHER_10500" tick_voucher_10500 = Ok [].
Proof. reflexivity. Qed.

(** ** C2: state restoration *)

Lemma merge_keys_not_mapping loaded_data td ks :
  (forall d, loaded_data <> VDict d) ->
  fst (merge_keys loaded_data td ks) = td.
Proof.
  intros Hnd. induction ks as [|key ks IH]; cbn [merge_keys]; [reflexivity|].
  assert (Hitem : loaded_item loaded_data key = Raise TypeError).
  { unfold loaded_item. destruct loaded_data; try reflexivity.
    exfalso. eapply Hnd. reflexivity. }
  unfold merge_key. rewrite Hitem.
  destruct (negb (hashable key)); [reflexivity|].
  destruct (get key_eqb td key) as [[| | | | | |field]|]; try reflexivity.
  exact IH.
Qed.

Lemma restore_not_mapping td v :
  (forall d, v <> VDict d) -> restore td (BlobValue v) = td.
Proof.
  intros Hnd. unfold restore, try_merge.
  destruct (iter v) as [ks|]; [|reflexivity].
  apply merge_keys_not_mapping. exact Hnd.
Qed.

Lemma keys_set_present {K V : Type} (eqb : K -> K -> bool)
  (d : list (K * V)) k v x :
  get eqb d k = Some x -> keys (set eqb d k v) = keys d.
Proof.
  induction d as [|[k' v'] d IH]; cbn [get set]; [discriminate|].
  destruct (eqb k' k); intros H; [reflexivity|].
  cbn [keys map fst]. f_equal. apply IH. exact H.
Qed.

Lemma merge_key_keys loaded_data td key :
  keys (fst (merge_key loaded_data td key)) = keys td.
Proof.
  unfold merge_key.
  destruct (negb (hashable key)); [reflexivity|].
  destruct (get key_eqb td key) as [x|] eqn:E; [|reflexivity].
  destruct x;
    (destruct (loaded_item loaded_data key) as [arg|]; [|reflexivity]);
    try (cbn [fst]; eapply keys_set_present; exact E).
  destruct (dict_update d arg) as [field' r]. cbn [fst].
  eapply keys_set_present; exact E.
Qed.

Lemma merge_keys_keys loaded_data td ks :
  keys (fst (merge_keys loaded_data td ks)) = keys td.
Proof.
  revert td. induction ks as [|key ks IH]; intros td; cbn [merge_keys];
    [reflexivity|].
  pose proof (merge_key_keys loaded_data td key) as Hk.
  destruct (merge_key loaded_data td key) as [td' [[]|e]]; cbn [fst] in *.
  - rewrite IH. exact Hk.
  - exact Hk.
Qed.

Lemma restore_keys td b : keys (restore td b) = keys td.
Proof.
  unfold restore, try_merge. destruct b as [| |v]; try reflexivity.
  destruct (iter v) as [ks|]; [|reflexivity].
  apply merge_keys_keys.
Qed.

Lemma round2_product_loop_blob sqrt_float state b products st :
  Round2.product_loop sqrt_float (with_blob state b) products st
  = Round2.product_loop sqrt_float state products st.
Proof.
  revert st. induction products as [|product rest IH]; intros st;
    cbn [Round2.product_loop]; [reflexivity|].
  change (Round2.process_product sqrt_float (with_blob state b) st product)
    with (Round2.process_product sqrt_float state st product).
  destruct (Round2.process_product sqrt_float state st product)
    as [tr' [result'|e]]; [apply IH|reflexivity].
Qed.

Lemma round3_voucher_loop_blob tr state b products result :
  Round3.voucher_loop tr (with_blob state b) products result
  = Round3.voucher_loop tr state products result.
Proof.
  revert result. induction products as [|product rest IH]; intros result;
    cbn [Round3.voucher_loop]; [reflexivity|].
  change (Round3.vr_short_itm_voucher tr product (with_blob state b))
    with (Round3.vr_short_itm_voucher tr product state).
  destruct (startswith product "VOLCANIC_ROCK_VOUCHER"); [|apply IH].
  destruct (Round3.vr_short_itm_voucher tr product state) as [orders|e];
    cbn [Py.bind]; [apply IH|reflexivity].
Qed.

Lemma round3_pb_loop_blob sqrt_float tr state b products result :
  Round3.pb_loop sqrt_float tr (with_blob state b) products result
  = Round3.pb_loop sqrt_float tr state products result.
Proof.
  revert tr result. induction products as [|product rest IH];
    intros tr result; cbn [Round3.pb_loop]; [reflexivity|].
  change (Round3.pb_process_product sqrt_float tr product (with_blob state b))
    with (Round3.pb_process_product sqrt_float tr product state).
  destruct (mem String.eqb Round3.pb_position_limits product); [|apply IH].
  destruct (Round3.pb_process_product sqrt_float tr product state)
    as [tr' [orders|e]]; [apply IH|reflexivity].
Qed.

Lemma round2_run_restored sqrt_float tr state :
  Round2.run sqrt_float tr state
  = Round2.run sqrt_float
      (Round2.set_trader_data tr
         (restore (Round2.trader_data tr) (traderData state)))
      (with_blob state BlobEmpty).
Proof.
  unfold Round2.run.
  cbn [with_blob traderData order_depths timestamp restore
       Round2.set_trader_data Round2.trader_data Round2.croissant_history
       Round2.dynamic_params].
  rewrite round2_product_loop_blob.
  destruct tr as [h td dp]. reflexivity.
Qed.

Lemma round3_run_restored sqrt_float tr state :
  Round3.run sqrt_float tr state
  = Round3.run sqrt_float
      (Round3.set_trader_data tr
         (restore (Round3.trader_data tr) (traderData state)))
      (with_blob state BlobEmpty).
Proof.
  unfold Round3.run.
  change (traderData (with_blob state BlobEmpty)) with BlobEmpty.
  change (order_depths (with_blob state BlobEmpty)) with (order_depths state).
  change (timestamp (with_blob state BlobEmpty)) with (timestamp state).
  change (Round3.vr_update_market_data ?t (with_blob state BlobEmpty))
    with (Round3.vr_update_market_data t state).
  rewrite round3_voucher_loop_blob.
  destruct tr as [p lp h dp td].
  cbn [restore Round3.set_trader_data Round3.trader_data Round3.vr_price
       Round3.vr_last_prices Round3.pb_croissant_history
       Round3.pb_dynamic_params].
  destruct (Round3.voucher_loop _ _ _ _) as [result1|e]; [|reflexivity].
  rewrite round3_pb_loop_blob. reflexivity.
Qed.

(** C2, as the code has it.  In rounds 2 and 3 no exception leaves the state
    restoration, whatever the blob: the tick runs on as from the restored
    object.  An empty blob, an undecodable blob and a blob that decodes to
    something other than a mapping leave the object unchanged; a decoded
    mapping is merged field by field into the fields the object has, which
    stay the same fields.  Round 1 takes the empty blob for the empty
    history. *)
Theorem C2_restore_soft_failure :
  forall (sqrt_float : Q -> Q) (tr2 : Round2.Trader) (tr3 : Round3.Trader)
         (state : TradingState) (td : list (value * value)),
    Round2.run sqrt_float tr2 state
    = Round2.run sqrt_float
        (Round2.set_trader_data tr2
           (restore (Round2.trader_data tr2) (traderData state)))
        (with_blob state BlobEmpty)
    /\ Round3.run sqrt_float tr3 state
       = Round3.run sqrt_float
           (Round3.set_trader_data tr3
              (restore (Round3.trader_data tr3) (traderData state)))
           (with_blob state BlobEmpty)
    /\ restore td BlobEmpty = td
    /\ restore td BlobUndecodable = td
    /\ (forall v, (forall d, v <> VDict d) -> restore td (BlobValue v) = td)
    /\ keys (restore td (traderData state)) = keys td
    /\ Round1.run (with_blob state BlobEmpty)
       = Round1.run (with_blob state (BlobValue (VDict []))).
Proof.
  intros sqrt_float tr2 tr3 state td.
  split; [apply round2_run_restored|]. split; [apply round3_run_restored|].
  split; [reflexivity|]. split; [reflexivity|].
  split; [apply restore_not_mapping|].
  split; [apply restore_keys|reflexivity].
Qed.

Lemma C2_witness :
  restore (Round3.trader_data Round3.init) (BlobValue (VList [VStr "price_history"]))
  = Round3.trader_data Round3.init.
Proof.
  apply (proj1 (proj2 (proj2 (proj2 (proj2
           (C2_restore_soft_failure sqrt_milli Round2.init Round3.init
              tick_mixed (Round3.trader_data Round3.init))))))).
  intros d H. discriminate.
Defined.

(** The claim fails in round 1, where an undecodable blob raises, and in
    round 3 (as in round 2), where a blob that decodes but cannot be merged
    to the end leaves the object changed. *)
Lemma C2_counterexample :
  Round1.run (mkTradingState BlobUndecodable 100 [] [])
  = Raise JSONDecodeError
  /\ restore (Round3.trader_data Round3.init) half_merged_blob
     = [(VStr "last_timestamp", VInt 0);
        (VStr "price_history", VDict []);
        (VStr "spread_history",
          VDict [(VStr "PICNIC_BASKET1", VList []);
                 (VStr "PICNIC_BASKET2", VList []);
                 (VStr "X", VInt 1)])]
  /\ restore (Round3.trader_data Round3.init) half_merged_blob
     <> Round3.trader_data Round3.init.
Proof.
  split; [reflexivity|]. split; [reflexivity|].
  intros H. discriminate.
Qed.

(** ** C4: missing market data *)

Lemma round2_process_one_sided sqrt_float state product order_depth L tr result :
  get String.eqb (order_depths state) product = Some order_depth ->
  one_sided order_depth = true ->
  get String.eqb Round2.POSITION_LIMITS product = Some L ->
  Round2.process_product sqrt_float state (tr, result) product
  = (tr, Ok (set String.eqb result product [])).
Proof.
  intros Hod Hone HL. unfold Round2.process_product.
  rewrite HL, Hod, Hone. reflexivity.
Qed.

Lemma round2_process_keeps_empty sqrt_float state product order_depth st
  product' tr' result' :
  get String.eqb (order_depths state) product = Some order_depth ->
  one_sided order_depth = true ->
  Round2.process_product sqrt_float state st product' = (tr', Ok result') ->
  get String.eqb (snd st) product = Some [] \/ product' = product ->
  get String.eqb Round2.POSITION_LIMITS product <> None ->
  get String.eqb result' product = Some [].
Proof.
  intros Hod Hone H Hor HL. destruct st as [tr result]. cbn [snd] in Hor.
  destruct (string_dec product' product) as [->|Hne].
  - destruct (get String.eqb Round2.POSITION_LIMITS product) as [L|] eqn:EL;
      [|congruence].
    rewrite (round2_process_one_sided sqrt_float state product order_depth L
               tr result Hod Hone EL) in H.
    injection H as _ H. subst result'.
    apply (get_set_same String.eqb string_eqb_iff).
  - destruct Hor as [Hget|Heq]; [|contradiction].
    unfold Round2.process_product in H.
    destruct (get String.eqb Round2.POSITION_LIMITS product') as [L'|].
    2:{ injection H as _ H. subst. exact Hget. }
    destruct (get String.eqb (order_depths state) product') as [od'|];
      [|discriminate].
    assert (Hset : forall orders,
               get String.eqb (set String.eqb result product' orders) product
               = Some []).
    { intros orders.
      rewrite (get_set_other String.eqb string_eqb_iff) by exact Hne.
      exact Hget. }
    destruct (one_sided od').
    { injection H as _ H. subst. apply Hset. }
    destruct (String.eqb product' "RAINFOREST_RESIN"
              || String.eqb product' "KELP").
    { destruct (mean_reversion _ _ _ _ _) as [td' [orders|e]];
        [|discriminate].
      injection H as _ H. subst. apply Hset. }
    destruct (String.eqb product' "CROISSANTS").
    { injection H as _ H. subst. apply Hset. }
    injection H as _ H. subst. apply Hset.
Qed.

Lemma round2_loop_keeps_empty sqrt_float state product order_depth products st
  tr' result' :
  get String.eqb (order_depths state) product = Some order_depth ->
  one_sided order_depth = true ->
  get String.eqb Round2.POSITION_LIMITS product <> None ->
  Round2.product_loop sqrt_float state products st = (tr', Ok result') ->
  get String.eqb (snd st) product = Some [] \/ In product products ->
  get String.eqb result' product = Some [].
Proof.
  intros Hod Hone HL. revert st.
  induction products as [|product' rest IH]; intros st H Hor;
    cbn [Round2.product_loop] in H.
  - injection H as _ H. subst. destruct Hor as [Hget|[]]. exact Hget.
  - destruct (Round2.process_product sqrt_float state st product')
      as [tr1 [result1|e]] eqn:E; [|discriminate].
    destruct (string_dec product' product) as [Heq|Hne].
    + apply (IH (tr1, result1) H). left. cbn [snd].
      eapply round2_process_keeps_empty; eauto.
    + destruct Hor as [Hget|[Heq|Hin]]; [|contradiction|].
      * apply (IH (tr1, result1) H). left. cbn [snd].
        eapply round2_process_keeps_empty; eauto.
      * apply (IH (tr1, result1) H). right. exact Hin.
Qed.

Lemma get_keys_In {V : Type} (d : list (string * V)) k v :
  get String.eqb d k = Some v -> In k (keys d).
Proof.
  intros H. apply (get_In String.eqb string_eqb_iff) in H.
  change k with (fst (k, v)). apply in_map. exact H.
Qed.

Lemma round3_process_one_sided sqrt_float state product order_depth L tr :
  get String.eqb (order_depths state) product = Some order_depth ->
  one_sided order_depth = true ->
  get String.eqb Round3.pb_position_limits product = Some L ->
  Round3.pb_process_product sqrt_float tr product state = (tr, Ok []).
Proof.
  intros Hod Hone HL. unfold Round3.pb_process_product.
  rewrite Hod, HL, Hone. reflexivity.
Qed.

Lemma round3_voucher_loop_other tr state product L products result result' :
  get String.eqb Round3.pb_position_limits product = Some L ->
  Round3.voucher_loop tr state products result = Ok result' ->
  get String.eqb result' product = get String.eqb result product.
Proof.
  intros HL. revert result.
  induction products as [|product' rest IH]; intros result H;
    cbn [Round3.voucher_loop] in H.
  - apply Ok_inj in H. subst. reflexivity.
  - destruct (startswith product' "VOLCANIC_ROCK_VOUCHER") eqn:Ev;
      [|apply IH; exact H].
    destruct (Round3.vr_short_itm_voucher tr product' state) as [orders|];
      cbn [Py.bind] in H; [|discriminate].
    rewrite (IH _ H). destruct (truthy orders); [|reflexivity].
    apply (get_set_other String.eqb string_eqb_iff).
    intros ->. rewrite (pb_product_not_voucher product L HL) in Ev.
    discriminate.
Qed.

Lemma round3_pb_loop_absent sqrt_float state product order_depth L products
  tr result tr' result' :
  get String.eqb (order_depths state) product = Some order_depth ->
  one_sided order_depth = true ->
  get String.eqb Round3.pb_position_limits product = Some L ->
  Round3.pb_loop sqrt_float tr state products result = (tr', Ok result') ->
  get String.eqb result' product = get String.eqb result product.
Proof.
  intros Hod Hone HL. revert tr result.
  induction products as [|product' rest IH]; intros tr result H;
    cbn [Round3.pb_loop] in H.
  - injection H as _ H. subst. reflexivity.
  - destruct (mem String.eqb Round3.pb_position_limits product');
      [|apply (IH _ _ H)].
    destruct (string_dec product' product) as [->|Hne].
    + rewrite (round3_process_one_sided sqrt_float state product order_depth
                 L tr Hod Hone HL) in H.
      cbn [truthy] in H. apply (IH _ _ H).
    + destruct (Round3.pb_process_product sqrt_float tr product' state)
        as [tr1 [orders|e]]; [|discriminate].
      rewrite (IH _ _ H). destruct (truthy orders); [|reflexivity].
      apply (get_set_other String.eqb string_eqb_iff). exact Hne.
Qed.

Lemma average_singleton (z : Z) :
  exists F, average (VList [VInt z]) = Ok F /\ (F == inject_Z z)%Q.
Proof.
  eexists. split; [reflexivity|]. cbn. field.
Qed.

(** ** C9: the adaptive buffer *)

Lemma key_eqb_str k s : key_eqb k (VStr s) = true <-> k = VStr s.
Proof.
  destruct k; cbn; split; intros H; try discriminate.
  - apply String.eqb_eq in H. congruence.
  - injection H as ->. apply String.eqb_refl.
Qed.

Lemma get_set_str_same (d : list (value * value)) s v :
  get key_eqb (set key_eqb d (VStr s) v) (VStr s) = Some v.
Proof.
  induction d as [|[k' v'] d IH]; cbn [get set].
  - cbn [key_eqb]. rewrite String.eqb_refl. reflexivity.
  - destruct (key_eqb k' (VStr s)) eqn:E; cbn [get]; rewrite E; auto.
Qed.

Lemma get_set_str_other (d : list (value * value)) s s' v :
  s <> s' ->
  get key_eqb (set key_eqb d (VStr s) v) (VStr s') = get key_eqb d (VStr s').
Proof.
  intros Hne. induction d as [|[k' v'] d IH]; cbn [get set].
  - cbn [key_eqb]. destruct (String.eqb s s') eqn:E; [|reflexivity].
    apply String.eqb_eq in E. contradiction.
  - destruct (key_eqb k' (VStr s)) eqn:E; cbn [get].
    + apply key_eqb_str in E. subst k'. cbn [key_eqb].
      destruct (String.eqb s s') eqn:E'; [|reflexivity].
      apply String.eqb_eq in E'. contradiction.
    + rewrite IH. reflexivity.
Qed.

Lemma numbers_length l xs :
  numbers l = Some xs -> List.length l = List.length xs.
Proof.
  revert xs. induction l as [|v l IH]; intros xs H; cbn [numbers] in H.
  - apply Some_inj in H. subst. reflexivity.
  - destruct (num_of v) as [x|]; [|discriminate].
    destruct (numbers l) as [xs'|]; [|discriminate].
    apply Some_inj in H. subst xs. cbn [List.length]. f_equal. auto.
Qed.

Lemma numbers_snoc l xs x :
  numbers l = Some xs ->
  numbers (l ++ [VFloat x]) = Some (xs ++ [x]).
Proof.
  revert xs. induction l as [|v l IH]; intros xs H; cbn [numbers] in H.
  - apply Some_inj in H. subst. reflexivity.
  - cbn [app numbers].
    destruct (num_of v) as [y|]; [|discriminate].
    destruct (numbers l) as [xs'|]; [|discriminate].
    apply Some_inj in H. subst xs. rewrite (IH xs' eq_refl). reflexivity.
Qed.

Lemma numbers_tl l xs :
  numbers l = Some xs -> numbers (tl l) = Some (tl xs).
Proof.
  destruct l as [|v l]; cbn [numbers tl]; intros H.
  - apply Some_inj in H. subst. reflexivity.
  - destruct (num_of v) as [y|]; [|discriminate].
    destruct (numbers l) as [xs'|]; [|discriminate].
    apply Some_inj in H. subst xs. reflexivity.
Qed.

Lemma push_window_bounded window xs x :
  (List.length xs <= window)%nat ->
  (List.length (push_window window xs x) <= window)%nat.
Proof.
  intros H. unfold push_window.
  destruct (window <? List.length (xs ++ [x]))%nat eqn:E.
  - destruct xs as [|y xs]; cbn [app tl List.length] in *.
    + lia.
    + rewrite length_app. cbn [List.length]. lia.
  - apply Nat.ltb_ge in E. exact E.
Qed.

Lemma Qltb_ge x y : Qltb x y = false -> (y <= x)%Q.
Proof.
  unfold Qltb. intros H. apply negb_false_iff in H.
  apply Qle_bool_iff. exact H.
Qed.

Lemma clamp_py_max_min (x lo hi : Q) :
  (lo <= hi)%Q -> (py_max lo (py_min hi x) == clamp x lo hi)%Q.
Proof.
  intros Hle. unfold py_max, py_min, clamp.
  destruct (Qltb x hi) eqn:E1; destruct (Qltb x lo) eqn:E3;
    destruct (Qltb hi x) eqn:E4;
    try (destruct (Qltb lo x) eqn:E2);
    try (destruct (Qltb lo hi) eqn:E5);
    repeat match goal with
      | H : Qltb _ _ = true |- _ => apply Qltb_lt in H
      | H : Qltb _ _ = false |- _ => apply Qltb_ge in H
      end; lra.
Qed.

Lemma update_dynamic_buffers_spec tr product spread sh h xs params :
  get key_eqb (Round2.trader_data tr) (VStr "spread_history")
  = Some (VDict sh) ->
  get key_eqb sh (VStr product) = Some (VList h) ->
  numbers h = Some xs ->
  get String.eqb (Round2.dynamic_params tr) product = Some params ->
  exists tr' sh' h',
    Round2.update_dynamic_buffers tr product spread = (tr', Ok tt)
    /\ get key_eqb (Round2.trader_data tr') (VStr "spread_history")
       = Some (VDict sh')
    /\ get key_eqb sh' (VStr product) = Some (VList h')
    /\ numbers h' = Some (push_window 20 xs spread)
    /\ get String.eqb (Round2.dynamic_params tr') product
       = Some (Round2.mkBufferParams
                 (Round2.buffer_multiplier params)
                 (Round2.min_buffer params)
                 (Round2.max_buffer params)
                 (if (5 <=? List.length (push_window 20 xs spread))%nat
                  then py_max (Round2.min_buffer params)
                         (py_min (Round2.max_buffer params)
                            (median (push_window 20 xs spread)
                             * Round2.buffer_multiplier params)%Q)
                  else Round2.current_buffer params)).
Proof.
  intros Htd Hsh Hnum Hdp. unfold Round2.update_dynamic_buffers.
  rewrite Htd, Hsh.
  set (h1 := h ++ [VFloat spread]).
  set (h2 := if (20 <? List.length h1)%nat then tl h1 else h1).
  assert (Hlen1 : List.length h1 = List.length (xs ++ [spread])).
  { unfold h1. rewrite !length_app. cbn [List.length].
    rewrite (numbers_length h xs Hnum). reflexivity. }
  assert (Hnum2 : numbers h2 = Some (push_window 20 xs spread)).
  { unfold h2, push_window. rewrite Hlen1.
    destruct (20 <? List.length (xs ++ [spread]))%nat.
    - apply numbers_tl. apply numbers_snoc. exact Hnum.
    - apply numbers_snoc. exact Hnum. }
  assert (Hlen2 : List.length h2
                  = List.length (push_window 20 xs spread)).
  { apply numbers_length. exact Hnum2. }
  rewrite Hlen2.
  destruct (5 <=? List.length (push_window 20 xs spread))%nat.
  - rewrite Hnum2, Hdp.
    eexists. exists (set key_eqb sh (VStr product) (VList h2)), h2.
    split; [reflexivity|].
    cbn [Round2.set_dynamic_params Round2.set_trader_data
         Round2.trader_data Round2.dynamic_params].
    split; [apply get_set_str_same|].
    split; [apply get_set_str_same|].
    split; [exact Hnum2|].
    apply (get_set_same String.eqb string_eqb_iff).
  - eexists. exists (set key_eqb sh (VStr product) (VList h2)), h2.
    split; [reflexivity|].
    cbn [Round2.set_trader_data Round2.trader_data Round2.dynamic_params].
    split; [apply get_set_str_same|].
    split; [apply get_set_str_same|].
    split; [exact Hnum2|].
    rewrite Hdp. destruct params. reflexivity.
Qed.

Lemma mean_reversion_other_field td product order_depth L p field :
  field <> "price_history" ->
  get key_eqb (fst (mean_reversion td product order_depth L p)) (VStr field)
  = get key_eqb td (VStr field).
Proof.
  intros Hne. unfold mean_reversion.
  destruct (get key_eqb td (VStr "price_history")) as [[| | | | | |ph]|];
    try reflexivity.
  destruct (push_mid ph product (mid_price_of order_depth)) as [ph' r].
  assert (Hset : get key_eqb
                   (set key_eqb td (VStr "price_history") (VDict ph'))
                   (VStr field)
                 = get key_eqb td (VStr field)).
  { apply get_set_str_other. congruence. }
  destruct r as [[]|e]; [|exact Hset].
  destruct (get key_eqb ph' (VStr product)); exact Hset.
Qed.

Lemma round2_process_product_frame sqrt_float state st product field :
  field <> "price_history" ->
  let r := Round2.process_product sqrt_float state st product in
  Round2.dynamic_params (fst r) = Round2.dynamic_params (fst st)
  /\ get key_eqb (Round2.trader_data (fst r)) (VStr field)
     = get key_eqb (Round2.trader_data (fst st)) (VStr field).
Proof.
  intros Hne. destruct st as [tr result]. cbn [fst].
  unfold Round2.process_product.
  destruct (get String.eqb Round2.POSITION_LIMITS product) as [L|];
    [|split; reflexivity].
  destruct (get String.eqb (order_depths state) product) as [od|];
    [|split; reflexivity].
  destruct (one_sided od); [split; reflexivity|].
  destruct (String.eqb product "RAINFOREST_RESIN" || String.eqb product "KELP").
  { pose proof (mean_reversion_other_field (Round2.trader_data tr) product od
                  L (position_of state product) field Hne) as Hm.
    destruct (mean_reversion _ _ _ _ _) as [td' [orders|e]];
      cbn [fst Round2.set_trader_data Round2.dynamic_params
           Round2.trader_data] in *; split; auto. }
  destruct (String.eqb product "CROISSANTS"); split; reflexivity.
Qed.

Lemma round2_product_loop_frame sqrt_float state products st field :
  field <> "price_history" ->
  let r := Round2.product_loop sqrt_float state products st in
  Round2.dynamic_params (fst r) = Round2.dynamic_params (fst st)
  /\ get key_eqb (Round2.trader_data (fst r)) (VStr field)
     = get key_eqb (Round2.trader_data (fst st)) (VStr field).
Proof.
  intros Hne. revert st. induction products as [|product rest IH];
    intros st; cbn [Round2.product_loop].
  - split; reflexivity.
  - pose proof (round2_process_product_frame sqrt_float state st product
                  field Hne) as [Hd Hg].
    destruct (Round2.process_product sqrt_float state st product)
      as [tr1 [result1|e]]; cbn [fst] in *.
    + destruct (IH (tr1, result1)) as [Hd' Hg']. cbn [fst] in *.
      split; congruence.
    + split; assumption.
Qed.

Lemma round2_run_frame sqrt_float tr state :
  Round2.dynamic_params (fst (Round2.run sqrt_float tr state))
  = Round2.dynamic_params tr
  /\ get key_eqb (Round2.trader_data (fst (Round2.run sqrt_float tr state)))
       (VStr "spread_history")
     = get key_eqb (restore (Round2.trader_data tr) (traderData state))
         (VStr "spread_history").
Proof.
  unfold Round2.run.
  pose proof (round2_product_loop_frame sqrt_float state
                (keys (order_depths state))
                (Round2.set_trader_data tr
                   (restore (Round2.trader_data tr) (traderData state)), [])
                "spread_history") as H.
  destruct H as [Hd Hg]; [discriminate|].
  destruct (Round2.product_loop _ _ _ _) as [tr2 [result|e]];
    cbn [fst Round2.set_trader_data Round2.dynamic_params
         Round2.trader_data] in *.
  - split; [exact Hd|].
    rewrite get_set_str_other by discriminate. exact Hg.
  - split; assumption.
Qed.

Lemma round2_process_product_params sqrt_float state tr result product dp :
  Round2.process_product sqrt_float state
    (Round2.set_dynamic_params tr dp, result) product
  = (Round2.set_dynamic_params
       (fst (Round2.process_product sqrt_float state (tr, result) product)) dp,
     snd (Round2.process_product sqrt_float state (tr, result) product)).
Proof.
  unfold Round2.process_product.
  destruct (get String.eqb Round2.POSITION_LIMITS product) as [L|];
    [|reflexivity].
  destruct (get String.eqb (order_depths state) product) as [od|];
    [|reflexivity].
  destruct (one_sided od); [reflexivity|].
  destruct (String.eqb product "RAINFOREST_RESIN" || String.eqb product "KELP").
  { cbn [Round2.set_dynamic_params Round2.trader_data].
    destruct (mean_reversion _ _ _ _ _) as [td' [orders|e]]; reflexivity. }
  destruct (String.eqb product "CROISSANTS"); reflexivity.
Qed.

Lemma round2_product_loop_params sqrt_float state products tr result dp :
  Round2.product_loop sqrt_float state products
    (Round2.set_dynamic_params tr dp, result)
  = (Round2.set_dynamic_params
       (fst (Round2.product_loop sqrt_float state products (tr, result))) dp,
     snd (Round2.product_loop sqrt_float state products (tr, result))).
Proof.
  revert tr result. induction products as [|product rest IH];
    intros tr result; cbn [Round2.product_loop]; [reflexivity|].
  rewrite round2_process_product_params.
  destruct (Round2.process_product sqrt_float state (tr, result) product)
    as [tr1 [result1|e]]; cbn [fst snd]; [apply IH|reflexivity].
Qed.

Lemma round2_run_params sqrt_float tr state dp :
  snd (Round2.run sqrt_float (Round2.set_dynamic_params tr dp) state)
  = snd (Round2.run sqrt_float tr state).
Proof.
  unfold Round2.run.
  change (Round2.set_trader_data (Round2.set_dynamic_params tr dp)
            (restore (Round2.trader_data (Round2.set_dynamic_params tr dp))
               (traderData state)))
    with (Round2.set_dynamic_params
            (Round2.set_trader_data tr
               (restore (Round2.trader_data tr) (traderData state))) dp).
  rewrite round2_product_loop_params.
  destruct (Round2.product_loop _ _ _ _) as [tr2 [result|e]];
    cbn [fst snd]; reflexivity.
Qed.

(** C9, as the code has it.  [update_dynamic_buffers] appends the spread to
    the FIFO spread history of the product, bounded at 20, and sets
    [current_buffer] to [clamp(median(history) * buffer_multiplier,
    min_buffer, max_buffer)] once the history holds at least 5 observations,
    keeping the prior value below 5.  The per-tick entry point does not call
    it: a tick changes the spread histories only by merging the blob and
    never changes the buffer parameters; it serializes [trader_data], of
    which the buffer parameters are no part, and its output does not depend
    on them. *)
Theorem C9_adaptive_buffer :
  forall (sqrt_float : Q -> Q) (tr : Round2.Trader) (state : TradingState),
    (forall product spread sh h xs params,
        get key_eqb (Round2.trader_data tr) (VStr "spread_history")
        = Some (VDict sh) ->
        get key_eqb sh (VStr product) = Some (VList h) ->
        numbers h = Some xs ->
        get String.eqb (Round2.dynamic_params tr) product = Some params ->
        let xs' := push_window 20 xs spread in
        let buffer :=
          py_max (Round2.min_buffer params)
            (py_min (Round2.max_buffer params)
               (median xs' * Round2.buffer_multiplier params)%Q) in
        (exists tr' sh' h',
            Round2.update_dynamic_buffers tr product spread = (tr', Ok tt)
            /\ get key_eqb (Round2.trader_data tr') (VStr "spread_history")
               = Some (VDict sh')
            /\ get key_eqb sh' (VStr product) = Some (VList h')
            /\ numbers h' = Some xs'
            /\ get String.eqb (Round2.dynamic_params tr') product
               = Some (Round2.mkBufferParams
                         (Round2.buffer_multiplier params)
                         (Round2.min_buffer params)
                         (Round2.max_buffer params)
                         (if (5 <=? List.length xs')%nat then buffer
                          else Round2.current_buffer params)))
        /\ ((List.length xs <= 20)%nat -> (List.length xs' <= 20)%nat)
        /\ ((Round2.min_buffer params <= Round2.max_buffer params)%Q ->
            (buffer == clamp (median xs' * Round2.buffer_multiplier params)
                         (Round2.min_buffer params)
                         (Round2.max_buffer params))%Q))
    /\ Round2.dynamic_params (fst (Round2.run sqrt_float tr state))
       = Round2.dynamic_params tr
    /\ get key_eqb
         (Round2.trader_data (fst (Round2.run sqrt_float tr state)))
         (VStr "spread_history")
       = get key_eqb (restore (Round2.trader_data tr) (traderData state))
           (VStr "spread_history")
    /\ (forall dp,
           snd (Round2.run sqrt_float (Round2.set_dynamic_params tr dp) state)
           = snd (Round2.run sqrt_float tr state))
    /\ (forall tr' result c blob,
           Round2.run sqrt_float tr state = (tr', Ok (result, c, blob)) ->
           blob = VDict (Round2.trader_data tr')).
Proof.
  intros sqrt_float tr state. split; [|split; [|split; [|split]]].
  - intros product spread sh h xs params Htd Hsh Hnum Hdp xs' buffer.
    split; [|split].
    + eapply update_dynamic_buffers_spec; eauto.
    + apply push_window_bounded.
    + apply clamp_py_max_min.
  - apply round2_run_frame.
  - apply round2_run_frame.
  - intros dp. apply round2_run_params.
  - intros tr' result c blob H. unfold Round2.run in H.
    destruct (Round2.product_loop _ _ _ _) as [tr2 [result2|e]];
      [|discriminate].
    injection H as <- _ _ <-. reflexivity.
Qed.

Lemma C9_witness :
  exists tr' sh' h',
    Round2.update_dynamic_buffers trader_basket1 "PICNIC_BASKET1" 2
    = (tr', Ok tt)
    /\ get key_eqb (Round2.trader_data tr') (VStr "spread_history")
       = Some (VDict sh')
    /\ get key_eqb sh' (VStr "PICNIC_BASKET1") = Some (VList h')
    /\ numbers h' = Some (push_window 20 [10; 10; 10; 10] 2)%Q
    /\ get String.eqb (Round2.dynamic_params tr') "PICNIC_BASKET1"
       = Some (Round2.mkBufferParams (22 # 10) 2 10 10).
Proof.
  exact (proj1 (proj1 (C9_adaptive_buffer sqrt_milli trader_basket1
                         tick_basket1)
                  "PICNIC_BASKET1" 2%Q
                  [(VStr "PICNIC_BASKET1",
                     VList [VInt 10; VInt 10; VInt 10; VInt 10]);
                   (VStr "PICNIC_BASKET2", VList [])]
                  [VInt 10; VInt 10; VInt 10; VInt 10]
                  [10; 10; 10; 10]%Q
                  (Round2.mkBufferParams (22 # 10) 2 10 3)
                  eq_refl eq_refl eq_refl eq_refl)).
Defined.

(** The claim fails on a tick that quotes PICNIC_BASKET1 two-sided with a
    spread of 2 after four spreads of 10: the tick leaves the history at
    four spreads and the buffer at 3, where the update of the claim gives
    five spreads and a buffer of 10; and the blob of the tick holds no
    buffer. *)
Lemma C9_counterexample :
  Round2.calculate_spread_stats small_book = Some 2
  /\ match Round2.run sqrt_milli Round2.init tick_basket1 with
     | (tr', Ok (_, _, blob)) =>
         get key_eqb (Round2.trader_data tr') (VStr "spread_history")
         = Some (VDict
                   [(VStr "PICNIC_BASKET1",
                      VList [VInt 10; VInt 10; VInt 10; VInt 10]);
                    (VStr "PICNIC_BASKET2", VList [])])
         /\ get String.eqb (Round2.dynamic_params tr') "PICNIC_BASKET1"
            = Some (Round2.mkBufferParams (22 # 10) 2 10 3)
         /\ blob
            = VDict
                [(VStr "spread_history",
                   VDict
                     [(VStr "PICNIC_BASKET1",
                        VList [VInt 10; VInt 10; VInt 10; VInt 10]);
                      (VStr "PICNIC_BASKET2", VList [])]);
                 (VStr "last_timestamp", VInt 100);
                 (VStr "open_positions", VDict []);
                 (VStr "price_history", VDict [])]
     | (_, Raise _) => False
     end
  /\ get String.eqb
       (Round2.dynamic_params
          (fst (Round2.update_dynamic_buffers trader_basket1
                  "PICNIC_BASKET1" 2)))
       "PICNIC_BASKET1"
     = Some (Round2.mkBufferParams (22 # 10) 2 10 10).
Proof.
  split; [reflexivity|]. split; [|reflexivity].
  vm_compute. repeat split.
Qed.

(** ** Plain trader data: the states of round 3 under the protocol *)

Lemma get_encode es s :
  get key_eqb (encode_history es) (VStr s)
  = option_map (fun h => VList (map VFloat h)) (get String.eqb es s).
Proof.
  induction es as [|[s' h] es IH]; cbn [encode_history map get fst snd];
    [reflexivity|].
  cbn [key_eqb]. destruct (String.eqb s' s); [reflexivity|]. exact IH.
Qed.

Lemma set_encode es s h :
  set key_eqb (encode_history es) (VStr s) (VList (map VFloat h))
  = encode_history (set String.eqb es s h).
Proof.
  induction es as [|[s' h'] es IH]; cbn [encode_history map set fst snd];
    [reflexivity|].
  cbn [key_eqb]. destruct (String.eqb s' s); cbn [map fst snd];
    [reflexivity|].
  f_equal. exact IH.
Qed.

Lemma mem_encode es s :
  mem key_eqb (encode_history es) (VStr s) = mem String.eqb es s.
Proof.
  unfold mem. rewrite get_encode.
  destruct (get String.eqb es s); reflexivity.
Qed.

Lemma last_n_map {A B : Type} (f : A -> B) n l :
  last_n n (map f l) = map f (last_n n l).
Proof. unfold last_n. rewrite length_map, skipn_map. reflexivity. Qed.

Lemma push_mid_encode es product mid_price :
  push_mid (encode_history es) product mid_price
  = (encode_history (push_price es product mid_price), Ok tt).
Proof.
  unfold push_mid, push_price. rewrite mem_encode.
  set (es1 := if mem String.eqb es product then es
              else set String.eqb es product []).
  assert (H1 : (if mem String.eqb es product then encode_history es
                else set key_eqb (encode_history es) (VStr product) (VList []))
               = encode_history es1).
  { unfold es1. destruct (mem String.eqb es product); [reflexivity|].
    apply (set_encode es product []). }
  rewrite H1, get_encode.
  assert (Hget : exists h, get String.eqb es1 product = Some h).
  { unfold es1, mem.
    destruct (get String.eqb es product) as [h|] eqn:E; [eauto|].
    exists []. apply (get_set_same String.eqb string_eqb_iff). }
  destruct Hget as [h Hget]. rewrite Hget. cbn [option_map].
  change [VFloat mid_price] with (map VFloat [mid_price]).
  rewrite <- map_app, length_map, set_encode.
  destruct (5 <? List.length (h ++ [mid_price]))%nat; [|reflexivity].
  rewrite last_n_map, set_encode. reflexivity.
Qed.

Lemma keys_set_absent {V : Type} (d : list (string * V)) k v :
  get String.eqb d k = None -> set String.eqb d k v = d ++ [(k, v)].
Proof.
  induction d as [|[k' v'] d IH]; cbn [get set app]; [reflexivity|].
  destruct (String.eqb k' k); [discriminate|].
  intros H. f_equal. apply IH. exact H.
Qed.

Lemma get_None_not_In {V : Type} (d : list (string * V)) k :
  get String.eqb d k = None <-> ~ In k (keys d).
Proof.
  induction d as [|[k' v'] d IH]; cbn [get keys map fst In].
  - tauto.
  - destruct (String.eqb k' k) eqn:E.
    + apply String.eqb_eq in E. split; [discriminate|]. intros H.
      exfalso. apply H. left. exact E.
    + apply String.eqb_neq in E. rewrite IH. unfold keys. tauto.
Qed.

Lemma NoDup_snoc {A : Type} (l : list A) (a : A) :
  NoDup l -> ~ In a l -> NoDup (l ++ [a]).
Proof.
  intros Hnd Hnot. apply NoDup_rev in Hnd.
  rewrite <- (rev_involutive (l ++ [a])). apply NoDup_rev.
  rewrite rev_app_distr. cbn [rev app]. constructor; [|exact Hnd].
  rewrite <- in_rev. exact Hnot.
Qed.

Lemma nodup_set {V : Type} (d : list (string * V)) k v :
  NoDup (keys d) -> NoDup (keys (set String.eqb d k v)).
Proof.
  intros Hnd. destruct (get String.eqb d k) as [x|] eqn:E.
  - rewrite (keys_set_present String.eqb d k v x E). exact Hnd.
  - rewrite (keys_set_absent d k v E). unfold keys. rewrite map_app.
    cbn [map fst]. apply NoDup_snoc.
    + exact Hnd.
    + apply get_None_not_In. exact E.
Qed.

Lemma push_price_nodup es product mid_price :
  NoDup (keys es) -> NoDup (keys (push_price es product mid_price)).
Proof.
  intros Hnd. unfold push_price.
  set (es1 := if mem String.eqb es product then es
              else set String.eqb es product []).
  assert (H1 : NoDup (keys es1)).
  { unfold es1. destruct (mem String.eqb es product); [exact Hnd|].
    apply nodup_set. exact Hnd. }
  destruct (get String.eqb es1 product) as [h|]; [|exact H1].
  destruct (5 <? List.length (h ++ [mid_price]))%nat;
    repeat apply nodup_set; exact H1.
Qed.

Lemma push_price_get es product mid_price :
  exists h,
    get String.eqb (push_price es product mid_price) product = Some h
    /\ (0 < List.length h)%nat.
Proof.
  unfold push_price.
  set (es1 := if mem String.eqb es product then es
              else set String.eqb es product []).
  assert (Hget : exists h, get String.eqb es1 product = Some h).
  { unfold es1, mem.
    destruct (get String.eqb es product) as [h|] eqn:E; [eauto|].
    exists []. apply (get_set_same String.eqb string_eqb_iff). }
  destruct Hget as [h Hget]. rewrite Hget.
  destruct (5 <? List.length (h ++ [mid_price]))%nat eqn:E.
  - exists (last_n 5 (h ++ [mid_price])). split.
    + apply (get_set_same String.eqb string_eqb_iff).
    + apply Nat.ltb_lt in E. unfold last_n. rewrite length_skipn. lia.
  - exists (h ++ [mid_price]). split.
    + apply (get_set_same String.eqb string_eqb_iff).
    + rewrite length_app. cbn [List.length]. lia.
Qed.

Lemma sum_from_floats acc h :
  sum_from acc (map VFloat h) = Ok (fold_left Qplus h acc).
Proof.
  revert acc. induction h as [|x h IH]; intros acc; cbn [map sum_from fold_left num_of].
  - reflexivity.
  - apply IH.
Qed.

Lemma average_floats h :
  (0 < List.length h)%nat ->
  exists F, average (VList (map VFloat h)) = Ok F.
Proof.
  intros Hlen. unfold average, Py.sum. cbn [iter Py.bind].
  rewrite sum_from_floats. cbn [Py.bind].
  destruct h as [|x h]; [cbn in Hlen; lia|].
  cbn [map]. eexists. reflexivity.
Qed.

Lemma mean_reversion_plain t es product order_depth L p :
  exists F,
    mean_reversion (plain_trader_data t es) product order_depth L p
    = (plain_trader_data t
         (push_price es product (mid_price_of order_depth)),
       Ok (book_walk product F L p order_depth)).
Proof.
  unfold mean_reversion.
  change (get key_eqb (plain_trader_data t es) (VStr "price_history"))
    with (Some (VDict (encode_history es))).
  cbv beta iota. rewrite push_mid_encode.
  change (set key_eqb (plain_trader_data t es) (VStr "price_history")
            (VDict (encode_history
                      (push_price es product (mid_price_of order_depth)))))
    with (plain_trader_data t
            (push_price es product (mid_price_of order_depth))).
  rewrite get_encode.
  destruct (push_price_get es product (mid_price_of order_depth))
    as (h & Hget & Hlen).
  rewrite Hget. cbn [option_map].
  destruct (average_floats h Hlen) as [F HF]. rewrite HF. cbn [Py.bind].
  exists F. reflexivity.
Qed.

Lemma update_encode a b :
  update key_eqb (encode_history a) (encode_history b)
  = encode_history (update String.eqb a b).
Proof.
  unfold update. revert a.
  induction b as [|[s h] b IH]; intros a; cbn [encode_history map fold_left fst snd];
    [reflexivity|].
  rewrite set_encode. apply IH.
Qed.

Lemma update_nodup {V : Type} (a b : list (string * V)) :
  NoDup (keys a) -> NoDup (keys (update String.eqb a b)).
Proof.
  unfold update. revert a.
  induction b as [|[k v] b IH]; intros a Hnd; cbn [fold_left fst snd];
    [exact Hnd|].
  apply IH. apply nodup_set. exact Hnd.
Qed.

Lemma update_fresh {V : Type} (a b : list (string * V)) :
  NoDup (keys (a ++ b)) -> update String.eqb a b = a ++ b.
Proof.
  unfold update. revert a.
  induction b as [|[k v] b IH]; intros a Hnd; cbn [fold_left fst snd].
  - rewrite app_nil_r. reflexivity.
  - assert (Hk : get String.eqb a k = None).
    { apply get_None_not_In. unfold keys in *. rewrite map_app in Hnd.
      cbn [map fst] in Hnd. apply NoDup_remove_2 in Hnd.
      intros Hin. apply Hnd. apply in_or_app. left. exact Hin. }
    rewrite (keys_set_absent a k v Hk).
    rewrite IH; rewrite <- app_assoc; [reflexivity|exact Hnd].
Qed.

Lemma update_same_spread_history :
  update key_eqb empty_spread_history empty_spread_history
  = empty_spread_history.
Proof. reflexivity. Qed.

Lemma restore_plain t es t' es' :
  restore (plain_trader_data t es)
    (BlobValue (VDict (plain_trader_data t' es')))
  = plain_trader_data t' (update String.eqb es es').
Proof.
  unfold restore, try_merge, plain_trader_data.
  cbn [iter keys map fst merge_keys merge_key hashable negb get key_eqb
       String.eqb Ascii.eqb Bool.eqb loaded_item dict_update set fst snd].
  rewrite update_encode. reflexivity.
Qed.

Lemma restore_is_plain td b :
  is_plain td -> plain_blob b -> is_plain (restore td b).
Proof.
  intros (t & es & Hnd & ->) [->|(td' & (t' & es' & Hnd' & ->) & ->)].
  - exists t, es. split; [exact Hnd|reflexivity].
  - rewrite restore_plain. exists t', (update String.eqb es es').
    split; [|reflexivity]. apply update_nodup. exact Hnd.
Qed.

Lemma init_is_plain : Round3.trader_data Round3.init = plain_trader_data 0 [].
Proof. reflexivity. Qed.

Lemma restore_fresh_plain t es :
  NoDup (keys es) ->
  restore (Round3.trader_data Round3.init)
    (BlobValue (VDict (plain_trader_data t es)))
  = plain_trader_data t es.
Proof.
  intros Hnd. rewrite init_is_plain, restore_plain.
  rewrite (update_fresh [] es Hnd). reflexivity.
Qed.

Lemma In_keys_get {V : Type} (d : list (string * V)) k :
  In k (keys d) -> exists v, get String.eqb d k = Some v.
Proof.
  intros Hin. destruct (get String.eqb d k) as [v|] eqn:E; [eauto|].
  apply get_None_not_In in E. contradiction.
Qed.

Lemma pb_process_product_plain sqrt_float tr product state t es :
  Round3.trader_data tr = plain_trader_data t es ->
  NoDup (keys es) ->
  In product (keys (order_depths state)) ->
  mem String.eqb Round3.pb_position_limits product = true ->
  exists tr' orders es',
    Round3.pb_process_product sqrt_float tr product state = (tr', Ok orders)
    /\ Round3.trader_data tr' = plain_trader_data t es'
    /\ NoDup (keys es')
    /\ Round3.vr_price tr' = Round3.vr_price tr.
Proof.
  intros Htd Hnd Hin Hmem. unfold Round3.pb_process_product.
  destruct (In_keys_get _ _ Hin) as [od Hod]. rewrite Hod.
  unfold mem in Hmem.
  destruct (get String.eqb Round3.pb_position_limits product) as [L|];
    [|discriminate].
  destruct (one_sided od).
  { exists tr, [], es. auto. }
  destruct (String.eqb product "RAINFOREST_RESIN" || String.eqb product "KELP").
  { rewrite Htd.
    destruct (mean_reversion_plain t es product od L
                (position_of state product)) as [F HF].
    rewrite HF. eexists. eexists. eexists.
    split; [reflexivity|].
    cbn [Round3.set_trader_data Round3.trader_data Round3.vr_price].
    split; [reflexivity|]. split; [|reflexivity].
    apply push_price_nodup. exact Hnd. }
  destruct (String.eqb product "CROISSANTS").
  { eexists. eexists. exists es. split; [reflexivity|].
    cbn [Round3.pb_update_croissant_history Round3.set_croissant_history
         Round3.trader_data Round3.vr_price].
    auto. }
  exists tr, [], es. auto.
Qed.

Lemma pb_loop_plain sqrt_float state products tr result t es :
  Round3.trader_data tr = plain_trader_data t es ->
  NoDup (keys es) ->
  incl products (keys (order_depths state)) ->
  exists tr' result' es',
    Round3.pb_loop sqrt_float tr state products result = (tr', Ok result')
    /\ Round3.trader_data tr' = plain_trader_data t es'
    /\ NoDup (keys es')
    /\ Round3.vr_price tr' = Round3.vr_price tr.
Proof.
  revert tr result es. induction products as [|product rest IH];
    intros tr result es Htd Hnd Hincl; cbn [Round3.pb_loop].
  - exists tr, result, es. auto.
  - assert (Hrest : incl rest (keys (order_depths state))).
    { intros x Hx. apply Hincl. right. exact Hx. }
    destruct (mem String.eqb Round3.pb_position_limits product) eqn:Em;
      [|apply (IH tr result es); auto].
    destruct (pb_process_product_plain sqrt_float tr product state t es
                Htd Hnd (Hincl product (or_introl eq_refl)) Em)
      as (tr1 & orders & es1 & Hp & Htd1 & Hnd1 & Hv1).
    rewrite Hp.
    destruct (IH tr1
                (if truthy orders then set String.eqb result product orders
                 else result) es1 Htd1 Hnd1 Hrest)
      as (tr' & result' & es' & Hl & Htd' & Hnd' & Hv').
    exists tr', result', es'. rewrite Hl. repeat split; auto. congruence.
Qed.

Lemma vr_update_trader_data tr state :
  Round3.trader_data (Round3.vr_update_market_data tr state)
  = Round3.trader_data tr.
Proof.
  unfold Round3.vr_update_market_data.
  destruct (get String.eqb (order_depths state) "VOLCANIC_ROCK") as [d|];
    [|reflexivity].
  destruct (truthy (buy_orders d) && truthy (sell_orders d)); reflexivity.
Qed.

Lemma round3_run_plain sqrt_float tr state S r :
  is_plain (Round3.trader_data tr) ->
  plain_blob (traderData state) ->
  Round3.run sqrt_float tr state = (S, r) ->
  is_plain (Round3.trader_data S)
  /\ forall result c v,
       r = Ok (result, c, v) ->
       v = VDict (Round3.trader_data S)
       /\ exists es,
            NoDup (keys es)
            /\ Round3.trader_data S = plain_trader_data (timestamp state) es.
Proof.
  intros Hplain Hblob Hrun. unfold Round3.run in Hrun.
  pose proof (restore_is_plain _ _ Hplain Hblob) as (t & es & Hnd & Htd).
  set (tr2 := Round3.vr_update_market_data
                (Round3.set_trader_data tr
                   (restore (Round3.trader_data tr) (traderData state)))
                state) in *.
  assert (Htd2 : Round3.trader_data tr2 = plain_trader_data t es).
  { unfold tr2. rewrite vr_update_trader_data. exact Htd. }
  destruct (Round3.voucher_loop tr2 state (keys (order_depths state)) [])
    as [result1|e].
  2:{ injection Hrun as <- <-. split.
      - exists t, es. auto.
      - intros result c v H. discriminate. }
  destruct (pb_loop_plain sqrt_float state (keys (order_depths state)) tr2
              result1 t es Htd2 Hnd (incl_refl _))
    as (tr3 & result3 & es3 & Hl & Htd3 & Hnd3 & _).
  rewrite Hl in Hrun. injection Hrun as <- <-.
  cbn [Round3.set_trader_data Round3.trader_data]. rewrite Htd3.
  change (set key_eqb (plain_trader_data t es3) (VStr "last_timestamp")
            (VInt (timestamp state)))
    with (plain_trader_data (timestamp state) es3).
  split.
  - exists (timestamp state), es3. auto.
  - intros result c v H. apply Ok_inj in H. injection H as _ _ <-.
    split; [reflexivity|]. exists es3. auto.
Qed.

Lemma served_plain sqrt_float tr b :
  served sqrt_float tr b ->
  is_plain (Round3.trader_data tr) /\ plain_blob b.
Proof.
  induction 1 as [|tr state tr' result c v _ [IHt IHb] Hrun
                  |tr state tr' e _ [IHt IHb] Hrun
                  |tr b _ [IHt IHb]].
  - split; [|left; reflexivity].
    exists 0, []. split; [constructor|reflexivity].
  - destruct (round3_run_plain sqrt_float tr state tr' _ IHt IHb Hrun)
      as [Hp Hv].
    split; [exact Hp|]. right.
    destruct (Hv result c v eq_refl) as [-> _].
    exists (Round3.trader_data tr'). auto.
  - destruct (round3_run_plain sqrt_float tr state tr' _ IHt IHb Hrun)
      as [Hp _].
    split; assumption.
  - split; [|exact IHb].
    exists 0, []. split; [constructor|reflexivity].
Qed.

(** ** C3: the round trip of the state *)

(** C3, as the code has it.  For every state that the round-3 trader holds
    at the end of a tick under the protocol of the exchange, the blob is the
    serialization of [trader_data] (last timestamp, price histories, spread
    histories; string keys and numbers only), and restoring it into a fresh
    trader reproduces [trader_data] exactly.  The rolling z-score window, the
    underlying price with its history and the buffer parameters are
    attributes of the object that the blob does not hold: the fresh trader
    has them as its constructor sets them. *)
Theorem C3_state_round_trip :
  forall (sqrt_float : Q -> Q) (tr : Round3.Trader) (state : TradingState)
         (S : Round3.Trader) (result : Result) (c : Z) (v : value),
    served sqrt_float tr (traderData state) ->
    Round3.run sqrt_float tr state = (S, Ok (result, c, v)) ->
    v = VDict (Round3.trader_data S)
    /\ (exists es,
          NoDup (keys es)
          /\ Round3.trader_data S = plain_trader_data (timestamp state) es)
    /\ restore (Round3.trader_data Round3.init) (BlobValue v)
       = Round3.trader_data S
    /\ Round3.set_trader_data Round3.init
         (restore (Round3.trader_data Round3.init) (BlobValue v))
       = Round3.mkTrader 10500 [] []
           (Round3.pb_dynamic_params Round3.init) (Round3.trader_data S).
Proof.
  intros sqrt_float tr state S result c v Hserved Hrun.
  destruct (served_plain sqrt_float tr _ Hserved) as [Hplain Hblob].
  destruct (round3_run_plain sqrt_float tr state S _ Hplain Hblob Hrun)
    as [_ Hv].
  destruct (Hv result c v eq_refl) as (-> & es & Hnd & Htd).
  assert (Hrestore : restore (Round3.trader_data Round3.init)
                       (BlobValue (VDict (Round3.trader_data S)))
                     = Round3.trader_data S).
  { rewrite Htd. apply restore_fresh_plain. exact Hnd. }
  split; [reflexivity|]. split; [exists es; auto|].
  split; [exact Hrestore|]. rewrite Hrestore. reflexivity.
Qed.

Lemma C3_witness :
  blob_after_first
  = VDict (Round3.trader_data
             (fst (Round3.run sqrt_milli Round3.init tick_first)))
  /\ restore (Round3.trader_data Round3.init) (BlobValue blob_after_first)
     = Round3.trader_data
         (fst (Round3.run sqrt_milli Round3.init tick_first)).
Proof.
  pose proof (C3_state_round_trip sqrt_milli Round3.init tick_first
                (fst (Round3.run sqrt_milli Round3.init tick_first))
                [] 0 blob_after_first
                (served_start sqrt_milli)) as H.
  assert (Hrun : Round3.run sqrt_milli Round3.init tick_first
                 = (fst (Round3.run sqrt_milli Round3.init tick_first),
                    Ok ([], 0, blob_after_first)))
    by (vm_compute; reflexivity).
  destruct (H Hrun) as (H1 & _ & H2 & _).
  split; [exact H1|exact H2].
Defined.

(** The claim fails for the fields that the blob does not hold.  After
    [tick_first] the trader holds the underlying price 10000 and one price
    in its z-score window; a fresh trader given the blob holds 10500 and an
    empty window.  On [tick_second] the first emits nothing for the voucher
    of strike 10250 and the second shorts it. *)
Lemma C3_counterexample :
  snd (Round3.run sqrt_milli Round3.init tick_first)
  = Ok ([], 0, blob_after_first)
  /\ Round3.pb_croissant_history
       (fst (Round3.run sqrt_milli Round3.init tick_first)) = [200 # 2]%Q
  /\ Round3.pb_croissant_history
       (Round3.set_trader_data Round3.init
          (restore (Round3.trader_data Round3.init)
             (BlobValue blob_after_first))) = []
  /\ Round3.vr_price (fst (Round3.run sqrt_milli Round3.init tick_first))
     = (20000 # 2)%Q
  /\ Round3.vr_price
       (Round3.set_trader_data Round3.init
          (restore (Round3.trader_data Round3.init)
             (BlobValue blob_after_first))) = 10500%Q
  /\ match snd (Round3.run sqrt_milli
                  (fst (Round3.run sqrt_milli Round3.init tick_first))
                  tick_second) with
     | Ok (result, _, _) => result = []
     | Raise _ => False
     end
  /\ match snd (Round3.run sqrt_milli Round3.init tick_second) with
     | Ok (result, _, _) =>
         result = [("VOLCANIC_ROCK_VOUCHER_10250",
                    [mkOrder "VOLCANIC_ROCK_VOUCHER_10250" 237 (-10)])]
     | Raise _ => False
     end.
Proof.
  repeat split; vm_compute; reflexivity.
Qed.

(** ** C10: the stale underlying price *)

Lemma vr_update_no_underlying tr state :
  no_underlying state -> Round3.vr_update_market_data tr state = tr.
Proof.
  unfold no_underlying, component_unavailable, Round3.vr_update_market_data.
  destruct (get String.eqb (order_depths state) "VOLCANIC_ROCK") as [d|];
    [|reflexivity].
  intros [H|H]; rewrite H; cbn [truthy andb]; [reflexivity|].
  rewrite andb_false_r. reflexivity.
Qed.

Lemma pb_process_product_vr_price sqrt_float tr product state :
  Round3.vr_price (fst (Round3.pb_process_product sqrt_float tr product state))
  = Round3.vr_price tr.
Proof.
  unfold Round3.pb_process_product.
  destruct (get String.eqb (order_depths state) product) as [od|];
    [|reflexivity].
  destruct (get String.eqb Round3.pb_position_limits product) as [L|];
    [|reflexivity].
  destruct (one_sided od); [reflexivity|].
  destruct (String.eqb product "RAINFOREST_RESIN" || String.eqb product "KELP").
  { destruct (mean_reversion _ _ _ _ _) as [td' r]. reflexivity. }
  destruct (String.eqb product "CROISSANTS"); reflexivity.
Qed.

Lemma pb_loop_vr_price sqrt_float state products tr result :
  Round3.vr_price (fst (Round3.pb_loop sqrt_float tr state products result))
  = Round3.vr_price tr.
Proof.
  revert tr result. induction products as [|product rest IH];
    intros tr result; cbn [Round3.pb_loop]; [reflexivity|].
  destruct (mem String.eqb Round3.pb_position_limits product); [|apply IH].
  pose proof (pb_process_product_vr_price sqrt_float tr product state) as Hp.
  destruct (Round3.pb_process_product sqrt_float tr product state)
    as [tr1 [orders|e]]; cbn [fst] in *.
  - rewrite IH. exact Hp.
  - exact Hp.
Qed.

Lemma round3_run_vr_price sqrt_float tr state :
  no_underlying state ->
  Round3.vr_price (fst (Round3.run sqrt_float tr state)) = Round3.vr_price tr.
Proof.
  intros Hno. unfold Round3.run.
  rewrite (vr_update_no_underlying _ state Hno).
  destruct (Round3.voucher_loop _ _ _ _) as [result1|e]; [|reflexivity].
  pose proof (pb_loop_vr_price sqrt_float state (keys (order_depths state))
                (Round3.set_trader_data tr
                   (restore (Round3.trader_data tr) (traderData state)))
                result1) as Hp.
  destruct (Round3.pb_loop _ _ _ _ _) as [tr3 [result|e]]; cbn [fst] in *;
    exact Hp.
Qed.

Lemma voucher_reads_price tr1 tr2 product state :
  Round3.vr_price tr1 = Round3.vr_price tr2 ->
  Round3.vr_short_itm_voucher tr1 product state
  = Round3.vr_short_itm_voucher tr2 product state.
Proof.
  intros H. unfold Round3.vr_short_itm_voucher. rewrite H. reflexivity.
Qed.

Lemma voucher_loop_keeps tr state products result result' product orders :
  Round3.voucher_loop tr state products result = Ok result' ->
  get String.eqb result product = Some orders ->
  Round3.vr_short_itm_voucher tr product state = Ok orders ->
  get String.eqb result' product = Some orders.
Proof.
  intros Hloop Hget Hv. revert result Hloop Hget.
  induction products as [|product' rest IH]; intros result Hloop Hget;
    cbn [Round3.voucher_loop] in Hloop.
  - apply Ok_inj in Hloop. subst. exact Hget.
  - destruct (startswith product' "VOLCANIC_ROCK_VOUCHER");
      [|apply (IH result Hloop Hget)].
    destruct (Round3.vr_short_itm_voucher tr product' state) as [orders'|]
      eqn:Ev; cbn [Py.bind] in Hloop; [|discriminate].
    apply (IH _ Hloop).
    destruct (truthy orders'); [|exact Hget].
    destruct (string_dec product' product) as [->|Hne].
    + rewrite (get_set_same String.eqb string_eqb_iff). congruence.
    + rewrite (get_set_other String.eqb string_eqb_iff) by exact Hne.
      exact Hget.
Qed.

Lemma voucher_loop_get tr state products result result' product orders :
  Round3.voucher_loop tr state products result = Ok result' ->
  In product products ->
  startswith product "VOLCANIC_ROCK_VOUCHER" = true ->
  Round3.vr_short_itm_voucher tr product state = Ok orders ->
  truthy orders = true ->
  get String.eqb result' product = Some orders.
Proof.
  intros Hloop Hin Hstart Hv Htruthy. revert result Hloop Hin.
  induction products as [|product' rest IH]; intros result Hloop Hin;
    [destruct Hin|].
  cbn [Round3.voucher_loop] in Hloop.
  destruct (string_dec product' product) as [->|Hne].
  - rewrite Hstart, Hv in Hloop. cbn [Py.bind] in Hloop.
    rewrite Htruthy in Hloop.
    eapply voucher_loop_keeps; [exact Hloop| |exact Hv].
    apply (get_set_same String.eqb string_eqb_iff).
  - destruct Hin as [Heq|Hin]; [contradiction|].
    destruct (startswith product' "VOLCANIC_ROCK_VOUCHER");
      [|apply (IH result Hloop Hin)].
    destruct (Round3.vr_short_itm_voucher tr product' state) as [orders'|];
      cbn [Py.bind] in Hloop; [|discriminate].
    apply (IH _ Hloop Hin).
Qed.

Lemma voucher_loop_returns tr state products result :
  (forall product, In product products ->
                   startswith product "VOLCANIC_ROCK_VOUCHER" = true ->
                   exists K, strike_of product = Ok K) ->
  exists result', Round3.voucher_loop tr state products result = Ok result'.
Proof.
  revert result. induction products as [|product rest IH];
    intros result Hparse; cbn [Round3.voucher_loop].
  - eauto.
  - assert (Hrest : forall p, In p rest ->
                              startswith p "VOLCANIC_ROCK_VOUCHER" = true ->
                              exists K, strike_of p = Ok K).
    { intros p Hp. apply Hparse. right. exact Hp. }
    destruct (startswith product "VOLCANIC_ROCK_VOUCHER") eqn:Ev;
      [|apply IH; exact Hrest].
    destruct (Hparse product (or_introl eq_refl) Ev) as [K HK].
    assert (Hv : exists orders,
               Round3.vr_short_itm_voucher tr product state = Ok orders).
    { unfold Round3.vr_short_itm_voucher. unfold strike_of in HK.
      rewrite HK. cbn [Py.bind].
      destruct (Qle_bool _ _); [eauto|].
      destruct (_ <=? 0); eauto. }
    destruct Hv as [orders Hv]. rewrite Hv. cbn [Py.bind].
    apply IH. exact Hrest.
Qed.

Lemma pb_loop_keeps_voucher sqrt_float state products tr result product :
  startswith product "VOLCANIC_ROCK_VOUCHER" = true ->
  forall tr' result',
    Round3.pb_loop sqrt_float tr state products result = (tr', Ok result') ->
    get String.eqb result' product = get String.eqb result product.
Proof.
  intros Hstart. revert tr result.
  induction products as [|product' rest IH]; intros tr result tr' result' H;
    cbn [Round3.pb_loop] in H.
  - injection H as _ H. subst. reflexivity.
  - unfold mem in H.
    destruct (get String.eqb Round3.pb_position_limits product') as [L|]
      eqn:EL; [|apply (IH _ _ _ _ H)].
    destruct (Round3.pb_process_product sqrt_float tr product' state)
      as [tr1 [orders|e]]; [|discriminate].
    rewrite (IH _ _ _ _ H). destruct (truthy orders); [|reflexivity].
    apply (get_set_other String.eqb string_eqb_iff).
    intros ->. rewrite (pb_product_not_voucher product L EL) in Hstart.
    discriminate.
Qed.

Lemma voucher_in_the_money tr product state K :
  strike_of product = Ok K ->
  (inject_Z K < Round3.vr_price tr)%Q ->
  0 < Round3.vr_max_short + position_of state product ->
  Round3.vr_short_itm_voucher tr product state
  = Ok [mkOrder product
          (Qfloor ((Round3.vr_price tr - inject_Z K) * (95 # 100)))
          (- Z.min 10 (Round3.vr_max_short + position_of state product))].
Proof.
  intros HK HU Hc. unfold Round3.vr_short_itm_voucher.
  unfold strike_of in HK. rewrite HK. cbn [Py.bind].
  destruct (Qle_bool (Round3.vr_price tr) (inject_Z K)) eqn:E.
  { apply Qle_bool_iff in E. exfalso. exact (Qlt_not_le _ _ HU E). }
  destruct (Round3.vr_max_short + position_of state product <=? 0) eqn:Ec;
    [apply Z.leb_le in Ec; lia|].
  rewrite int_of_float_floor; [reflexivity|].
  apply Qmult_le_0_compat; [|discriminate].
  apply Qlt_le_weak. unfold Qminus. rewrite <- Qlt_minus_iff. exact HU.
Qed.

(** C10.  On a tick where the book of VOLCANIC_ROCK is absent or has an
    empty bid or ask side, the stored underlying price is left unchanged
    (10500 on a fresh trader) and the short orders of the vouchers are still
    generated from it.  In particular, on a first tick (fresh trader, empty
    blob, no position) without a quote of the underlying, the tick returns
    and every voucher of the snapshot whose strike is strictly below 10500
    receives a short order. *)
Theorem C10_stale_underlying :
  forall (sqrt_float : Q -> Q) (tr : Round3.Trader) (state : TradingState),
    no_underlying state ->
    Round3.vr_price (fst (Round3.run sqrt_float tr state)) = Round3.vr_price tr
    /\ (forall tr' result c v product orders,
           Round3.run sqrt_float tr state = (tr', Ok (result, c, v)) ->
           In product (keys (order_depths state)) ->
           startswith product "VOLCANIC_ROCK_VOUCHER" = true ->
           Round3.vr_short_itm_voucher tr product state = Ok orders ->
           orders <> [] ->
           get String.eqb result product = Some orders)
    /\ (tr = Round3.init ->
        traderData state = BlobEmpty ->
        position state = [] ->
        (forall product,
            In product (keys (order_depths state)) ->
            startswith product "VOLCANIC_ROCK_VOUCHER" = true ->
            exists K, strike_of product = Ok K) ->
        exists tr' result v,
          Round3.run sqrt_float tr state = (tr', Ok (result, 0, v))
          /\ Round3.vr_price tr' = 10500%Q
          /\ forall product K,
               In product (keys (order_depths state)) ->
               startswith product "VOLCANIC_ROCK_VOUCHER" = true ->
               strike_of product = Ok K ->
               K < 10500 ->
               get String.eqb result product
               = Some [mkOrder product
                         (Qfloor ((10500 - inject_Z K) * (95 # 100)))
                         (-10)]).
Proof.
  intros sqrt_float tr state Hno.
  assert (Hgen : forall tr' result c v product orders,
             Round3.run sqrt_float tr state = (tr', Ok (result, c, v)) ->
             In product (keys (order_depths state)) ->
             startswith product "VOLCANIC_ROCK_VOUCHER" = true ->
             Round3.vr_short_itm_voucher tr product state = Ok orders ->
             orders <> [] ->
             get String.eqb result product = Some orders).
  { intros tr' result c v product orders Hrun Hin Hstart Hv Hne.
    unfold Round3.run in Hrun.
    rewrite (vr_update_no_underlying _ state Hno) in Hrun.
    destruct (Round3.voucher_loop _ _ _ _) as [result1|] eqn:E1;
      [|discriminate].
    destruct (Round3.pb_loop _ _ _ _ _) as [tr3 [result3|e]] eqn:E3;
      [|discriminate].
    injection Hrun as _ Hr _ _. subst result3.
    rewrite (pb_loop_keeps_voucher sqrt_float state _ _ _ product Hstart
               _ _ E3).
    eapply voucher_loop_get; [exact E1|exact Hin|exact Hstart| |].
    - rewrite <- Hv. apply voucher_reads_price. reflexivity.
    - destruct orders; [congruence|reflexivity]. }
  split; [apply round3_run_vr_price; exact Hno|]. split; [exact Hgen|].
  intros -> Hblob Hpos Hparse.
  assert (Hrun : exists tr' result v,
             Round3.run sqrt_float Round3.init state
             = (tr', Ok (result, 0, v))).
  { unfold Round3.run. rewrite Hblob.
    rewrite (vr_update_no_underlying _ state Hno).
    cbn [restore].
    destruct (voucher_loop_returns
                (Round3.set_trader_data Round3.init
                   (Round3.trader_data Round3.init))
                state (keys (order_depths state)) [] Hparse)
      as [result1 H1].
    rewrite H1.
    destruct (pb_loop_plain sqrt_float state (keys (order_depths state))
                (Round3.set_trader_data Round3.init
                   (Round3.trader_data Round3.init))
                result1 0 [] eq_refl (NoDup_nil _) (incl_refl _))
      as (tr3 & result3 & es3 & Hl & _).
    rewrite Hl. eexists. eexists. eexists. reflexivity. }
  destruct Hrun as (tr' & result & v & Hrun).
  exists tr', result, v. split; [exact Hrun|]. split.
  - pose proof (round3_run_vr_price sqrt_float Round3.init state Hno) as Hp.
    rewrite Hrun in Hp. exact Hp.
  - intros product K Hin Hstart HK HltK.
    assert (Hp0 : position_of state product = 0).
    { unfold position_of. rewrite Hpos. reflexivity. }
    eapply (Hgen tr' result 0 v product); [exact Hrun|exact Hin|exact Hstart| |].
    + rewrite (voucher_in_the_money Round3.init product state K HK).
      * rewrite Hp0. reflexivity.
      * change (inject_Z K < inject_Z 10500)%Q. rewrite <- Zlt_Qlt.
        exact HltK.
      * rewrite Hp0. reflexivity.
    + discriminate.
Qed.

Lemma C10_witness :
  exists tr' result v,
    Round3.run sqrt_milli Round3.init tick_first_no_underlying
    = (tr', Ok (result, 0, v))
    /\ Round3.vr_price tr' = 10500%Q
    /\ get String.eqb result "VOLCANIC_ROCK_VOUCHER_10250"
       = Some [mkOrder "VOLCANIC_ROCK_VOUCHER_10250"
                 (Qfloor ((10500 - inject_Z 10250) * (95 # 100))) (-10)]
    /\ get String.eqb result "VOLCANIC_ROCK_VOUCHER_9500"
       = Some [mkOrder "VOLCANIC_ROCK_VOUCHER_9500"
                 (Qfloor ((10500 - inject_Z 9500) * (95 # 100))) (-10)].
Proof.
  assert (Hno : no_underlying tick_first_no_underlying) by exact I.
  assert (Hparse : forall product,
             In product (keys (order_depths tick_first_no_underlying)) ->
             startswith product "VOLCANIC_ROCK_VOUCHER" = true ->
             exists K, strike_of product = Ok K).
  { intros product [<-|[<-|[<-|[<-|[]]]]] Hs.
    - exists 10250. reflexivity.
    - exists 10500. reflexivity.
    - exists 9500. reflexivity.
    - discriminate Hs. }
  destruct (proj2 (proj2 (C10_stale_underlying sqrt_milli Round3.init
                            tick_first_no_underlying Hno))
              eq_refl eq_refl eq_refl Hparse)
    as (tr' & result & v & Hrun & Hprice & Horders).
  exists tr', result, v. split; [exact Hrun|]. split; [exact Hprice|]. split.
  - apply (Horders "VOLCANIC_ROCK_VOUCHER_10250" 10250).
    + left. reflexivity.
    + reflexivity.
    + reflexivity.
    + lia.
  - apply (Horders "VOLCANIC_ROCK_VOUCHER_9500" 9500).
    + right. right. left. reflexivity.
    + reflexivity.
    + reflexivity.
    + lia.
Defined.

(** On that tick the vouchers of strikes 10250 and 9500 are shorted at 237
    and 950; the voucher struck at 10500 and KELP receive nothing. *)
Example first_tick_without_underlying :
  snd (Round3.run sqrt_milli Round3.init tick_first_no_underlying)
  = Ok ([("VOLCANIC_ROCK_VOUCHER_10250",
          [mkOrder "VOLCANIC_ROCK_VOUCHER_10250" 237 (-10)]);
         ("VOLCANIC_ROCK_VOUCHER_9500",
          [mkOrder "VOLCANIC_ROCK_VOUCHER_9500" 950 (-10)])],
        0, VDict (plain_trader_data 100 [("KELP", [200 # 2])])).
Proof. vm_compute. reflexivity. Qed.

(** ** C4: missing market data, the statement *)

Lemma voucher_loop_absent tr state products result result' product :
  Round3.voucher_loop tr state products result = Ok result' ->
  get String.eqb result product = None ->
  Round3.vr_short_itm_voucher tr product state = Ok [] ->
  get String.eqb result' product = None.
Proof.
  intros Hloop Hget Hv. revert result Hloop Hget.
  induction products as [|product' rest IH]; intros result Hloop Hget;
    cbn [Round3.voucher_loop] in Hloop.
  - apply Ok_inj in Hloop. subst. exact Hget.
  - destruct (startswith product' "VOLCANIC_ROCK_VOUCHER");
      [|apply (IH result Hloop Hget)].
    destruct (Round3.vr_short_itm_voucher tr product' state) as [orders'|]
      eqn:Ev; cbn [Py.bind] in Hloop; [|discriminate].
    apply (IH _ Hloop).
    destruct (truthy orders') eqn:Et; [|exact Hget].
    destruct (string_dec product' product) as [->|Hne].
    + rewrite Hv in Ev. apply Ok_inj in Ev. subst orders'. discriminate.
    + rewrite (get_set_other String.eqb string_eqb_iff) by exact Hne.
      exact Hget.
Qed.

Lemma voucher_no_order tr product state K :
  strike_of product = Ok K ->
  (Round3.vr_price tr <= inject_Z K)%Q
  \/ Round3.vr_max_short + position_of state product <= 0 ->
  Round3.vr_short_itm_voucher tr product state = Ok [].
Proof.
  intros HK Hor. unfold Round3.vr_short_itm_voucher.
  unfold strike_of in HK. rewrite HK. cbn [Py.bind].
  destruct (Qle_bool (Round3.vr_price tr) (inject_Z K)) eqn:E;
    [reflexivity|].
  destruct (Round3.vr_max_short + position_of state product <=? 0) eqn:Ec;
    [reflexivity|].
  exfalso. destruct Hor as [Hle|Hc].
  - apply Qle_bool_iff in Hle. congruence.
  - apply Z.leb_gt in Ec. lia.
Qed.

(** The entry of a voucher in the output mapping of round 3, whatever the
    snapshot holds for it: the short order when the underlying price that
    the object holds after the tick is above the strike and short capacity
    is left, no entry otherwise. *)
Lemma round3_run_voucher sqrt_float tr state tr' result c td product K :
  Round3.run sqrt_float tr state = (tr', Ok (result, c, td)) ->
  In product (keys (order_depths state)) ->
  startswith product "VOLCANIC_ROCK_VOUCHER" = true ->
  strike_of product = Ok K ->
  ((inject_Z K < Round3.vr_price tr')%Q ->
   0 < Round3.vr_max_short + position_of state product ->
   get String.eqb result product
   = Some [mkOrder product
             (Qfloor ((Round3.vr_price tr' - inject_Z K) * (95 # 100)))
             (- Z.min 10 (Round3.vr_max_short + position_of state product))])
  /\ ((Round3.vr_price tr' <= inject_Z K)%Q
      \/ Round3.vr_max_short + position_of state product <= 0 ->
      get String.eqb result product = None).
Proof.
  intros Hrun Hin Hstart HK. unfold Round3.run in Hrun.
  set (tr2 := Round3.vr_update_market_data
                (Round3.set_trader_data tr
                   (restore (Round3.trader_data tr) (traderData state)))
                state) in *.
  destruct (Round3.voucher_loop tr2 state (keys (order_depths state)) [])
    as [result1|] eqn:E1; [|discriminate].
  pose proof (pb_loop_vr_price sqrt_float state (keys (order_depths state))
                tr2 result1) as Hp.
  destruct (Round3.pb_loop sqrt_float tr2 state (keys (order_depths state))
              result1) as [tr3 [result3|e]] eqn:E3; [|discriminate].
  cbn [fst] in Hp.
  injection Hrun as Htr Hr _ _. subst result3.
  assert (Hprice : Round3.vr_price tr' = Round3.vr_price tr2).
  { rewrite <- Htr. cbn [Round3.set_trader_data Round3.vr_price]. exact Hp. }
  rewrite Hprice.
  rewrite (pb_loop_keeps_voucher sqrt_float state _ _ _ product Hstart
             _ _ E3).
  split.
  - intros HU Hc.
    eapply voucher_loop_get; [exact E1|exact Hin|exact Hstart| |reflexivity].
    apply (voucher_in_the_money tr2 product state K HK HU Hc).
  - intros Hor.
    eapply voucher_loop_absent; [exact E1|reflexivity|].
    apply (voucher_no_order tr2 product state K HK Hor).
Qed.

(** C4, as the code has it.  For every tick and every product whose book
    has an empty bid side or an empty ask side.  A product with a position
    limit of round 2 is processed by round 2 without an exception and
    without a change of the object, and is listed in the output mapping
    with an empty order list.  A product with a position limit of the
    basket strategy of round 3 is processed by round 3 without an exception
    and without a change of the object, and is left out of the output
    mapping.  A voucher of round 3, whose limit is the short limit, is not
    gated by its book: whatever the book holds, the voucher is shorted when
    the underlying price is above its strike and short capacity is left, and
    is left out of the output mapping otherwise.  Round 1 prices such a
    product at its stored history or, without one, at its static fallback,
    and walks the side that is there (SQUID_INK apart, which never
    trades). *)
Theorem C4_missing_market_data :
  forall (sqrt_float : Q -> Q) (state : TradingState) (product : string)
         (order_depth : OrderDepth) (L : Z),
    get String.eqb (order_depths state) product = Some order_depth ->
    buy_orders order_depth = [] \/ sell_orders order_depth = [] ->
    (get String.eqb Round2.POSITION_LIMITS product = Some L ->
     (forall tr result,
         Round2.process_product sqrt_float state (tr, result) product
         = (tr, Ok (set String.eqb result product [])))
     /\ (forall tr tr' result c td,
            Round2.run sqrt_float tr state = (tr', Ok (result, c, td)) ->
            get String.eqb result product = Some []))
    /\ (get String.eqb Round3.pb_position_limits product = Some L ->
        (forall tr,
            Round3.pb_process_product sqrt_float tr product state
            = (tr, Ok []))
        /\ (forall tr tr' result c td,
               Round3.run sqrt_float tr state = (tr', Ok (result, c, td)) ->
               get String.eqb result product = None))
    /\ (get String.eqb Round1.position_limits product = Some L ->
        forall ph result,
          get key_eqb ph (VStr product) = None ->
          exists F,
            (F == inject_Z (if String.eqb product "RAINFOREST_RESIN"
                            then 10000 else 1000))%Q
            /\ Round1.process_product state (VDict ph, result) product
               = Ok (VDict ph,
                     set String.eqb result product
                       (if String.eqb product "SQUID_INK" then []
                        else book_walk product F L
                               (position_of state product) order_depth)))
    /\ (limit_of_round3 product = Some L ->
        startswith product "VOLCANIC_ROCK_VOUCHER" = true ->
        L = Round3.vr_max_short
        /\ forall tr tr' result c td K,
            Round3.run sqrt_float tr state = (tr', Ok (result, c, td)) ->
            strike_of product = Ok K ->
            ((inject_Z K < Round3.vr_price tr')%Q ->
             0 < L + position_of state product ->
             get String.eqb result product
             = Some [mkOrder product
                       (Qfloor ((Round3.vr_price tr' - inject_Z K)
                                * (95 # 100)))
                       (- Z.min 10 (L + position_of state product))])
            /\ ((Round3.vr_price tr' <= inject_Z K)%Q
                \/ L + position_of state product <= 0 ->
                get String.eqb result product = None)).
Proof.
  intros sqrt_float state product od L Hod Hside.
  pose proof (get_keys_In _ _ _ Hod) as Hin.
  apply one_sided_iff in Hside.
  split; [|split; [|split]].
  - intros HL. split.
    + intros tr result. eapply round2_process_one_sided; eauto.
    + intros tr tr' result c td Hrun. unfold Round2.run in Hrun.
      destruct (Round2.product_loop _ _ _ _) as [tr2 [result2|e]] eqn:E;
        [|discriminate].
      injection Hrun as _ Hr _ _. subst result2.
      eapply round2_loop_keeps_empty; [exact Hod|exact Hside| |exact E|].
      * rewrite HL. discriminate.
      * right. exact Hin.
  - intros HL. split.
    + intros tr. eapply round3_process_one_sided; eauto.
    + intros tr tr' result c td Hrun. unfold Round3.run in Hrun.
      destruct (Round3.voucher_loop _ _ _ _) as [result1|] eqn:E1;
        [|discriminate].
      destruct (Round3.pb_loop _ _ _ _ _) as [tr3 [result3|e]] eqn:E3;
        [|discriminate].
      injection Hrun as _ Hr _ _. subst result3.
      rewrite (round3_pb_loop_absent sqrt_float state product od L _ _ _ _ _
                 Hod Hside HL E3).
      rewrite (round3_voucher_loop_other _ state product L _ _ _ HL E1).
      reflexivity.
  - intros HL ph result Hph.
    destruct (average_singleton
                (if String.eqb product "RAINFOREST_RESIN" then 10000
                 else 1000)) as (F & HF & HFeq).
    exists F. split; [exact HFeq|].
    unfold Round1.process_product, Round1.fair_price_of.
    rewrite Hod, HL, Hside, Hph, HF. cbn [Py.bind].
    destruct (String.eqb product "SQUID_INK"); reflexivity.
  - intros HL Hstart.
    assert (HLeq : L = Round3.vr_max_short).
    { unfold limit_of_round3 in HL. rewrite Hstart in HL.
      apply Some_inj in HL. symmetry. exact HL. }
    split; [exact HLeq|]. subst L.
    intros tr tr' result c td K Hrun HK.
    apply (round3_run_voucher sqrt_float tr state tr' result c td product K
             Hrun Hin Hstart HK).
Qed.

(** The claim fails in round 1, where KELP with asks only is bought at its
    fallback price; in round 3, where KELP with asks only is left out of
    the output mapping; and for the vouchers of round 3, where the voucher
    of strike 10250 with an empty book is shorted at 237 for 10 units. *)
Lemma C4_counterexample :
  Round1.run tick_kelp_no_bid
  = Ok ([("KELP", [mkOrder "KELP" 900 5])], 0, VDict [])
  /\ match snd (Round3.run sqrt_milli Round3.init tick_kelp_no_bid) with
     | Ok (result, _, _) => result = []
     | Raise _ => False
     end
  /\ get String.eqb (order_depths tick_mixed) "VOLCANIC_ROCK_VOUCHER_10250"
     = Some (mkOrderDepth [] [])
  /\ match snd (Round3.run sqrt_milli Round3.init tick_mixed) with
     | Ok (result, _, _) =>
         get String.eqb result "VOLCANIC_ROCK_VOUCHER_10250"
         = Some [mkOrder "VOLCANIC_ROCK_VOUCHER_10250" 237 (-10)]
     | Raise _ => False
     end.
Proof.
  split; [reflexivity|]. split; [reflexivity|]. split; [reflexivity|].
  vm_compute. reflexivity.
Qed.

Lemma C4_witness :
  Round2.process_product sqrt_milli tick_kelp_no_bid (Round2.init, []) "KELP"
  = (Round2.init, Ok [("KELP", [])])
  /\ match snd (Round2.run sqrt_milli Round2.init tick_kelp_no_bid) with
     | Ok (result, _, _) => get String.eqb result "KELP" = Some []
     | Raise _ => False
     end
  /\ Round3.pb_process_product sqrt_milli Round3.init "KELP" tick_kelp_no_bid
     = (Round3.init, Ok [])
  /\ match snd (Round3.run sqrt_milli Round3.init tick_kelp_no_bid) with
     | Ok (result, _, _) => get String.eqb result "KELP" = None
     | Raise _ => False
     end
  /\ (exists F,
         (F == inject_Z 1000)%Q
         /\ Round1.process_product tick_kelp_no_bid (VDict [], []) "KELP"
            = Ok (VDict [],
                  [("KELP",
                    book_walk "KELP" F 50 0 (mkOrderDepth [] [(900, -5)]))]))
  /\ match snd (Round3.run sqrt_milli Round3.init tick_mixed) with
     | Ok (result, _, _) =>
         get String.eqb result "VOLCANIC_ROCK_VOUCHER_10250"
         = Some [mkOrder "VOLCANIC_ROCK_VOUCHER_10250"
                   (Qfloor ((10500 - inject_Z 10250) * (95 # 100)))
                   (- Z.min 10 (200 + 0))]
     | Raise _ => False
     end.
Proof.
  pose proof (C4_missing_market_data sqrt_milli tick_kelp_no_bid "KELP"
                (mkOrderDepth [] [(900, -5)]) 50 eq_refl
                (or_introl eq_refl)) as (H2 & H3 & H1 & _).
  pose proof (C4_missing_market_data sqrt_milli tick_mixed
                "VOLCANIC_ROCK_VOUCHER_10250" (mkOrderDepth [] []) 200
                eq_refl (or_introl eq_refl)) as (_ & _ & _ & HV).
  specialize (H2 eq_refl). specialize (H3 eq_refl).
  specialize (H1 eq_refl [] [] eq_refl).
  destruct (HV eq_refl eq_refl) as [_ HVr].
  destruct H2 as [H2p H2r]. destruct H3 as [H3p H3r].
  split; [apply H2p|]. split.
  { destruct (Round2.run sqrt_milli Round2.init tick_kelp_no_bid)
      as [tr' [[[result c] td]|e]] eqn:E; cbn [snd].
    - eapply H2r. exact E.
    - vm_compute in E. discriminate. }
  split; [apply H3p|]. split.
  { destruct (Round3.run sqrt_milli Round3.init tick_kelp_no_bid)
      as [tr' [[[result c] td]|e]] eqn:E; cbn [snd].
    - eapply H3r. exact E.
    - vm_compute in E. discriminate. }
  split; [exact H1|].
  destruct (Round3.run sqrt_milli Round3.init tick_mixed)
    as [tr' [[[result c] td]|e]] eqn:E; cbn [snd].
  - assert (Hprice : Round3.vr_price tr' = 10500%Q).
    { pose proof (f_equal (fun r => Round3.vr_price (fst r)) E) as Hp.
      cbn [fst] in Hp. rewrite <- Hp. vm_compute. reflexivity. }
    destruct (HVr Round3.init tr' result c td 10250 E eq_refl) as [Hyes _].
    rewrite Hprice in Hyes. apply Hyes.
    + vm_compute. reflexivity.
    + vm_compute. reflexivity.
  - vm_compute in E. discriminate.
Defined.

(* ================================================================= *)
(** * Further properties of the code *)

(** ** The order generator *)

Lemma book_walk_spec product F L p order_depth :
  Forall (fun pv => snd pv < 0) (sell_orders order_depth) ->
  book_walk_from product F L order_depth ([], p)
  = (fst (spec_buys product F L p
            (levels_at (sell_orders order_depth)
               (sorted (keys (sell_orders order_depth)))))
     ++ fst (spec_sells product F L
               (snd (spec_buys product F L p
                       (levels_at (sell_orders order_depth)
                          (sorted (keys (sell_orders order_depth))))))
               (levels_at (buy_orders order_depth)
                  (sorted_reverse (keys (buy_orders order_depth))))),
     snd (spec_sells product F L
            (snd (spec_buys product F L p
                    (levels_at (sell_orders order_depth)
                       (sorted (keys (sell_orders order_depth))))))
            (levels_at (buy_orders order_depth)
               (sorted_reverse (keys (buy_orders order_depth)))))).
Proof.
  intros Ha. unfold book_walk_from.
  rewrite (buy_loop_spec product F L (sell_orders order_depth) _ [] p Ha).
  rewrite sell_loop_spec. cbn [app]. reflexivity.
Qed.

Lemma offered_below_nonneg F levels : 0 <= offered_below F levels.
Proof.
  induction levels as [|[a v] levels IH]; cbn [offered_below fold_right fst snd];
    [lia|].
  fold (offered_below F levels). destruct (Qltb (inject_Z a) F); lia.
Qed.

Lemma offered_below_perm F l l' :
  Permutation l l' -> offered_below F l = offered_below F l'.
Proof.
  induction 1 as [|[a v] l l' _ IH|[a v] [b w] l|l l' l'' _ IH1 _ IH2];
    cbn [offered_below fold_right fst snd].
  - reflexivity.
  - fold (offered_below F l) (offered_below F l'). rewrite IH. reflexivity.
  - destruct (Qltb (inject_Z a) F), (Qltb (inject_Z b) F); lia.
  - congruence.
Qed.

Lemma bid_above_nonneg F levels :
  Forall (fun pv => 0 < snd pv) levels -> 0 <= bid_above F levels.
Proof.
  induction 1 as [|[b v] levels Hv _ IH]; cbn [bid_above fold_right fst snd];
    [lia|].
  fold (bid_above F levels). cbn [snd] in Hv.
  destruct (Qltb F (inject_Z b)); lia.
Qed.

Lemma bid_above_perm F l l' :
  Permutation l l' -> bid_above F l = bid_above F l'.
Proof.
  induction 1 as [|[a v] l l' _ IH|[a v] [b w] l|l l' l'' _ IH1 _ IH2];
    cbn [bid_above fold_right fst snd].
  - reflexivity.
  - fold (bid_above F l) (bid_above F l'). rewrite IH. reflexivity.
  - destruct (Qltb F (inject_Z a)), (Qltb F (inject_Z b)); lia.
  - congruence.
Qed.

Lemma spec_buys_position product F L p levels :
  p <= L ->
  snd (spec_buys product F L p levels) = Z.min L (p + offered_below F levels).
Proof.
  revert p. induction levels as [|[a v] levels IH]; intros p Hp;
    cbn [spec_buys offered_below fold_right fst snd].
  - lia.
  - fold (offered_below F levels).
    pose proof (offered_below_nonneg F levels) as Hn.
    destruct (Qltb (inject_Z a) F); cbn [andb].
    + destruct (p <? L) eqn:E.
      * apply Z.ltb_lt in E.
        specialize (IH (p + Z.min (Z.abs v) (L - p)) ltac:(lia)).
        destruct (spec_buys product F L _ levels) as [os p'].
        cbn [snd] in *. lia.
      * apply Z.ltb_ge in E. rewrite (IH p Hp). lia.
    + apply IH. exact Hp.
Qed.

Lemma spec_sells_position product F L p levels :
  Forall (fun pv => 0 < snd pv) levels ->
  - L <= p ->
  snd (spec_sells product F L p levels)
  = Z.max (- L) (p - bid_above F levels).
Proof.
  intros Hpos. revert p.
  induction Hpos as [|[b v] levels Hv Hpos IH]; intros p Hp;
    cbn [spec_sells bid_above fold_right fst snd].
  - lia.
  - fold (bid_above F levels). cbn [snd] in Hv.
    pose proof (bid_above_nonneg F levels Hpos) as Hn.
    destruct (Qltb F (inject_Z b)); cbn [andb].
    + destruct (- L <? p) eqn:E.
      * apply Z.ltb_lt in E.
        specialize (IH (p - Z.min v (p + L)) ltac:(lia)).
        destruct (spec_sells product F L _ levels) as [os p'].
        cbn [snd] in *. lia.
      * apply Z.ltb_ge in E. rewrite (IH p Hp). lia.
    + apply IH. exact Hp.
Qed.

Lemma book_walk_position product F L p order_depth :
  wf_depth order_depth -> - L <= p <= L ->
  position_after p (book_walk product F L p order_depth)
  = snd (book_walk_from product F L order_depth ([], p)).
Proof.
  intros (Hb & Ha & _ & _) Hp. unfold position_after, book_walk.
  assert (H : walk_inv L p (book_walk_from product F L order_depth ([], p))).
  { unfold book_walk_from.
    apply (fold_left_inv (walk_inv L p)).
    - intros st b. apply sell_level_inv. exact Hb.
    - apply (fold_left_inv (walk_inv L p)).
      + intros st a. apply buy_level_inv. exact Ha.
      + unfold walk_inv. cbn [fst snd within_limit fold_left]. auto. }
  destruct H as (_ & H & _). exact H.
Qed.

(** X1.  On a book of the data model and from a position within the limit,
    the walk buys all that is offered below the fair price, up to the limit,
    and then sells into all that is bid above it, down to the opposite
    limit: the position after the orders is
    [max(-L, min(L, p + offered) - bid)]. *)
Theorem X1_book_walk_fills_to_limit :
  forall (product : string) (F : Q) (L p : Z) (order_depth : OrderDepth),
    wf_depth order_depth ->
    - L <= p <= L ->
    position_after p (book_walk product F L p order_depth)
    = Z.max (- L)
        (Z.min L (p + offered_below F (sell_orders order_depth))
         - bid_above F (buy_orders order_depth)).
Proof.
  intros product F L p od Hwf Hp.
  rewrite (book_walk_position product F L p od Hwf Hp).
  destruct Hwf as (Hb & Ha & Hndb & Hnda).
  rewrite (book_walk_spec product F L p od Ha). cbn [snd].
  assert (Hpa : Permutation
                  (levels_at (sell_orders od) (sorted (keys (sell_orders od))))
                  (sell_orders od)).
  { apply levels_at_perm; auto. apply sorted_perm. }
  assert (Hpb : Permutation
                  (levels_at (buy_orders od)
                     (sorted_reverse (keys (buy_orders od))))
                  (buy_orders od)).
  { apply levels_at_perm; auto. unfold sorted_reverse.
    rewrite <- Permutation_rev. apply sorted_perm. }
  rewrite spec_buys_position by lia.
  rewrite spec_sells_position.
  - rewrite (offered_below_perm F _ _ Hpa), (bid_above_perm F _ _ Hpb).
    reflexivity.
  - eapply Permutation_Forall; [symmetry; exact Hpb|exact Hb].
  - pose proof (offered_below_nonneg F
                  (levels_at (sell_orders od)
                     (sorted (keys (sell_orders od))))). lia.
Qed.

Lemma crossed_book_wf : wf_depth crossed_book.
Proof.
  unfold wf_depth, crossed_book, keys. cbn [buy_orders sell_orders map fst].
  repeat split.
  - repeat constructor.
  - repeat constructor.
  - solve_nodup.
  - solve_nodup.
Defined.

Lemma X1_witness :
  position_after 0 (book_walk "KELP" 100 25 0 crossed_book)
  = Z.max (- 25)
      (Z.min 25 (0 + offered_below 100 (sell_orders crossed_book))
       - bid_above 100 (buy_orders crossed_book)).
Proof.
  apply (X1_book_walk_fills_to_limit "KELP" 100 25 0 crossed_book
           crossed_book_wf).
  lia.
Defined.

(** With a limit of 25 the walk buys 25 of the 30 offered at 97 and sells 20
    at 103; the position ends at 5. *)
Example book_walk_crossed :
  book_walk "KELP" 100 25 0 crossed_book
  = [mkOrder "KELP" 97 25; mkOrder "KELP" 103 (-20)]
  /\ position_after 0 (book_walk "KELP" 100 25 0 crossed_book) = 5.
Proof. split; reflexivity. Qed.

Lemma spec_buys_fills product F L p asks levels :
  (forall pv, In pv levels -> In pv asks /\ snd pv < 0) ->
  Forall (fun o =>
            symbol o = product /\ 0 < quantity o
            /\ (inject_Z (price o) < F)%Q
            /\ exists v, In (price o, v) asks /\ quantity o <= - v)
    (fst (spec_buys product F L p levels)).
Proof.
  revert p. induction levels as [|[a v] levels IH]; intros p Hin;
    cbn [spec_buys].
  - constructor.
  - assert (Hrest : forall pv, In pv levels -> In pv asks /\ snd pv < 0).
    { intros pv Hpv. apply Hin. right. exact Hpv. }
    destruct (Qltb (inject_Z a) F && (p <? L)) eqn:E; [|apply IH; exact Hrest].
    apply andb_true_iff in E. destruct E as [EF Ep]. apply Z.ltb_lt in Ep.
    specialize (IH (p + Z.min (Z.abs v) (L - p)) Hrest).
    destruct (spec_buys product F L _ levels) as [os p'].
    cbn [fst] in *. constructor; [|exact IH].
    destruct (Hin (a, v) (or_introl eq_refl)) as [Ha Hv]. cbn [snd] in Hv.
    cbn [symbol quantity price].
    split; [reflexivity|]. split; [lia|].
    split; [apply Qltb_lt; exact EF|].
    exists v. split; [exact Ha|lia].
Qed.

Lemma spec_sells_fills product F L p bids levels :
  (forall pv, In pv levels -> In pv bids /\ 0 < snd pv) ->
  Forall (fun o =>
            symbol o = product /\ quantity o < 0
            /\ (F < inject_Z (price o))%Q
            /\ exists v, In (price o, v) bids /\ - quantity o <= v)
    (fst (spec_sells product F L p levels)).
Proof.
  revert p. induction levels as [|[b v] levels IH]; intros p Hin;
    cbn [spec_sells].
  - constructor.
  - assert (Hrest : forall pv, In pv levels -> In pv bids /\ 0 < snd pv).
    { intros pv Hpv. apply Hin. right. exact Hpv. }
    destruct (Qltb F (inject_Z b) && (- L <? p)) eqn:E; [|apply IH; exact Hrest].
    apply andb_true_iff in E. destruct E as [EF Ep]. apply Z.ltb_lt in Ep.
    specialize (IH (p - Z.min v (p + L)) Hrest).
    destruct (spec_sells product F L _ levels) as [os p'].
    cbn [fst] in *. constructor; [|exact IH].
    destruct (Hin (b, v) (or_introl eq_refl)) as [Hb Hv]. cbn [snd] in Hv.
    cbn [symbol quantity price].
    split; [reflexivity|]. split; [lia|].
    split; [apply Qltb_lt; exact EF|].
    exists v. split; [exact Hb|lia].
Qed.

Lemma book_walk_fills product F L p order_depth :
  wf_depth order_depth ->
  Forall (fills_a_level product F order_depth)
    (book_walk product F L p order_depth).
Proof.
  intros (Hb & Ha & Hndb & Hnda).
  unfold book_walk. rewrite (book_walk_spec product F L p order_depth Ha).
  cbn [fst].
  assert (Hpa : Permutation
                  (levels_at (sell_orders order_depth)
                     (sorted (keys (sell_orders order_depth))))
                  (sell_orders order_depth)).
  { apply levels_at_perm; auto. apply sorted_perm. }
  assert (Hpb : Permutation
                  (levels_at (buy_orders order_depth)
                     (sorted_reverse (keys (buy_orders order_depth))))
                  (buy_orders order_depth)).
  { apply levels_at_perm; auto. unfold sorted_reverse.
    rewrite <- Permutation_rev. apply sorted_perm. }
  apply Forall_app. split.
  - eapply Forall_impl;
      [|apply (spec_buys_fills product F L p (sell_orders order_depth))].
    + intros o (Hs & Hq & HF & Hv). split; [exact Hs|]. left. auto.
    + intros pv Hpv. apply (Permutation_in _ Hpa) in Hpv. split; [exact Hpv|].
      rewrite Forall_forall in Ha. apply Ha. exact Hpv.
  - eapply Forall_impl;
      [|apply (spec_sells_fills product F L _ (buy_orders order_depth))].
    + intros o (Hs & Hq & HF & Hv). split; [exact Hs|]. right. auto.
    + intros pv Hpv. apply (Permutation_in _ Hpb) in Hpv. split; [exact Hpv|].
      rewrite Forall_forall in Hb. apply Hb. exact Hpv.
Qed.

(** X2.  On a book of the data model every order of the walk fills a level
    of the book: it is for the product, and it is either a buy (positive
    quantity) of at most the volume of an ask level priced strictly below
    the fair price, or a sell (negative quantity) of at most the volume of a
    bid level priced strictly above it.  No order has quantity zero. *)
Theorem X2_book_walk_orders_fill_levels :
  forall (product : string) (F : Q) (L p : Z) (order_depth : OrderDepth),
    wf_depth order_depth ->
    Forall (fills_a_level product F order_depth)
      (book_walk product F L p order_depth).
Proof.
  intros product F L p order_depth Hwf.
  apply book_walk_fills. exact Hwf.
Qed.

Lemma X2_witness :
  Forall (fills_a_level "KELP" 100 crossed_book)
    (book_walk "KELP" 100 25 0 crossed_book).
Proof.
  exact (X2_book_walk_orders_fill_levels "KELP" 100 25 0 crossed_book
           crossed_book_wf).
Defined.

Lemma fold_left_fixed {A S : Type} (f : S -> A -> S) (l : list A) (s : S) :
  (forall a, In a l -> f s a = s) -> fold_left f l s = s.
Proof.
  induction l as [|a l IH]; intros H; cbn [fold_left]; [reflexivity|].
  rewrite (H a (or_introl eq_refl)). apply IH.
  intros b Hb. apply H. right. exact Hb.
Qed.

Lemma In_keys_exists {K V : Type} (d : list (K * V)) k :
  In k (keys d) -> exists v, In (k, v) d.
Proof.
  unfold keys. rewrite in_map_iff. intros [[k' v] [Hk Hin]].
  cbn [fst] in Hk. subst k'. eauto.
Qed.

Lemma Qltb_false_le x y : (y <= x)%Q -> Qltb x y = false.
Proof.
  intros H. unfold Qltb. apply negb_false_iff. apply Qle_bool_iff. exact H.
Qed.

Lemma book_walk_no_cross product F L p order_depth :
  (forall a v, In (a, v) (sell_orders order_depth) -> (F <= inject_Z a)%Q) ->
  (forall b v, In (b, v) (buy_orders order_depth) -> (inject_Z b <= F)%Q) ->
  book_walk product F L p order_depth = [].
Proof.
  intros Hasks Hbids. unfold book_walk, book_walk_from.
  rewrite (fold_left_fixed _ (sorted (keys (sell_orders order_depth)))).
  - rewrite fold_left_fixed; [reflexivity|].
    intros b Hb. unfold sorted_reverse in Hb. rewrite <- in_rev in Hb.
    apply (Permutation_in _ (sorted_perm _)) in Hb.
    destruct (In_keys_exists _ _ Hb) as [v Hv].
    unfold sell_level. rewrite (Qltb_false_le _ _ (Hbids b v Hv)).
    reflexivity.
  - intros a Ha. apply (Permutation_in _ (sorted_perm _)) in Ha.
    destruct (In_keys_exists _ _ Ha) as [v Hv].
    unfold buy_level. rewrite (Qltb_false_le _ _ (Hasks a v Hv)).
    reflexivity.
Qed.

(** X3.  When no ask is priced strictly below the fair price and no bid
    strictly above it, the walk emits no order, whatever the position, the
    limit and the volumes. *)
Theorem X3_book_walk_quiet :
  forall (product : string) (F : Q) (L p : Z) (order_depth : OrderDepth),
    (forall a v, In (a, v) (sell_orders order_depth) ->
                 (F <= inject_Z a)%Q) ->
    (forall b v, In (b, v) (buy_orders order_depth) ->
                 (inject_Z b <= F)%Q) ->
    book_walk product F L p order_depth = [].
Proof.
  intros product F L p od Hasks Hbids.
  apply book_walk_no_cross; assumption.
Qed.

Lemma X3_witness : book_walk "KELP" 100 50 0 small_book = [].
Proof.
  apply X3_book_walk_quiet.
  - intros a v [H|[H|[]]]; injection H as <- _; discriminate.
  - intros b v [H|[H|[]]]; injection H as <- _; discriminate.
Defined.

(** ** The first sight of a product *)

Lemma fold_left_max_ge l x : x <= fold_left Z.max l x.
Proof.
  revert x. induction l as [|y l IH]; intros x; cbn [fold_left]; [lia|].
  specialize (IH (Z.max x y)). lia.
Qed.

Lemma fold_left_max_In l x y : In y l -> y <= fold_left Z.max l x.
Proof.
  revert x. induction l as [|z l IH]; intros x Hin; [destruct Hin|].
  destruct Hin as [H|H]; cbn [fold_left].
  - subst z. pose proof (fold_left_max_ge l (Z.max x y)). lia.
  - apply IH. exact H.
Qed.

Lemma fold_left_max_mem l x :
  fold_left Z.max l x = x \/ In (fold_left Z.max l x) l.
Proof.
  revert x. induction l as [|y l IH]; intros x; cbn [fold_left];
    [left; reflexivity|].
  destruct (IH (Z.max x y)) as [H|H].
  - rewrite H. destruct (Z.max_spec x y) as [[_ E]|[_ E]]; rewrite E.
    + right. left. reflexivity.
    + left. reflexivity.
  - right. right. exact H.
Qed.

Lemma fold_left_min_le l x : fold_left Z.min l x <= x.
Proof.
  revert x. induction l as [|y l IH]; intros x; cbn [fold_left]; [lia|].
  specialize (IH (Z.min x y)). lia.
Qed.

Lemma fold_left_min_In l x y : In y l -> fold_left Z.min l x <= y.
Proof.
  revert x. induction l as [|z l IH]; intros x Hin; [destruct Hin|].
  destruct Hin as [H|H]; cbn [fold_left].
  - subst z. pose proof (fold_left_min_le l (Z.min x y)). lia.
  - apply IH. exact H.
Qed.

Lemma fold_left_min_mem l x :
  fold_left Z.min l x = x \/ In (fold_left Z.min l x) l.
Proof.
  revert x. induction l as [|y l IH]; intros x; cbn [fold_left];
    [left; reflexivity|].
  destruct (IH (Z.min x y)) as [H|H].
  - rewrite H. destruct (Z.min_spec x y) as [[_ E]|[_ E]]; rewrite E.
    + left. reflexivity.
    + right. left. reflexivity.
  - right. right. exact H.
Qed.

Lemma max_list_ge l y : In y l -> y <= max_list l.
Proof.
  destruct l as [|x l]; intros Hin; [destruct Hin|].
  destruct Hin as [H|H]; cbn [max_list].
  - subst y. apply fold_left_max_ge.
  - apply fold_left_max_In. exact H.
Qed.

Lemma max_list_In l : l <> [] -> In (max_list l) l.
Proof.
  destruct l as [|x l]; intros H; [congruence|]. cbn [max_list].
  destruct (fold_left_max_mem l x) as [E|E]; [left; auto|right; exact E].
Qed.

Lemma min_list_le l y : In y l -> min_list l <= y.
Proof.
  destruct l as [|x l]; intros Hin; [destruct Hin|].
  destruct Hin as [H|H]; cbn [min_list].
  - subst y. apply fold_left_min_le.
  - apply fold_left_min_In. exact H.
Qed.

Lemma min_list_In l : l <> [] -> In (min_list l) l.
Proof.
  destruct l as [|x l]; intros H; [congruence|]. cbn [min_list].
  destruct (fold_left_min_mem l x) as [E|E]; [left; auto|right; exact E].
Qed.

Lemma In_keys {K V : Type} (d : list (K * V)) k v : In (k, v) d -> In k (keys d).
Proof. intros H. unfold keys. apply (in_map fst d (k, v) H). Qed.

Lemma uncrossed_two_sided order_depth :
  uncrossed order_depth -> one_sided order_depth = false.
Proof.
  intros (Hb & Ha & _). unfold one_sided.
  destruct (buy_orders order_depth); [congruence|].
  destruct (sell_orders order_depth); [congruence|]. reflexivity.
Qed.

(** At the mid price of a book that is not crossed, the walk finds nothing
    to take. *)
Lemma book_walk_at_mid product F L p order_depth :
  uncrossed order_depth ->
  (F == mid_price_of order_depth)%Q ->
  book_walk product F L p order_depth = [].
Proof.
  intros (Hb & Ha & Hle) HF. unfold mid_price_of in HF.
  rewrite inject_Z_plus in HF.
  rewrite Zle_Qle in Hle.
  apply book_walk_no_cross.
  - intros a v Hin. apply In_keys in Hin. apply min_list_le in Hin.
    fold (best_ask_of order_depth) in Hin. rewrite Zle_Qle in Hin.
    rewrite HF. revert Hle Hin.
    generalize (inject_Z (best_bid_of order_depth))
      (inject_Z (best_ask_of order_depth)) (inject_Z a).
    intros x y z H1 H2.
    setoid_replace ((x + y) / 2)%Q with ((x + y) * (1 # 2))%Q by field. lra.
  - intros b v Hin. apply In_keys in Hin. apply max_list_ge in Hin.
    fold (best_bid_of order_depth) in Hin. rewrite Zle_Qle in Hin.
    rewrite HF. revert Hle Hin.
    generalize (inject_Z (best_bid_of order_depth))
      (inject_Z (best_ask_of order_depth)) (inject_Z b).
    intros x y z H1 H2.
    setoid_replace ((x + y) / 2)%Q with ((x + y) * (1 # 2))%Q by field. lra.
Qed.

Lemma set_set_str (d : list (value * value)) s v v' :
  set key_eqb (set key_eqb d (VStr s) v) (VStr s) v'
  = set key_eqb d (VStr s) v'.
Proof.
  induction d as [|[k w] d IH]; cbn [set].
  - cbn [key_eqb]. rewrite String.eqb_refl. reflexivity.
  - destruct (key_eqb k (VStr s)) eqn:E; cbn [set]; rewrite E.
    + reflexivity.
    + rewrite IH. reflexivity.
Qed.

Lemma push_mid_fresh ph product mid_price :
  get key_eqb ph (VStr product) = None ->
  push_mid ph product mid_price
  = (set key_eqb ph (VStr product) (VList [VFloat mid_price]), Ok tt).
Proof.
  intros Hget. unfold push_mid, mem. rewrite Hget.
  rewrite get_set_str_same. cbn [app List.length Nat.ltb Nat.leb].
  rewrite set_set_str. reflexivity.
Qed.

Lemma average_one (x : Q) :
  exists F, average (VList [VFloat x]) = Ok F /\ (F == x)%Q.
Proof.
  eexists. split; [reflexivity|]. cbn. field.
Qed.

(** X4.  A product with a book that is not crossed and without a stored
    history is priced at the mid price of the book and gets no order: the
    moving-average strategy of rounds 2 and 3 and the loop body of round 1
    store the one-element history of the mid price and emit nothing. *)
Theorem X4_first_sight_no_order :
  forall (ph : list (value * value)) (product : string)
         (order_depth : OrderDepth),
    get key_eqb ph (VStr product) = None ->
    uncrossed order_depth ->
    let ph' :=
      set key_eqb ph (VStr product)
        (VList [VFloat (mid_price_of order_depth)]) in
    (forall td L p,
        get key_eqb td (VStr "price_history") = Some (VDict ph) ->
        mean_reversion td product order_depth L p
        = (set key_eqb td (VStr "price_history") (VDict ph'), Ok []))
    /\ (forall state result L,
           get String.eqb (order_depths state) product = Some order_depth ->
           get String.eqb Round1.position_limits product = Some L ->
           Round1.process_product state (VDict ph, result) product
           = Ok (VDict ph', set String.eqb result product [])).
Proof.
  intros ph product od Hget Hun ph'. subst ph'.
  destruct (average_one (mid_price_of od)) as (F & HF & HFeq).
  split.
  - intros td L p Htd. unfold mean_reversion. rewrite Htd.
    rewrite (push_mid_fresh ph product _ Hget).
    rewrite get_set_str_same.
    rewrite HF. cbn [Py.bind].
    rewrite (book_walk_at_mid product F L p od Hun HFeq). reflexivity.
  - intros state result L Hod HL. unfold Round1.process_product.
    rewrite Hod, HL. unfold Round1.fair_price_of.
    rewrite (uncrossed_two_sided od Hun).
    rewrite (push_mid_fresh ph product _ Hget).
    rewrite get_set_str_same.
    rewrite HF. cbn [Py.bind].
    rewrite (book_walk_at_mid product F L _ od Hun HFeq).
    destruct (String.eqb product "SQUID_INK"); reflexivity.
Qed.

Lemma small_book_uncrossed : uncrossed small_book.
Proof.
  split; [discriminate|]. split; [discriminate|].
  vm_compute. discriminate.
Defined.

Lemma X4_witness :
  mean_reversion (Round3.trader_data Round3.init) "KELP" small_book 50 0
  = (set key_eqb (Round3.trader_data Round3.init) (VStr "price_history")
       (VDict [(VStr "KELP", VList [VFloat (mid_price_of small_book)])]),
     Ok []).
Proof.
  apply (proj1 (X4_first_sight_no_order [] "KELP" small_book eq_refl
                  small_book_uncrossed)).
  reflexivity.
Defined.

(** ** The z-score strategy *)

Lemma threshold_orders_zero product order_depth L p :
  threshold_orders 0 product order_depth L p = [].
Proof. reflexivity. Qed.

(** X5.  The z-score branch emits at most one order per tick.  An order is
    for the product; it is a sell of 1 to 10 units at the best bid, within
    the room [L + p] left above the short limit, when the z-score is above
    1.5, and a buy of 1 to 10 units at the best ask, within the room [L - p]
    left below the long limit, when the z-score is below -1.5.  A z-score
    within [[-1.5, 1.5]] gives no order. *)
Theorem X5_threshold_orders_shape :
  forall (z : Q) (product : string) (order_depth : OrderDepth) (L p : Z),
    (List.length (threshold_orders z product order_depth L p) <= 1)%nat
    /\ (forall o,
           In o (threshold_orders z product order_depth L p) ->
           symbol o = product
           /\ (((15 # 10) < z)%Q
               /\ price o = best_bid_of order_depth
               /\ -10 <= quantity o <= -1 /\ - quantity o <= L + p
               \/ (z < - (15 # 10))%Q
                  /\ price o = best_ask_of order_depth
                  /\ 1 <= quantity o <= 10 /\ quantity o <= L - p))
    /\ ((- (15 # 10) <= z)%Q -> (z <= 15 # 10)%Q ->
        threshold_orders z product order_depth L p = []).
Proof.
  intros z product od L p. unfold threshold_orders, max_trade_size.
  destruct (Qltb std_threshold z) eqn:Ehi.
  - apply Qltb_lt in Ehi. unfold std_threshold in Ehi.
    destruct (0 <? Z.min 10 (L + p)) eqn:Ev.
    + apply Z.ltb_lt in Ev. split; [cbn [List.length]; lia|]. split.
      * intros o [<-|[]]. cbn [symbol price quantity].
        split; [reflexivity|]. left. repeat split; try assumption; lia.
      * intros _ Hle. exfalso. apply (Qlt_not_le _ _ Ehi). exact Hle.
    + split; [cbn [List.length]; lia|]. split; [intros o []|].
      intros _ Hle. exfalso. apply (Qlt_not_le _ _ Ehi). exact Hle.
  - destruct (Qltb z (- std_threshold)) eqn:Elo.
    + apply Qltb_lt in Elo.
      change (- std_threshold)%Q with (- (15 # 10))%Q in Elo.
      destruct (0 <? Z.min 10 (L - p)) eqn:Ev.
      * apply Z.ltb_lt in Ev. split; [cbn [List.length]; lia|]. split.
        -- intros o [<-|[]]. cbn [symbol price quantity].
           split; [reflexivity|]. right. repeat split; try assumption; lia.
        -- intros Hge _. exfalso. apply (Qlt_not_le _ _ Elo). exact Hge.
      * split; [cbn [List.length]; lia|]. split; [intros o []|].
        intros Hge _. exfalso. apply (Qlt_not_le _ _ Elo). exact Hge.
    + split; [cbn [List.length]; lia|]. split; [intros o []|].
      intros _ _. reflexivity.
Qed.

Lemma X5_witness :
  threshold_orders 1 "CROISSANTS" small_book 250 0 = [].
Proof.
  apply (proj2 (proj2 (X5_threshold_orders_shape 1 "CROISSANTS" small_book
                         250 0))).
  - vm_compute. discriminate.
  - vm_compute. discriminate.
Defined.

Lemma z_score_short sqrt_float window history x :
  (List.length history < window)%nat ->
  z_score sqrt_float window history x = 0%Q.
Proof.
  intros H. unfold z_score. apply Nat.ltb_lt in H. rewrite H. reflexivity.
Qed.

Lemma push_window_short window history x :
  (List.length history < window)%nat ->
  push_window window history x = history ++ [x].
Proof.
  intros H. unfold push_window.
  assert (E : (window <? List.length (history ++ [x]))%nat = false).
  { apply Nat.ltb_ge. rewrite length_app. cbn [List.length]. lia. }
  rewrite E. reflexivity.
Qed.

(** X6.  While the rolling window of CROISSANTS holds fewer than 99 prices,
    a tick that quotes CROISSANTS on both sides only records the mid price:
    round 3 returns no order for the product and round 2 lists it with an
    empty order list, whatever the book, the position and the square
    root. *)
Theorem X6_croissants_warm_up :
  forall (sqrt_float : Q -> Q) (state : TradingState)
         (order_depth : OrderDepth),
    get String.eqb (order_depths state) "CROISSANTS" = Some order_depth ->
    one_sided order_depth = false ->
    (forall tr,
        (List.length (Round3.pb_croissant_history tr) < 99)%nat ->
        Round3.pb_process_product sqrt_float tr "CROISSANTS" state
        = (Round3.set_croissant_history tr
             (Round3.pb_croissant_history tr ++ [mid_price_of order_depth]),
           Ok []))
    /\ (forall tr result,
           (List.length (Round2.croissant_history tr) < 99)%nat ->
           Round2.process_product sqrt_float state (tr, result) "CROISSANTS"
           = (Round2.set_croissant_history tr
                (Round2.croissant_history tr ++ [mid_price_of order_depth]),
              Ok (set String.eqb result "CROISSANTS" []))).
Proof.
  intros sqrt_float state od Hod Htwo. split.
  - intros tr Hlen. unfold Round3.pb_process_product. rewrite Hod.
    change (get String.eqb Round3.pb_position_limits "CROISSANTS")
      with (Some 250).
    cbv beta iota. rewrite Htwo.
    change ("CROISSANTS" =? "RAINFOREST_RESIN")%string with false.
    change ("CROISSANTS" =? "KELP")%string with false.
    change ("CROISSANTS" =? "CROISSANTS")%string with true.
    cbn [orb]. cbv beta iota zeta.
    unfold Round3.pb_update_croissant_history, Round3.pb_calculate_z_score,
      Round3.pb_croissant_window, croissant_window.
    rewrite push_window_short by lia.
    cbn [Round3.set_croissant_history Round3.pb_croissant_history].
    rewrite z_score_short
      by (rewrite length_app; cbn [List.length]; lia).
    rewrite threshold_orders_zero. reflexivity.
  - intros tr result Hlen. unfold Round2.process_product.
    change (get String.eqb Round2.POSITION_LIMITS "CROISSANTS")
      with (Some 250).
    cbv beta iota. rewrite Hod. rewrite Htwo.
    change ("CROISSANTS" =? "RAINFOREST_RESIN")%string with false.
    change ("CROISSANTS" =? "KELP")%string with false.
    change ("CROISSANTS" =? "CROISSANTS")%string with true.
    cbn [orb]. cbv beta iota zeta.
    unfold Round2.update_croissant_history, Round2.calculate_z_score,
      croissant_window.
    rewrite push_window_short by lia.
    cbn [Round2.set_croissant_history Round2.croissant_history].
    rewrite z_score_short
      by (rewrite length_app; cbn [List.length]; lia).
    rewrite threshold_orders_zero. reflexivity.
Qed.

Lemma X6_witness :
  Round3.pb_process_product sqrt_milli Round3.init "CROISSANTS" tick_first
  = (Round3.set_croissant_history Round3.init [mid_price_of small_book],
     Ok []).
Proof.
  apply (proj1 (X6_croissants_warm_up sqrt_milli tick_first small_book
                  eq_refl eq_refl)).
  cbn [Round3.init Round3.pb_croissant_history List.length]. lia.
Defined.

Lemma lenQ_cons (x : Q) (l : list Q) : (lenQ (x :: l) == lenQ l + 1)%Q.
Proof.
  unfold lenQ. cbn [List.length]. rewrite Nat2Z.inj_succ.
  unfold Z.succ. rewrite inject_Z_plus. reflexivity.
Qed.

Lemma lenQ_pos (x : Q) (l : list Q) : (0 < lenQ (x :: l))%Q.
Proof.
  unfold lenQ. change 0%Q with (inject_Z 0). rewrite <- Zlt_Qlt.
  cbn [List.length]. lia.
Qed.

Lemma fold_left_Qplus_const (c : Q) (l : list Q) (acc : Q) :
  Forall (fun x => (x == c)%Q) l ->
  (fold_left Qplus l acc == acc + c * lenQ l)%Q.
Proof.
  revert acc. induction l as [|x l IH]; intros acc Hall; cbn [fold_left].
  - unfold lenQ. cbn [List.length]. change (inject_Z (Z.of_nat 0)) with 0%Q.
    ring.
  - inversion Hall as [|? ? Hx Hl]; subst.
    rewrite (IH (acc + x)%Q Hl), lenQ_cons, Hx. ring.
Qed.

Lemma mean_const (c : Q) (l : list Q) :
  l <> [] -> Forall (fun x => (x == c)%Q) l -> (mean l == c)%Q.
Proof.
  intros Hne Hall. unfold mean, sumQ.
  rewrite (fold_left_Qplus_const c l 0 Hall).
  destruct l as [|x l]; [congruence|].
  pose proof (lenQ_pos x l) as Hpos.
  field. intros E. rewrite E in Hpos. apply (Qlt_irrefl 0). exact Hpos.
Qed.

Lemma variance_const (c : Q) (l : list Q) :
  l <> [] -> Forall (fun x => (x == c)%Q) l -> (variance l == 0)%Q.
Proof.
  intros Hne Hall. unfold variance.
  pose proof (mean_const c l Hne Hall) as Hm.
  assert (Hsq : Forall (fun y => (y == 0)%Q)
                  (map (fun x => ((x - mean l) * (x - mean l))%Q) l)).
  { apply Forall_map. eapply Forall_impl; [|exact Hall].
    intros x Hx. cbv beta in *. rewrite Hx, Hm. ring. }
  unfold sumQ at 1. rewrite (fold_left_Qplus_const 0 _ 0 Hsq).
  unfold Qdiv. ring.
Qed.

Lemma z_score_flat sqrt_float (c : Q) window history x :
  sqrt_zero sqrt_float ->
  (0 < window)%nat ->
  Forall (fun y => (y == c)%Q) history ->
  z_score sqrt_float window history x = 0%Q.
Proof.
  intros Hsqrt Hw Hall. unfold z_score.
  destruct (List.length history <? window)%nat eqn:E; [reflexivity|].
  apply Nat.ltb_ge in E.
  assert (Hne : history <> []).
  { intros ->. cbn [List.length] in E. lia. }
  assert (Hstd : ((if (1 <? List.length history)%nat
                   then stdev sqrt_float history else 0) == 0)%Q).
  { destruct (1 <? List.length history)%nat; [|reflexivity].
    unfold stdev. apply Hsqrt. apply (variance_const c); assumption. }
  apply Qeq_bool_iff in Hstd. cbv zeta. rewrite Hstd. reflexivity.
Qed.

Lemma push_window_Forall (P : Q -> Prop) window history x :
  Forall P history -> P x -> Forall P (push_window window history x).
Proof.
  intros Hh Hx. unfold push_window.
  assert (H : Forall P (history ++ [x])).
  { apply Forall_app. split; [exact Hh|]. constructor; [exact Hx|constructor]. }
  destruct (window <? List.length (history ++ [x]))%nat; [|exact H].
  destruct (history ++ [x]) as [|y l]; [constructor|].
  cbn [tl]. inversion H; assumption.
Qed.

Lemma sqrt_milli_zero : sqrt_zero sqrt_milli.
Proof.
  intros x Hx. unfold sqrt_milli.
  assert (E : Qfloor (x * 1000000) = 0).
  { rewrite Hx. reflexivity. }
  rewrite E. reflexivity.
Qed.

(** X7.  A flat market gives no signal: when the square root of floats maps
    zero to zero and every price of the rolling window equals the mid price
    of the book, the CROISSANTS branch of rounds 2 and 3 emits no order,
    whatever the length of the window and the position. *)
Theorem X7_flat_window_no_order :
  forall (sqrt_float : Q -> Q) (state : TradingState)
         (order_depth : OrderDepth),
    sqrt_zero sqrt_float ->
    get String.eqb (order_depths state) "CROISSANTS" = Some order_depth ->
    one_sided order_depth = false ->
    (forall tr,
        Forall (fun x => (x == mid_price_of order_depth)%Q)
          (Round3.pb_croissant_history tr) ->
        snd (Round3.pb_process_product sqrt_float tr "CROISSANTS" state)
        = Ok [])
    /\ (forall tr result,
           Forall (fun x => (x == mid_price_of order_depth)%Q)
             (Round2.croissant_history tr) ->
           snd (Round2.process_product sqrt_float state (tr, result)
                  "CROISSANTS")
           = Ok (set String.eqb result "CROISSANTS" [])).
Proof.
  intros sqrt_float state od Hsqrt Hod Htwo. split.
  - intros tr Hflat. unfold Round3.pb_process_product. rewrite Hod.
    change (get String.eqb Round3.pb_position_limits "CROISSANTS")
      with (Some 250).
    cbv beta iota. rewrite Htwo.
    change ("CROISSANTS" =? "RAINFOREST_RESIN")%string with false.
    change ("CROISSANTS" =? "KELP")%string with false.
    change ("CROISSANTS" =? "CROISSANTS")%string with true.
    cbn [orb]. cbv beta iota zeta. cbn [snd].
    unfold Round3.pb_update_croissant_history, Round3.pb_calculate_z_score,
      Round3.pb_croissant_window, croissant_window.
    cbn [Round3.set_croissant_history Round3.pb_croissant_history].
    rewrite (z_score_flat sqrt_float (mid_price_of od)).
    + reflexivity.
    + exact Hsqrt.
    + lia.
    + apply push_window_Forall; [exact Hflat|reflexivity].
  - intros tr result Hflat. unfold Round2.process_product.
    change (get String.eqb Round2.POSITION_LIMITS "CROISSANTS")
      with (Some 250).
    cbv beta iota. rewrite Hod. rewrite Htwo.
    change ("CROISSANTS" =? "RAINFOREST_RESIN")%string with false.
    change ("CROISSANTS" =? "KELP")%string with false.
    change ("CROISSANTS" =? "CROISSANTS")%string with true.
    cbn [orb]. cbv beta iota zeta. cbn [snd].
    unfold Round2.update_croissant_history, Round2.calculate_z_score,
      croissant_window.
    cbn [Round2.set_croissant_history Round2.croissant_history].
    rewrite (z_score_flat sqrt_float (mid_price_of od)).
    + reflexivity.
    + exact Hsqrt.
    + lia.
    + apply push_window_Forall; [exact Hflat|reflexivity].
Qed.

Lemma X7_witness :
  snd (Round3.pb_process_product sqrt_milli
         (Round3.set_croissant_history Round3.init flat_window)
         "CROISSANTS" tick_first)
  = Ok [].
Proof.
  apply (proj1 (X7_flat_window_no_order sqrt_milli tick_first small_book
                  sqrt_milli_zero eq_refl eq_refl)).
  cbn [Round3.set_croissant_history Round3.pb_croissant_history].
  apply Forall_forall. intros x Hx. unfold flat_window in Hx.
  apply repeat_spec in Hx. subst x. vm_compute. reflexivity.
Defined.

(** ** What a tick does to the trader object *)

(** The loop over the configured products of round 3 touches two attributes
    of the object: [trader_data], and the rolling window, which it extends
    by [push_window]. *)
Lemma pb_process_product_frame sqrt_float (P : list Q -> Prop) tr product state :
  (forall h x, P h -> P (push_window croissant_window h x)) ->
  P (Round3.pb_croissant_history tr) ->
  let tr' := fst (Round3.pb_process_product sqrt_float tr product state) in
  Round3.vr_price tr' = Round3.vr_price tr
  /\ Round3.vr_last_prices tr' = Round3.vr_last_prices tr
  /\ Round3.pb_dynamic_params tr' = Round3.pb_dynamic_params tr
  /\ P (Round3.pb_croissant_history tr').
Proof.
  intros HP Hh. unfold Round3.pb_process_product.
  destruct (get String.eqb (order_depths state) product) as [od|];
    [|cbn [fst]; auto].
  destruct (get String.eqb Round3.pb_position_limits product) as [L|];
    [|cbn [fst]; auto].
  destruct (one_sided od); [cbn [fst]; auto|].
  destruct (String.eqb product "RAINFOREST_RESIN" || String.eqb product "KELP").
  { destruct (mean_reversion _ _ _ _ _) as [td' r]. cbn [fst]. auto. }
  destruct (String.eqb product "CROISSANTS"); cbn [fst]; auto.
  unfold Round3.pb_update_croissant_history, Round3.pb_croissant_window.
  cbn [Round3.set_croissant_history Round3.vr_price Round3.vr_last_prices
         Round3.pb_dynamic_params Round3.pb_croissant_history].
  auto.
Qed.

Lemma pb_loop_frame sqrt_float (P : list Q -> Prop) state products tr result :
  (forall h x, P h -> P (push_window croissant_window h x)) ->
  P (Round3.pb_croissant_history tr) ->
  let tr' := fst (Round3.pb_loop sqrt_float tr state products result) in
  Round3.vr_price tr' = Round3.vr_price tr
  /\ Round3.vr_last_prices tr' = Round3.vr_last_prices tr
  /\ Round3.pb_dynamic_params tr' = Round3.pb_dynamic_params tr
  /\ P (Round3.pb_croissant_history tr').
Proof.
  intros HP. revert tr result.
  induction products as [|product rest IH]; intros tr result Hh;
    cbn [Round3.pb_loop]; [cbn [fst]; auto|].
  destruct (mem String.eqb Round3.pb_position_limits product);
    [|apply IH; exact Hh].
  pose proof (pb_process_product_frame sqrt_float P tr product state HP Hh)
    as Hp.
  destruct (Round3.pb_process_product sqrt_float tr product state)
    as [tr1 [orders|e]]; cbn [fst] in Hp.
  - destruct Hp as (H1 & H2 & H3 & H4).
    destruct (IH tr1 (if truthy orders
                      then set String.eqb result product orders else result)
                H4) as (I1 & I2 & I3 & I4).
    cbv zeta. rewrite I1, I2, I3. auto.
  - cbn [fst]. exact Hp.
Qed.

Lemma round3_run_frame sqrt_float (P : list Q -> Prop) tr state :
  (forall h x, P h -> P (push_window croissant_window h x)) ->
  P (Round3.pb_croissant_history tr) ->
  let tr0 := Round3.vr_update_market_data tr state in
  let tr' := fst (Round3.run sqrt_float tr state) in
  Round3.vr_price tr' = Round3.vr_price tr0
  /\ Round3.vr_last_prices tr' = Round3.vr_last_prices tr0
  /\ Round3.pb_dynamic_params tr' = Round3.pb_dynamic_params tr
  /\ P (Round3.pb_croissant_history tr').
Proof.
  intros HP Hh. cbv zeta. unfold Round3.run.
  set (tr1 := Round3.set_trader_data tr
                (restore (Round3.trader_data tr) (traderData state))).
  assert (E : Round3.vr_price (Round3.vr_update_market_data tr1 state)
              = Round3.vr_price (Round3.vr_update_market_data tr state)
              /\ Round3.vr_last_prices (Round3.vr_update_market_data tr1 state)
                 = Round3.vr_last_prices (Round3.vr_update_market_data tr state)
              /\ Round3.pb_dynamic_params
                   (Round3.vr_update_market_data tr1 state)
                 = Round3.pb_dynamic_params tr
              /\ Round3.pb_croissant_history
                   (Round3.vr_update_market_data tr1 state)
                 = Round3.pb_croissant_history tr).
  { unfold Round3.vr_update_market_data.
    destruct (get String.eqb (order_depths state) "VOLCANIC_ROCK") as [d|];
      [|cbn; auto].
    destruct (truthy (buy_orders d) && truthy (sell_orders d)); cbn; auto. }
  destruct E as (E1 & E2 & E3 & E4).
  set (tr2 := Round3.vr_update_market_data tr1 state) in *.
  destruct (Round3.voucher_loop tr2 state (keys (order_depths state)) [])
    as [result1|e].
  2:{ cbn [fst]. rewrite E4. auto. }
  assert (Hh2 : P (Round3.pb_croissant_history tr2)) by (rewrite E4; exact Hh).
  pose proof (pb_loop_frame sqrt_float P state (keys (order_depths state))
                tr2 result1 HP Hh2) as Hp.
  destruct (Round3.pb_loop sqrt_float tr2 state (keys (order_depths state))
              result1) as [tr3 [result|e]]; cbn [fst] in *.
  - cbn [Round3.set_trader_data Round3.vr_price Round3.vr_last_prices
           Round3.pb_dynamic_params Round3.pb_croissant_history].
    destruct Hp as (H1 & H2 & H3 & H4).
    rewrite H1, H2, H3, E1, E2, E3. auto.
  - destruct Hp as (H1 & H2 & H3 & H4).
    rewrite H1, H2, H3, E1, E2, E3. auto.
Qed.

Lemma vr_update_window tr state :
  (List.length (Round3.vr_last_prices tr) <= 20)%nat ->
  (List.length (Round3.vr_last_prices (Round3.vr_update_market_data tr state))
   <= 20)%nat.
Proof.
  intros H. unfold Round3.vr_update_market_data.
  destruct (get String.eqb (order_depths state) "VOLCANIC_ROCK") as [d|];
    [|exact H].
  destruct (truthy (buy_orders d) && truthy (sell_orders d)); [|exact H].
  cbn [Round3.vr_last_prices].
  apply (push_window_bounded 20 (Round3.vr_last_prices tr) _ H).
Qed.

Lemma round2_process_product_window sqrt_float (P : list Q -> Prop) state st
  product :
  (forall h x, P h -> P (push_window croissant_window h x)) ->
  P (Round2.croissant_history (fst st)) ->
  P (Round2.croissant_history
       (fst (Round2.process_product sqrt_float state st product))).
Proof.
  intros HP Hh. destruct st as [tr result]. cbn [fst] in Hh.
  unfold Round2.process_product.
  destruct (get String.eqb Round2.POSITION_LIMITS product) as [L|];
    [|exact Hh].
  destruct (get String.eqb (order_depths state) product) as [od|];
    [|exact Hh].
  destruct (one_sided od); [exact Hh|].
  destruct (String.eqb product "RAINFOREST_RESIN" || String.eqb product "KELP").
  { destruct (mean_reversion _ _ _ _ _) as [td' [orders|e]]; exact Hh. }
  destruct (String.eqb product "CROISSANTS"); [|exact Hh].
  cbn [fst]. unfold Round2.update_croissant_history.
  cbn [Round2.set_croissant_history Round2.croissant_history].
  apply HP. exact Hh.
Qed.

Lemma round2_product_loop_window sqrt_float (P : list Q -> Prop) state products
  st :
  (forall h x, P h -> P (push_window croissant_window h x)) ->
  P (Round2.croissant_history (fst st)) ->
  P (Round2.croissant_history
       (fst (Round2.product_loop sqrt_float state products st))).
Proof.
  intros HP. revert st.
  induction products as [|product rest IH]; intros st Hh;
    cbn [Round2.product_loop]; [exact Hh|].
  pose proof (round2_process_product_window sqrt_float P state st product
                HP Hh) as Hp.
  destruct (Round2.process_product sqrt_float state st product)
    as [tr1 [result1|e]]; cbn [fst] in Hp.
  - apply IH. exact Hp.
  - exact Hp.
Qed.

Lemma round2_run_window sqrt_float (P : list Q -> Prop) tr state :
  (forall h x, P h -> P (push_window croissant_window h x)) ->
  P (Round2.croissant_history tr) ->
  P (Round2.croissant_history (fst (Round2.run sqrt_float tr state))).
Proof.
  intros HP Hh. unfold Round2.run.
  pose proof (round2_product_loop_window sqrt_float P state
                (keys (order_depths state))
                (Round2.set_trader_data tr
                   (restore (Round2.trader_data tr) (traderData state)), [])
                HP Hh) as Hp.
  destruct (Round2.product_loop _ _ _ _) as [tr2 [result|e]];
    cbn [fst] in *; exact Hp.
Qed.

(** X8.  The rolling windows stay bounded over a tick, whether the tick
    returns or raises: in round 3 the window of the underlying keeps at most
    20 prices and the CROISSANTS window at most 100; in round 2 the
    CROISSANTS window keeps at most 100. *)
Theorem X8_rolling_windows_bounded :
  forall (sqrt_float : Q -> Q) (state : TradingState),
    (forall tr,
        (List.length (Round3.vr_last_prices tr) <= 20)%nat ->
        (List.length (Round3.pb_croissant_history tr) <= 100)%nat ->
        let tr' := fst (Round3.run sqrt_float tr state) in
        (List.length (Round3.vr_last_prices tr') <= 20)%nat
        /\ (List.length (Round3.pb_croissant_history tr') <= 100)%nat)
    /\ (forall tr,
           (List.length (Round2.croissant_history tr) <= 100)%nat ->
           (List.length
              (Round2.croissant_history (fst (Round2.run sqrt_float tr state)))
            <= 100)%nat).
Proof.
  intros sqrt_float state. split.
  - intros tr Hvr Hcr tr'.
    destruct (round3_run_frame sqrt_float
                (fun h => (List.length h <= 100)%nat) tr state)
      as (_ & H2 & _ & H4).
    + intros h x. apply push_window_bounded.
    + exact Hcr.
    + subst tr'. rewrite H2. split; [|exact H4].
      apply vr_update_window. exact Hvr.
  - intros tr Hcr.
    apply (round2_run_window sqrt_float
             (fun h => (List.length h <= 100)%nat)); [|exact Hcr].
    intros h x. apply push_window_bounded.
Qed.

Lemma X8_witness :
  let tr' := fst (Round3.run sqrt_milli Round3.init tick_first) in
  (List.length (Round3.vr_last_prices tr') <= 20)%nat
  /\ (List.length (Round3.pb_croissant_history tr') <= 100)%nat.
Proof.
  apply (proj1 (X8_rolling_windows_bounded sqrt_milli tick_first)).
  - cbn [Round3.init Round3.vr_last_prices List.length]. lia.
  - cbn [Round3.init Round3.pb_croissant_history List.length]. lia.
Defined.

(** X9.  No tick of round 3 changes the buffer parameters, whatever the
    snapshot and the blob and whether the tick returns or raises.  On a tick
    that quotes VOLCANIC_ROCK on both sides, the stored underlying price
    becomes the mid price of that book and is the newest entry of the price
    window, whether the tick returns or raises. *)
Theorem X9_underlying_refreshed :
  forall (sqrt_float : Q -> Q) (tr : Round3.Trader) (state : TradingState),
    let tr' := fst (Round3.run sqrt_float tr state) in
    Round3.pb_dynamic_params tr' = Round3.pb_dynamic_params tr
    /\ forall depth : OrderDepth,
        get String.eqb (order_depths state) "VOLCANIC_ROCK" = Some depth ->
        one_sided depth = false ->
        Round3.vr_price tr' = mid_price_of depth
        /\ Round3.vr_last_prices tr'
           = push_window 20 (Round3.vr_last_prices tr) (mid_price_of depth)
        /\ last (Round3.vr_last_prices tr') 0%Q = mid_price_of depth.
Proof.
  intros sqrt_float tr state tr'.
  destruct (round3_run_frame sqrt_float (fun _ => True) tr state)
    as (H1 & H2 & H3 & _); [auto|exact I|].
  subst tr'. split; [exact H3|].
  intros depth Hd Htwo. rewrite H1, H2.
  assert (E : Round3.vr_update_market_data tr state
              = Round3.mkTrader (mid_price_of depth)
                  (push_window 20 (Round3.vr_last_prices tr)
                     (mid_price_of depth))
                  (Round3.pb_croissant_history tr)
                  (Round3.pb_dynamic_params tr) (Round3.trader_data tr)).
  { unfold Round3.vr_update_market_data. rewrite Hd.
    unfold one_sided in Htwo. apply orb_false_iff in Htwo.
    destruct Htwo as [Hb Ha]. apply negb_false_iff in Hb, Ha.
    rewrite Hb, Ha. reflexivity. }
  rewrite E. cbn [Round3.vr_price Round3.vr_last_prices].
  split; [reflexivity|]. split; [reflexivity|].
  unfold push_window.
  destruct (Round3.vr_last_prices tr) as [|x l]; [reflexivity|].
  destruct (20 <? List.length ((x :: l) ++ [mid_price_of depth]))%nat;
    [cbn [app tl]|]; apply last_last.
Qed.

Lemma X9_witness :
  let tr' := fst (Round3.run sqrt_milli Round3.init tick_first) in
  Round3.vr_price tr' = (20000 # 2)%Q
  /\ Round3.vr_last_prices tr' = [(20000 # 2)%Q]
  /\ last (Round3.vr_last_prices tr') 0%Q = (20000 # 2)%Q.
Proof.
  exact (proj2 (X9_underlying_refreshed sqrt_milli Round3.init tick_first)
           (mkOrderDepth [(9999, 5)] [(10001, -5)]) eq_refl eq_refl).
Defined.

(** ** The price history of the moving-average products *)

Lemma last_n_short {A : Type} (n : nat) (l : list A) :
  (List.length l <= n)%nat -> last_n n l = l.
Proof.
  intros H. unfold last_n.
  replace (List.length l - n)%nat with 0%nat by lia. reflexivity.
Qed.

Lemma last_n_length {A : Type} (n : nat) (l : list A) :
  (List.length (last_n n l) <= n)%nat.
Proof. unfold last_n. rewrite length_skipn. lia. Qed.

Lemma last_n_snoc {A : Type} (n : nat) (l : list A) (x d : A) :
  (0 < n)%nat -> last (last_n n (l ++ [x])) d = x.
Proof.
  intros Hn. unfold last_n. rewrite skipn_app, length_app.
  cbn [List.length].
  replace (List.length l + 1 - n - List.length l)%nat with 0%nat by lia.
  cbn [skipn]. apply last_last.
Qed.

(** X10.  The price-history update of the moving-average products keeps the
    five newest prices of the product, the mid price of the tick last, and
    leaves the histories of the other products as they are.  When the blob
    has put something other than a list under the product, the update
    raises [AttributeError] on [append] and the mapping is unchanged. *)
Theorem X10_price_history_window :
  forall (ph : list (value * value)) (product : string) (mid_price : Q),
    (forall h,
        get key_eqb ph (VStr product) = Some (VList h) ->
        let h' := last_n 5 (h ++ [VFloat mid_price]) in
        push_mid ph product mid_price
        = (set key_eqb ph (VStr product) (VList h'), Ok tt)
        /\ (List.length h' <= 5)%nat
        /\ last h' VNone = VFloat mid_price
        /\ forall other,
            other <> product ->
            get key_eqb (fst (push_mid ph product mid_price)) (VStr other)
            = get key_eqb ph (VStr other))
    /\ (forall v,
           get key_eqb ph (VStr product) = Some v ->
           (forall h, v <> VList h) ->
           push_mid ph product mid_price = (ph, Raise AttributeError)).
Proof.
  intros ph product mid. split.
  - intros h Hget h'.
    assert (E : push_mid ph product mid
                = (set key_eqb ph (VStr product) (VList h'), Ok tt)).
    { unfold push_mid, mem. rewrite Hget. cbv beta iota zeta. rewrite Hget.
      subst h'.
      destruct (5 <? List.length (h ++ [VFloat mid]))%nat eqn:E5.
      - rewrite set_set_str. reflexivity.
      - apply Nat.ltb_ge in E5. rewrite (last_n_short 5 _ E5). reflexivity. }
    split; [exact E|]. split; [apply last_n_length|].
    split; [apply last_n_snoc; lia|].
    intros other Hne. rewrite E. cbn [fst].
    apply get_set_str_other. intros Heq. apply Hne. symmetry. exact Heq.
  - intros v Hget Hv. unfold push_mid, mem. rewrite Hget.
    cbv beta iota zeta. rewrite Hget.
    destruct v; try reflexivity. exfalso. apply (Hv l). reflexivity.
Qed.

Lemma X10_witness :
  push_mid [(VStr "KELP", VInt 3)] "KELP" 100
  = ([(VStr "KELP", VInt 3)], Raise AttributeError).
Proof.
  apply (proj2 (X10_price_history_window [(VStr "KELP", VInt 3)] "KELP" 100)
           (VInt 3)).
  - reflexivity.
  - intros h. discriminate.
Defined.

(** ** The output mapping *)

Lemma keys_set_fresh {V : Type} (d : list (string * V)) k v :
  ~ In k (keys d) -> keys (set String.eqb d k v) = keys d ++ [k].
Proof.
  intros H. apply get_None_not_In in H.
  rewrite (keys_set_absent d k v H). unfold keys. rewrite map_app.
  reflexivity.
Qed.

Lemma NoDup_app_cons_fresh {A : Type} (l1 l2 : list A) (a : A) :
  NoDup (l1 ++ a :: l2) -> ~ In a l1 /\ NoDup ((l1 ++ [a]) ++ l2).
Proof.
  intros H. split.
  - apply NoDup_remove_2 in H. intros Hin. apply H. apply in_or_app.
    left. exact Hin.
  - rewrite <- app_assoc. exact H.
Qed.

Lemma round1_process_result state st product st' :
  Round1.process_product state st product = Ok st' ->
  get String.eqb Round1.position_limits product <> None
  /\ exists orders, snd st' = set String.eqb (snd st) product orders.
Proof.
  destruct st as [ph result]. unfold Round1.process_product.
  destruct (get String.eqb (order_depths state) product) as [od|];
    [|discriminate].
  destruct (get String.eqb Round1.position_limits product) as [L|];
    [|discriminate].
  destruct (Round1.fair_price_of ph product od) as [[ph' F]|e];
    cbn [Py.bind]; [|discriminate].
  intros H. split; [discriminate|].
  destruct (String.eqb product "SQUID_INK"); apply Ok_inj in H; subst st';
    cbn [snd]; eauto.
Qed.

Lemma round1_loop_keys state products st st' :
  for_each (Round1.process_product state) products st = Ok st' ->
  NoDup (keys (snd st) ++ products) ->
  keys (snd st') = keys (snd st) ++ products
  /\ Forall (fun product =>
               get String.eqb Round1.position_limits product <> None)
       products.
Proof.
  revert st. induction products as [|product rest IH]; intros st H Hnd;
    cbn [for_each] in H.
  - apply Ok_inj in H. subst st'. rewrite app_nil_r. auto.
  - destruct (Round1.process_product state st product) as [st1|e] eqn:E;
      [|discriminate].
    destruct (round1_process_result state st product st1 E)
      as (HL & orders & Hres).
    destruct (NoDup_app_cons_fresh _ _ _ Hnd) as [Hfresh Hnd'].
    assert (Hk : keys (snd st1) = keys (snd st) ++ [product]).
    { rewrite Hres. apply keys_set_fresh. exact Hfresh. }
    rewrite <- Hk in Hnd'.
    destruct (IH st1 H Hnd') as [Hkeys Hall].
    split.
    + rewrite Hkeys, Hk, <- app_assoc. reflexivity.
    + constructor; assumption.
Qed.

Lemma round2_process_result sqrt_float state tr result product tr' result' :
  Round2.process_product sqrt_float state (tr, result) product
  = (tr', Ok result') ->
  (mem String.eqb Round2.POSITION_LIMITS product = false /\ result' = result)
  \/ (mem String.eqb Round2.POSITION_LIMITS product = true
      /\ exists orders, result' = set String.eqb result product orders).
Proof.
  unfold Round2.process_product, mem. cbv beta iota.
  destruct (get String.eqb Round2.POSITION_LIMITS product) as [L|].
  2:{ intros H. left. split; [reflexivity|].
      injection H as _ H. symmetry. exact H. }
  intros H. right. split; [reflexivity|].
  destruct (get String.eqb (order_depths state) product) as [od|];
    [|discriminate].
  destruct (one_sided od).
  { exists []. injection H as _ H. symmetry. exact H. }
  destruct (String.eqb product "RAINFOREST_RESIN" || String.eqb product "KELP").
  { destruct (mean_reversion _ _ _ _ _) as [td' [orders|e]]; [|discriminate].
    exists orders. injection H as _ H. symmetry. exact H. }
  destruct (String.eqb product "CROISSANTS"); eexists;
    injection H as _ H; symmetry; exact H.
Qed.

Lemma round2_loop_keys sqrt_float state products tr result tr' result' :
  Round2.product_loop sqrt_float state products (tr, result)
  = (tr', Ok result') ->
  NoDup (keys result ++ products) ->
  keys result'
  = keys result
    ++ filter (fun product => mem String.eqb Round2.POSITION_LIMITS product)
         products.
Proof.
  revert tr result. induction products as [|product rest IH];
    intros tr result H Hnd; cbn [Round2.product_loop] in H.
  - cbn [fst snd] in H. cbn [filter]. rewrite app_nil_r. congruence.
  - destruct (Round2.process_product sqrt_float state (tr, result) product)
      as [tr1 [result1|e]] eqn:E; [|discriminate].
    destruct (NoDup_app_cons_fresh _ _ _ Hnd) as [Hfresh Hnd'].
    cbn [filter].
    destruct (round2_process_result sqrt_float state tr result product tr1
                result1 E) as [[Hm ->]|[Hm [orders ->]]]; rewrite Hm.
    + apply (IH tr1 result H).
      apply NoDup_remove_1 in Hnd. exact Hnd.
    + assert (Hk : keys (set String.eqb result product orders)
                   = keys result ++ [product])
        by (apply keys_set_fresh; exact Hfresh).
      rewrite <- Hk in Hnd'.
      rewrite (IH tr1 _ H Hnd'), Hk, <- app_assoc. reflexivity.
Qed.

(** X11.  When the products of the snapshot are distinct and the tick
    returns, the output mapping of round 1 lists exactly the products of the
    snapshot, in the order of the snapshot, and all of them are configured;
    the output mapping of round 2 lists exactly the products of the snapshot
    that have a position limit, in that order.  The conversion count is
    0. *)
Theorem X11_output_products :
  forall (sqrt_float : Q -> Q) (state : TradingState),
    NoDup (keys (order_depths state)) ->
    (forall result c td,
        Round1.run state = Ok (result, c, td) ->
        keys result = keys (order_depths state)
        /\ c = 0
        /\ Forall (fun product =>
                     get String.eqb Round1.position_limits product <> None)
             (keys (order_depths state)))
    /\ (forall tr tr' result c td,
           Round2.run sqrt_float tr state = (tr', Ok (result, c, td)) ->
           keys result
           = filter (fun product =>
                       mem String.eqb Round2.POSITION_LIMITS product)
               (keys (order_depths state))
           /\ c = 0).
Proof.
  intros sqrt_float state Hnd. split.
  - intros result c td H. unfold Round1.run in H.
    destruct (match traderData state with
              | BlobEmpty => Ok (VDict [])
              | BlobUndecodable => Raise JSONDecodeError
              | BlobValue v => Ok v
              end) as [ph|e]; cbn [Py.bind] in H; [|discriminate].
    destruct (for_each (Round1.process_product state)
                (keys (order_depths state)) (ph, [])) as [[ph' result']|e]
      eqn:E; cbn [Py.bind] in H; [|discriminate].
    apply Ok_inj in H.
    assert (Hr : result' = result) by congruence.
    assert (Hc : 0 = c) by congruence.
    subst result' c.
    destruct (round1_loop_keys state _ _ _ E Hnd) as [Hk Hall].
    cbn [snd keys map app] in Hk. auto.
  - intros tr tr' result c td H. unfold Round2.run in H.
    destruct (Round2.product_loop sqrt_float state
                (keys (order_depths state))
                (Round2.set_trader_data tr
                   (restore (Round2.trader_data tr) (traderData state)), []))
      as [tr2 [result'|e]] eqn:E; [|discriminate].
    assert (Hr : result' = result) by congruence.
    assert (Hc : 0 = c) by congruence.
    subst result' c.
    split; [|reflexivity].
    apply (round2_loop_keys sqrt_float state _ _ _ _ _ E Hnd).
Qed.

Lemma X11_witness :
  keys [("KELP", [mkOrder "KELP" 99 (-5); mkOrder "KELP" 98 (-5)]);
        ("CROISSANTS", []); ("PICNIC_BASKET1", [])]
  = filter (fun product => mem String.eqb Round2.POSITION_LIMITS product)
      (keys (order_depths tick_mixed))
  /\ 0 = 0.
Proof.
  assert (Hnd : NoDup (keys (order_depths tick_mixed))).
  { cbn [tick_mixed order_depths keys map fst]. solve_nodup. }
  eapply (proj2 (X11_output_products sqrt_milli tick_mixed Hnd) Round2.init).
  vm_compute. reflexivity.
Defined.

(** *** Where the entries of the output mapping come from *)

Lemma entries_nil Q : entries Q [].
Proof. intros product orders H. discriminate. Qed.

Lemma entries_set Q result product orders :
  entries Q result -> Q product orders ->
  entries Q (set String.eqb result product orders).
Proof.
  intros Hres Hq p os Hget.
  destruct (string_dec product p) as [->|Hne].
  - rewrite (get_set_same String.eqb string_eqb_iff) in Hget.
    apply Some_inj in Hget. subst os. exact Hq.
  - rewrite (get_set_other String.eqb string_eqb_iff) in Hget by exact Hne.
    apply (Hres p os Hget).
Qed.

Lemma mean_reversion_strategy state td product order_depth L td' orders :
  mean_reversion td product order_depth L (position_of state product)
  = (td', Ok orders) ->
  strategy_orders state product order_depth L orders.
Proof.
  intros H.
  destruct (mean_reversion_orders td product order_depth L
              (position_of state product) td' orders H) as [F ->].
  apply walk_orders.
Qed.

Lemma round1_process_strategy state st product st' :
  Round1.process_product state st product = Ok st' ->
  exists order_depth L orders,
    get String.eqb (order_depths state) product = Some order_depth
    /\ get String.eqb Round1.position_limits product = Some L
    /\ snd st' = set String.eqb (snd st) product orders
    /\ strategy_orders state product order_depth L orders
    /\ (product = "SQUID_INK" -> orders = []).
Proof.
  destruct st as [ph result]. unfold Round1.process_product.
  destruct (get String.eqb (order_depths state) product) as [od|];
    [|discriminate].
  destruct (get String.eqb Round1.position_limits product) as [L|];
    [|discriminate].
  destruct (Round1.fair_price_of ph product od) as [[ph' F]|e];
    cbn [Py.bind]; [|discriminate].
  intros H. exists od, L.
  destruct (String.eqb product "SQUID_INK") eqn:E; apply Ok_inj in H;
    subst st'; cbn [snd]; eexists; (split; [reflexivity|]);
    (split; [reflexivity|]); (split; [reflexivity|]).
  - split; [apply no_orders|reflexivity].
  - split; [apply walk_orders|].
    intros ->. discriminate.
Qed.

Lemma round2_process_strategy sqrt_float state tr result product tr' result' :
  Round2.process_product sqrt_float state (tr, result) product
  = (tr', Ok result') ->
  result' = result
  \/ exists order_depth L orders,
      get String.eqb (order_depths state) product = Some order_depth
      /\ get String.eqb Round2.POSITION_LIMITS product = Some L
      /\ result' = set String.eqb result product orders
      /\ strategy_orders state product order_depth L orders
      /\ (orders <> [] ->
          one_sided order_depth = false
          /\ (product = "RAINFOREST_RESIN" \/ product = "KELP"
              \/ product = "CROISSANTS")).
Proof.
  unfold Round2.process_product. cbv beta iota.
  destruct (get String.eqb Round2.POSITION_LIMITS product) as [L|].
  2:{ intros H. left. injection H as _ H. symmetry. exact H. }
  destruct (get String.eqb (order_depths state) product) as [od|];
    [|discriminate].
  intros H. right. exists od, L.
  destruct (one_sided od) eqn:Eone.
  { exists []. injection H as _ H.
    split; [reflexivity|]. split; [reflexivity|].
    split; [symmetry; exact H|]. split; [apply no_orders|congruence]. }
  destruct (String.eqb product "RAINFOREST_RESIN") eqn:E1.
  { apply String.eqb_eq in E1. cbn [orb] in H.
    destruct (mean_reversion _ _ _ _ _) as [td' [orders|e]] eqn:Em;
      [|discriminate].
    exists orders. injection H as _ H.
    split; [reflexivity|]. split; [reflexivity|].
    split; [symmetry; exact H|]. split; [|auto].
    apply (mean_reversion_strategy state _ _ _ _ _ _ Em). }
  destruct (String.eqb product "KELP") eqn:E2.
  { apply String.eqb_eq in E2. cbn [orb] in H.
    destruct (mean_reversion _ _ _ _ _) as [td' [orders|e]] eqn:Em;
      [|discriminate].
    exists orders. injection H as _ H.
    split; [reflexivity|]. split; [reflexivity|].
    split; [symmetry; exact H|]. split; [|auto].
    apply (mean_reversion_strategy state _ _ _ _ _ _ Em). }
  cbn [orb] in H.
  destruct (String.eqb product "CROISSANTS") eqn:E3.
  { apply String.eqb_eq in E3. eexists. injection H as _ H.
    split; [reflexivity|]. split; [reflexivity|].
    split; [symmetry; exact H|]. split; [apply z_orders; exact Eone|auto]. }
  exists []. injection H as _ H.
  split; [reflexivity|]. split; [reflexivity|].
  split; [symmetry; exact H|]. split; [apply no_orders|congruence].
Qed.

Lemma pb_process_product_strategy sqrt_float tr product state tr' orders :
  Round3.pb_process_product sqrt_float tr product state = (tr', Ok orders) ->
  exists order_depth L,
    get String.eqb (order_depths state) product = Some order_depth
    /\ get String.eqb Round3.pb_position_limits product = Some L
    /\ strategy_orders state product order_depth L orders
    /\ (orders <> [] ->
        one_sided order_depth = false
        /\ (product = "RAINFOREST_RESIN" \/ product = "KELP"
            \/ product = "CROISSANTS")).
Proof.
  unfold Round3.pb_process_product.
  destruct (get String.eqb (order_depths state) product) as [od|];
    [|discriminate].
  destruct (get String.eqb Round3.pb_position_limits product) as [L|];
    [|discriminate].
  intros H. exists od, L.
  split; [reflexivity|]. split; [reflexivity|].
  destruct (one_sided od) eqn:Eone.
  { injection H as _ H. subst orders. split; [apply no_orders|congruence]. }
  destruct (String.eqb product "RAINFOREST_RESIN") eqn:E1.
  { apply String.eqb_eq in E1. cbn [orb] in H.
    destruct (mean_reversion _ _ _ _ _) as [td' [os|e]] eqn:Em;
      [|discriminate].
    injection H as _ H. subst os. split; [|auto].
    apply (mean_reversion_strategy state _ _ _ _ _ _ Em). }
  destruct (String.eqb product "KELP") eqn:E2.
  { apply String.eqb_eq in E2. cbn [orb] in H.
    destruct (mean_reversion _ _ _ _ _) as [td' [os|e]] eqn:Em;
      [|discriminate].
    injection H as _ H. subst os. split; [|auto].
    apply (mean_reversion_strategy state _ _ _ _ _ _ Em). }
  cbn [orb] in H.
  destruct (String.eqb product "CROISSANTS") eqn:E3.
  { apply String.eqb_eq in E3. injection H as _ H. subst orders.
    split; [apply z_orders; exact Eone|auto]. }
  injection H as _ H. subst orders. split; [apply no_orders|congruence].
Qed.

Lemma round1_run_entries (Q : string -> list Order -> Prop) state result c td :
  (forall product order_depth L orders,
      get String.eqb (order_depths state) product = Some order_depth ->
      get String.eqb Round1.position_limits product = Some L ->
      strategy_orders state product order_depth L orders ->
      (product = "SQUID_INK" -> orders = []) ->
      Q product orders) ->
  Round1.run state = Ok (result, c, td) ->
  entries Q result.
Proof.
  intros HQ H. unfold Round1.run in H.
  destruct (match traderData state with
            | BlobEmpty => Ok (VDict [])
            | BlobUndecodable => Raise JSONDecodeError
            | BlobValue v => Ok v
            end) as [ph|e]; cbn [Py.bind] in H; [|discriminate].
  destruct (for_each (Round1.process_product state)
              (keys (order_depths state)) (ph, [])) as [[ph' result']|e]
    eqn:E; cbn [Py.bind] in H; [|discriminate].
  apply Ok_inj in H.
  assert (Hr : result' = result) by congruence. subst result'.
  apply (for_each_inv (fun st => entries Q (snd st)) _ _ _ _) in E.
  - exact E.
  - intros st product st' Hst Hstep.
    destruct (round1_process_strategy state st product st' Hstep)
      as (od & L & orders & Hod & HL & Hres & Hs & Hsq).
    rewrite Hres. apply entries_set; [exact Hst|].
    apply (HQ product od L orders Hod HL Hs Hsq).
  - apply entries_nil.
Qed.

Lemma round2_loop_entries (Q : string -> list Order -> Prop) sqrt_float state
  products tr result tr' result' :
  (forall product order_depth L orders,
      get String.eqb (order_depths state) product = Some order_depth ->
      get String.eqb Round2.POSITION_LIMITS product = Some L ->
      strategy_orders state product order_depth L orders ->
      (orders <> [] ->
       one_sided order_depth = false
       /\ (product = "RAINFOREST_RESIN" \/ product = "KELP"
           \/ product = "CROISSANTS")) ->
      Q product orders) ->
  entries Q result ->
  Round2.product_loop sqrt_float state products (tr, result)
  = (tr', Ok result') ->
  entries Q result'.
Proof.
  intros HQ. revert tr result.
  induction products as [|product rest IH]; intros tr result Hres H;
    cbn [Round2.product_loop] in H.
  - cbn [fst snd] in H. injection H as _ H. subst result'. exact Hres.
  - destruct (Round2.process_product sqrt_float state (tr, result) product)
      as [tr1 [result1|e]] eqn:E; [|discriminate].
    apply (IH tr1 result1); [|exact H].
    destruct (round2_process_strategy sqrt_float state tr result product tr1
                result1 E) as [->|(od & L & orders & Hod & HL & -> & Hs & Hk)].
    + exact Hres.
    + apply entries_set; [exact Hres|].
      apply (HQ product od L orders Hod HL Hs Hk).
Qed.

Lemma round2_run_entries (Q : string -> list Order -> Prop) sqrt_float state
  tr tr' result c td :
  (forall product order_depth L orders,
      get String.eqb (order_depths state) product = Some order_depth ->
      get String.eqb Round2.POSITION_LIMITS product = Some L ->
      strategy_orders state product order_depth L orders ->
      (orders <> [] ->
       one_sided order_depth = false
       /\ (product = "RAINFOREST_RESIN" \/ product = "KELP"
           \/ product = "CROISSANTS")) ->
      Q product orders) ->
  Round2.run sqrt_float tr state = (tr', Ok (result, c, td)) ->
  entries Q result.
Proof.
  intros HQ H. unfold Round2.run in H.
  destruct (Round2.product_loop sqrt_float state (keys (order_depths state))
              (Round2.set_trader_data tr
                 (restore (Round2.trader_data tr) (traderData state)), []))
    as [tr2 [result'|e]] eqn:E; [|discriminate].
  assert (Hr : result' = result) by congruence. subst result'.
  apply (round2_loop_entries Q sqrt_float state _ _ _ _ _ HQ (entries_nil Q) E).
Qed.

Lemma voucher_loop_entries (Q : string -> list Order -> Prop) tr state products
  result result' :
  (forall product orders,
      In product products ->
      startswith product "VOLCANIC_ROCK_VOUCHER" = true ->
      Round3.vr_short_itm_voucher tr product state = Ok orders ->
      orders <> [] ->
      Q product orders) ->
  entries Q result ->
  Round3.voucher_loop tr state products result = Ok result' ->
  entries Q result'.
Proof.
  revert result.
  induction products as [|product rest IH]; intros result HQ Hres H;
    cbn [Round3.voucher_loop] in H.
  - apply Ok_inj in H. subst result'. exact Hres.
  - assert (HQ' : forall p os,
               In p rest ->
               startswith p "VOLCANIC_ROCK_VOUCHER" = true ->
               Round3.vr_short_itm_voucher tr p state = Ok os ->
               os <> [] -> Q p os).
    { intros p os Hin. apply HQ. right. exact Hin. }
    destruct (startswith product "VOLCANIC_ROCK_VOUCHER") eqn:Ev;
      [|apply (IH result HQ' Hres H)].
    destruct (Round3.vr_short_itm_voucher tr product state) as [orders|e]
      eqn:Eo; cbn [Py.bind] in H; [|discriminate].
    refine (IH _ HQ' _ H).
    destruct orders as [|o os]; cbn [truthy]; [exact Hres|].
    apply entries_set; [exact Hres|].
    apply (HQ product (o :: os) (or_introl eq_refl) Ev Eo). discriminate.
Qed.

Lemma pb_loop_entries (Q : string -> list Order -> Prop) sqrt_float state
  products tr result tr' result' :
  (forall tr0 tr1 product orders,
      mem String.eqb Round3.pb_position_limits product = true ->
      Round3.pb_process_product sqrt_float tr0 product state
      = (tr1, Ok orders) ->
      orders <> [] ->
      Q product orders) ->
  entries Q result ->
  Round3.pb_loop sqrt_float tr state products result = (tr', Ok result') ->
  entries Q result'.
Proof.
  intros HQ. revert tr result.
  induction products as [|product rest IH]; intros tr result Hres H;
    cbn [Round3.pb_loop] in H.
  - injection H as _ H. subst result'. exact Hres.
  - destruct (mem String.eqb Round3.pb_position_limits product) eqn:Em;
      [|apply (IH tr result Hres H)].
    destruct (Round3.pb_process_product sqrt_float tr product state)
      as [tr1 [orders|e]] eqn:Eo; [|discriminate].
    refine (IH tr1 _ _ H).
    destruct orders as [|o os]; cbn [truthy]; [exact Hres|].
    apply entries_set; [exact Hres|].
    apply (HQ tr tr1 product (o :: os) Em Eo). discriminate.
Qed.

Lemma round3_run_entries (Q : string -> list Order -> Prop) sqrt_float state
  tr tr' result c td :
  (forall tr0 product orders,
      In product (keys (order_depths state)) ->
      startswith product "VOLCANIC_ROCK_VOUCHER" = true ->
      Round3.vr_short_itm_voucher tr0 product state = Ok orders ->
      orders <> [] ->
      Q product orders) ->
  (forall tr0 tr1 product orders,
      mem String.eqb Round3.pb_position_limits product = true ->
      Round3.pb_process_product sqrt_float tr0 product state
      = (tr1, Ok orders) ->
      orders <> [] ->
      Q product orders) ->
  Round3.run sqrt_float tr state = (tr', Ok (result, c, td)) ->
  entries Q result.
Proof.
  intros HV HP H. unfold Round3.run in H.
  destruct (Round3.voucher_loop _ state (keys (order_depths state)) [])
    as [result1|e] eqn:E1; [|discriminate].
  destruct (Round3.pb_loop sqrt_float _ state (keys (order_depths state))
              result1) as [tr3 [result'|e]] eqn:E2; [|discriminate].
  assert (Hr : result' = result) by congruence. subst result'.
  apply (pb_loop_entries Q sqrt_float state _ _ _ _ _ HP) in E2;
    [exact E2|].
  apply (voucher_loop_entries Q _ state _ _ _ (HV _) (entries_nil Q) E1).
Qed.

Lemma threshold_orders_take_quotes z product order_depth L p :
  one_sided order_depth = false ->
  Forall (takes_quote product order_depth)
    (threshold_orders z product order_depth L p).
Proof.
  intros Htwo. unfold one_sided in Htwo. apply orb_false_iff in Htwo.
  destruct Htwo as [Hb Ha]. apply negb_false_iff in Hb, Ha.
  assert (Hbid : In (best_bid_of order_depth) (keys (buy_orders order_depth))).
  { apply max_list_In. destruct (buy_orders order_depth); discriminate. }
  assert (Hask : In (best_ask_of order_depth) (keys (sell_orders order_depth))).
  { apply min_list_In. destruct (sell_orders order_depth); discriminate. }
  unfold threshold_orders, max_trade_size.
  destruct (Qltb std_threshold z).
  - destruct (0 <? Z.min 10 (L + p)) eqn:Ev; [|constructor].
    apply Z.ltb_lt in Ev. constructor; [|constructor].
    split; [reflexivity|]. right. cbn [quantity price]. split; [lia|exact Hbid].
  - destruct (Qltb z (- std_threshold)); [|constructor].
    destruct (0 <? Z.min 10 (L - p)) eqn:Ev; [|constructor].
    apply Z.ltb_lt in Ev. constructor; [|constructor].
    split; [reflexivity|]. left. cbn [quantity price]. split; [lia|exact Hask].
Qed.

Lemma strategy_orders_take_quotes state product order_depth L orders :
  wf_depth order_depth ->
  strategy_orders state product order_depth L orders ->
  Forall (takes_quote product order_depth) orders.
Proof.
  intros Hwf Hs. destruct Hs as [|F|z Htwo].
  - constructor.
  - eapply Forall_impl; [|apply book_walk_fills; exact Hwf].
    intros o (Hsym & [(Hq & _ & v & Hin & _)|(Hq & _ & v & Hin & _)]).
    + split; [exact Hsym|]. left. split; [exact Hq|].
      apply (In_keys _ _ _ Hin).
    + split; [exact Hsym|]. right. split; [exact Hq|].
      apply (In_keys _ _ _ Hin).
  - apply threshold_orders_take_quotes. exact Htwo.
Qed.

(** X12.  Every order that a tick returns for a product other than a voucher
    takes a quote of the product's own book, when that book is a book of the
    data model: the order is listed under its own product, it is a buy at
    the price of an ask level or a sell at the price of a bid level, and its
    quantity is not zero.  This holds for the three traders. *)
Theorem X12_orders_take_quotes :
  forall (sqrt_float : Q -> Q) (state : TradingState) (product : string)
         (order_depth : OrderDepth) (orders : list Order),
    get String.eqb (order_depths state) product = Some order_depth ->
    wf_depth order_depth ->
    (forall result c td,
        Round1.run state = Ok (result, c, td) ->
        get String.eqb result product = Some orders ->
        Forall (takes_quote product order_depth) orders)
    /\ (forall tr tr' result c td,
           Round2.run sqrt_float tr state = (tr', Ok (result, c, td)) ->
           get String.eqb result product = Some orders ->
           Forall (takes_quote product order_depth) orders)
    /\ (forall tr tr' result c td,
           startswith product "VOLCANIC_ROCK_VOUCHER" = false ->
           Round3.run sqrt_float tr state = (tr', Ok (result, c, td)) ->
           get String.eqb result product = Some orders ->
           Forall (takes_quote product order_depth) orders).
Proof.
  intros sqrt_float state product od orders Hod Hwf.
  set (Q := fun (p : string) (os : list Order) =>
              forall d, get String.eqb (order_depths state) p = Some d ->
                        wf_depth d -> Forall (takes_quote p d) os).
  assert (HQ : forall p d L os,
             get String.eqb (order_depths state) p = Some d ->
             strategy_orders state p d L os -> Q p os).
  { intros p d L os Hd Hs d' Hd' Hwf'.
    rewrite Hd in Hd'. apply Some_inj in Hd'. subst d'.
    apply (strategy_orders_take_quotes state p d L os Hwf' Hs). }
  split; [|split].
  - intros result c td Hrun Hget.
    apply (round1_run_entries Q state result c td) in Hrun.
    + apply (Hrun product orders Hget od Hod Hwf).
    + intros p d L os Hd _ Hs _. apply (HQ p d L os Hd Hs).
  - intros tr tr' result c td Hrun Hget.
    apply (round2_run_entries Q sqrt_float state tr tr' result c td) in Hrun.
    + apply (Hrun product orders Hget od Hod Hwf).
    + intros p d L os Hd _ Hs _. apply (HQ p d L os Hd Hs).
  - intros tr tr' result c td Hv Hrun Hget.
    apply (round3_run_entries
             (fun p os => startswith p "VOLCANIC_ROCK_VOUCHER" = false ->
                          Q p os)
             sqrt_float state tr tr' result c td) in Hrun.
    + apply (Hrun product orders Hget Hv od Hod Hwf).
    + intros tr0 p os _ Hp _ _ Hnp. congruence.
    + intros tr0 tr1 p os _ Hp _ _.
      destruct (pb_process_product_strategy sqrt_float tr0 p state tr1 os Hp)
        as (d & L & Hd & _ & Hs & _).
      apply (HQ p d L os Hd Hs).
Qed.

Lemma X12_witness :
  Forall (takes_quote "KELP" small_book)
    [mkOrder "KELP" 99 (-5); mkOrder "KELP" 98 (-5)].
Proof.
  eapply (proj1 (proj2 (X12_orders_take_quotes sqrt_milli tick_mixed "KELP"
                          small_book _ eq_refl small_book_wf))
            Round2.init).
  - vm_compute. reflexivity.
  - reflexivity.
Defined.

(** X13.  The output mapping of round 3 holds no empty order list, and its
    products are products of the snapshot that are vouchers or one of
    RAINFOREST_RESIN, KELP and CROISSANTS: round 3 never returns an order
    for PICNIC_BASKET1 or PICNIC_BASKET2.  In round 2 the products other
    than RAINFOREST_RESIN, KELP and CROISSANTS, the two baskets among them,
    are listed with an empty order list only. *)
Theorem X13_products_traded :
  forall (sqrt_float : Q -> Q) (state : TradingState) (product : string)
         (orders : list Order),
    (forall tr tr' result c td,
        Round3.run sqrt_float tr state = (tr', Ok (result, c, td)) ->
        get String.eqb result product = Some orders ->
        orders <> []
        /\ In product (keys (order_depths state))
        /\ (startswith product "VOLCANIC_ROCK_VOUCHER" = true
            \/ product = "RAINFOREST_RESIN" \/ product = "KELP"
            \/ product = "CROISSANTS"))
    /\ (forall tr tr' result c td,
           Round2.run sqrt_float tr state = (tr', Ok (result, c, td)) ->
           get String.eqb result product = Some orders ->
           orders <> [] ->
           product = "RAINFOREST_RESIN" \/ product = "KELP"
           \/ product = "CROISSANTS").
Proof.
  intros sqrt_float state product orders. split.
  - intros tr tr' result c td Hrun Hget.
    apply (round3_run_entries
             (fun p os =>
                os <> []
                /\ In p (keys (order_depths state))
                /\ (startswith p "VOLCANIC_ROCK_VOUCHER" = true
                    \/ p = "RAINFOREST_RESIN" \/ p = "KELP"
                    \/ p = "CROISSANTS"))
             sqrt_float state tr tr' result c td) in Hrun.
    + apply (Hrun product orders Hget).
    + intros tr0 p os Hin Hv _ Hne. auto.
    + intros tr0 tr1 p os _ Hp Hne.
      destruct (pb_process_product_strategy sqrt_float tr0 p state tr1 os Hp)
        as (d & L & Hd & _ & _ & Hk).
      destruct (Hk Hne) as [_ Hprod]. split; [exact Hne|].
      split; [apply (get_keys_In _ _ _ Hd)|]. right. exact Hprod.
  - intros tr tr' result c td Hrun Hget Hne.
    apply (round2_run_entries
             (fun p os => os <> [] ->
                          p = "RAINFOREST_RESIN" \/ p = "KELP"
                          \/ p = "CROISSANTS")
             sqrt_float state tr tr' result c td) in Hrun.
    + apply (Hrun product orders Hget Hne).
    + intros p d L os _ _ _ Hk Hos. apply (Hk Hos).
Qed.

Lemma X13_witness :
  [mkOrder "KELP" 99 (-5); mkOrder "KELP" 98 (-5)] <> []
  /\ In "KELP" (keys (order_depths tick_mixed))
  /\ (startswith "KELP" "VOLCANIC_ROCK_VOUCHER" = true
      \/ "KELP" = "RAINFOREST_RESIN" \/ "KELP" = "KELP"
      \/ "KELP" = "CROISSANTS").
Proof.
  eapply (proj1 (X13_products_traded sqrt_milli tick_mixed "KELP" _)
            Round3.init).
  - vm_compute. reflexivity.
  - reflexivity.
Defined.

(** ** When a tick raises *)






Lemma for_each_raises {A S : Type} (body : S -> A -> res S) l s a :
  In a l ->
  (forall s0, exists e, body s0 a = Raise e) ->
  exists e, for_each body l s = Raise e.
Proof.
  intros Hin Hbad. revert s.
  induction l as [|b l IH]; intros s; [destruct Hin|].
  cbn [for_each]. destruct (body s b) as [s'|e] eqn:E; [|eauto].
  destruct Hin as [->|Hin].
  - destruct (Hbad s) as [e He]. congruence.
  - apply (IH Hin).
Qed.

(** X15.  Round 1 has no guard for products without a position limit: a
    snapshot that holds such a product makes the tick raise, whatever the
    blob and the other products.  When the product is the first of the
    snapshot and the blob decodes, the exception is [KeyError]. *)
Theorem X15_round1_unconfigured_product :
  forall (state : TradingState) (product : string),
    In product (keys (order_depths state)) ->
    get String.eqb Round1.position_limits product = None ->
    (exists e, Round1.run state = Raise e)
    /\ (traderData state <> BlobUndecodable ->
        (exists rest, keys (order_depths state) = product :: rest) ->
        Round1.run state = Raise KeyError).
Proof.
  intros state product Hin HL.
  assert (Hstep : forall st, Round1.process_product state st product
                             = Raise KeyError).
  { intros [ph result]. unfold Round1.process_product. rewrite HL.
    destruct (get String.eqb (order_depths state) product); reflexivity. }
  split.
  - unfold Round1.run.
    destruct (match traderData state with
              | BlobEmpty => Ok (VDict [])
              | BlobUndecodable => Raise JSONDecodeError
              | BlobValue v => Ok v
              end) as [ph|e]; cbn [Py.bind]; [|eauto].
    destruct (for_each_raises (Round1.process_product state)
                (keys (order_depths state)) (ph, []) product Hin)
      as [e He].
    + intros st. exists KeyError. apply Hstep.
    + rewrite He. cbn [Py.bind]. eauto.
  - intros Hblob [rest Hkeys]. unfold Round1.run. rewrite Hkeys.
    destruct (traderData state) as [| |v]; [|congruence|];
      cbn [Py.bind for_each]; rewrite Hstep; reflexivity.
Qed.

Lemma X15_witness :
  Round1.run tick_basket2 = Raise KeyError.
Proof.
  apply (proj2 (X15_round1_unconfigured_product tick_basket2 "CROISSANTS"
                  (or_introl eq_refl) eq_refl)).
  - discriminate.
  - eexists. reflexivity.
Defined.

(** ** The blob and a trader object that lives on *)

Lemma set_same {V : Type} (d : list (string * V)) k v :
  get String.eqb d k = Some v -> set String.eqb d k v = d.
Proof.
  induction d as [|[k' v'] d IH]; cbn [get set]; [discriminate|].
  destruct (String.eqb k' k); intros H.
  - apply Some_inj in H. subst v'. reflexivity.
  - rewrite (IH H). reflexivity.
Qed.

Lemma update_absorb {V : Type} (a b : list (string * V)) :
  (forall k v, In (k, v) b -> get String.eqb a k = Some v) ->
  update String.eqb a b = a.
Proof.
  unfold update. induction b as [|[k v] b IH]; intros H; cbn [fold_left fst snd];
    [reflexivity|].
  rewrite (set_same a k v (H k v (or_introl eq_refl))).
  apply IH. intros k' v' Hin. apply H. right. exact Hin.
Qed.

Lemma update_self {V : Type} (a : list (string * V)) :
  NoDup (keys a) -> update String.eqb a a = a.
Proof.
  intros Hnd. apply update_absorb. intros k v Hin.
  apply (In_get String.eqb string_eqb_iff a k v Hnd Hin).
Qed.

(** X20.  For a round-3 trader object that lives on after a tick that
    returned under the protocol of the exchange, the blob of the next tick
    is redundant: restoring the blob that the object has just returned
    leaves [trader_data] as it is, and the next tick runs as it would on an
    empty blob. *)
Theorem X20_blob_redundant_for_live_object :
  forall (sqrt_float : Q -> Q) (tr tr' : Round3.Trader)
         (state state' : TradingState) (result : Result) (c : Z) (v : value),
    served sqrt_float tr (traderData state) ->
    Round3.run sqrt_float tr state = (tr', Ok (result, c, v)) ->
    traderData state' = BlobValue v ->
    restore (Round3.trader_data tr') (traderData state')
    = Round3.trader_data tr'
    /\ Round3.run sqrt_float tr' state'
       = Round3.run sqrt_float tr' (with_blob state' BlobEmpty).
Proof.
  intros sqrt_float tr tr' state state' result c v Hserved Hrun Hblob.
  destruct (served_plain sqrt_float tr _ Hserved) as [Hplain Hpb].
  destruct (round3_run_plain sqrt_float tr state tr' _ Hplain Hpb Hrun)
    as [_ Hv].
  destruct (Hv result c v eq_refl) as (-> & es & Hnd & Htd).
  assert (Hrestore : restore (Round3.trader_data tr') (traderData state')
                     = Round3.trader_data tr').
  { rewrite Hblob, Htd, restore_plain, (update_self es Hnd). reflexivity. }
  split; [exact Hrestore|].
  rewrite (round3_run_restored sqrt_float tr' state'), Hrestore.
  destruct tr' as [p lp h dp td]. reflexivity.
Qed.

Lemma X20_witness :
  Round3.run sqrt_milli (fst (Round3.run sqrt_milli Round3.init tick_first))
    tick_second
  = Round3.run sqrt_milli (fst (Round3.run sqrt_milli Round3.init tick_first))
      (with_blob tick_second BlobEmpty).
Proof.
  refine (proj2 (X20_blob_redundant_for_live_object sqrt_milli Round3.init
                   (fst (Round3.run sqrt_milli Round3.init tick_first))
                   tick_first tick_second _ _ blob_after_first
                   _ _ eq_refl)).
  - change (traderData tick_first) with BlobEmpty. apply served_start.
  - vm_compute. reflexivity.
Defined.

(** ** The book statistics of round 2 *)

Lemma two_sided_nonempty order_depth :
  one_sided order_depth = false ->
  buy_orders order_depth <> [] /\ sell_orders order_depth <> [].
Proof.
  unfold one_sided. intros H. apply orb_false_iff in H.
  destruct H as [Hb Ha]. apply negb_false_iff in Hb, Ha.
  split; intros E; rewrite E in *; discriminate.
Qed.

Lemma keys_nonempty {K V : Type} (d : list (K * V)) : d <> [] -> keys d <> [].
Proof. destruct d; [congruence|discriminate]. Qed.

Lemma values_nonempty {K V : Type} (d : list (K * V)) :
  d <> [] -> values d <> [].
Proof. destruct d; [congruence|discriminate]. Qed.

Lemma In_values {K V : Type} (d : list (K * V)) k v :
  In (k, v) d -> In v (values d).
Proof. intros H. unfold values. apply (in_map snd d (k, v) H). Qed.

Lemma In_values_exists {K V : Type} (d : list (K * V)) v :
  In v (values d) -> exists k, In (k, v) d.
Proof.
  unfold values. rewrite in_map_iff. intros [[k v'] [Hv Hin]].
  cbn [snd] in Hv. subst v'. eauto.
Qed.

(** X16.  [calculate_spread_stats] returns [None] exactly on a book with an
    empty side.  On a book with both sides it returns the difference
    between an ask price and a bid price of the book that is the least of
    all such differences: the lowest ask minus the highest bid.  The mid
    price of the book is the highest bid plus half of it. *)
Theorem X16_spread_is_least_difference :
  forall (order_depth : OrderDepth),
    (Round2.calculate_spread_stats order_depth = None
     <-> buy_orders order_depth = [] \/ sell_orders order_depth = [])
    /\ (forall s,
           Round2.calculate_spread_stats order_depth = Some s ->
           (exists a b va vb,
               In (a, va) (sell_orders order_depth)
               /\ In (b, vb) (buy_orders order_depth)
               /\ s = a - b)
           /\ (forall a b va vb,
                  In (a, va) (sell_orders order_depth) ->
                  In (b, vb) (buy_orders order_depth) ->
                  s <= a - b)
           /\ (mid_price_of order_depth
               == inject_Z (best_bid_of order_depth) + inject_Z s / 2)%Q).
Proof.
  intros od. unfold Round2.calculate_spread_stats. split.
  - rewrite <- one_sided_iff.
    destruct (one_sided od); split; intros H; try reflexivity;
      try discriminate.
  - intros s H. destruct (one_sided od) eqn:E; [discriminate|].
    apply Some_inj in H. subst s.
    destruct (two_sided_nonempty od E) as [Hb Ha].
    split; [|split].
    + destruct (In_keys_exists _ _
                  (min_list_In _ (keys_nonempty _ Ha))) as [va Hva].
      destruct (In_keys_exists _ _
                  (max_list_In _ (keys_nonempty _ Hb))) as [vb Hvb].
      eauto 10.
    + intros a b va vb Hina Hinb.
      pose proof (min_list_le _ _ (In_keys _ _ _ Hina)).
      pose proof (max_list_ge _ _ (In_keys _ _ _ Hinb)).
      lia.
    + unfold mid_price_of, best_bid_of, best_ask_of.
      set (b := max_list (keys (buy_orders od))).
      set (a := min_list (keys (sell_orders od))).
      unfold Zminus. rewrite !inject_Z_plus, inject_Z_opp. field.
Qed.

Lemma X16_witness :
  (exists a b va vb,
      In (a, va) (sell_orders small_book)
      /\ In (b, vb) (buy_orders small_book)
      /\ 2 = a - b)
  /\ (forall a b va vb,
         In (a, va) (sell_orders small_book) ->
         In (b, vb) (buy_orders small_book) ->
         2 <= a - b)
  /\ (mid_price_of small_book
      == inject_Z (best_bid_of small_book) + inject_Z 2 / 2)%Q.
Proof.
  apply (proj2 (X16_spread_is_least_difference small_book) 2).
  reflexivity.
Defined.

(** X17.  [calculate_liquidity] returns 0 on a book with an empty side.  On
    a book of the data model with both sides it is positive: it is the
    smaller of the largest bid volume and the largest ask volume, each
    attained at a level of the book. *)
Theorem X17_liquidity_is_smaller_top_volume :
  forall (order_depth : OrderDepth),
    (buy_orders order_depth = [] \/ sell_orders order_depth = [] ->
     Round2.calculate_liquidity order_depth = 0)
    /\ (wf_depth order_depth ->
        buy_orders order_depth <> [] -> sell_orders order_depth <> [] ->
        exists b vb a va,
          In (b, vb) (buy_orders order_depth)
          /\ (forall b' v, In (b', v) (buy_orders order_depth) -> v <= vb)
          /\ In (a, va) (sell_orders order_depth)
          /\ (forall a' v, In (a', v) (sell_orders order_depth) ->
                           - v <= - va)
          /\ Round2.calculate_liquidity order_depth = Z.min vb (- va)
          /\ 0 < Round2.calculate_liquidity order_depth).
Proof.
  intros od. unfold Round2.calculate_liquidity. split.
  - intros H. apply one_sided_iff in H. rewrite H. reflexivity.
  - intros (Hb & Ha & _ & _) Hnb Hna.
    assert (E : one_sided od = false).
    { destruct (one_sided od) eqn:E; [|reflexivity].
      apply one_sided_iff in E. tauto. }
    rewrite E.
    destruct (In_values_exists _ _
                (max_list_In _ (values_nonempty _ Hnb))) as [b Hinb].
    destruct (In_values_exists _ _
                (min_list_In _ (values_nonempty _ Hna))) as [a Hina].
    set (vb := max_list (values (buy_orders od))) in *.
    set (va := min_list (values (sell_orders od))) in *.
    assert (Hvb : 0 < vb).
    { rewrite Forall_forall in Hb. apply (Hb (b, vb) Hinb). }
    assert (Hva : va < 0).
    { rewrite Forall_forall in Ha. apply (Ha (a, va) Hina). }
    exists b, vb, a, va.
    split; [exact Hinb|]. split.
    { intros b' v Hin. apply max_list_ge. apply (In_values _ _ _ Hin). }
    split; [exact Hina|]. split.
    { intros a' v Hin.
      pose proof (min_list_le _ _ (In_values _ _ _ Hin)). fold va in H. lia. }
    rewrite (Z.abs_neq va) by lia. split; [reflexivity|lia].
Qed.

Lemma X17_witness :
  exists b vb a va,
    In (b, vb) (buy_orders crossed_book)
    /\ (forall b' v, In (b', v) (buy_orders crossed_book) -> v <= vb)
    /\ In (a, va) (sell_orders crossed_book)
    /\ (forall a' v, In (a', v) (sell_orders crossed_book) -> - v <= - va)
    /\ Round2.calculate_liquidity crossed_book = Z.min vb (- va)
    /\ 0 < Round2.calculate_liquidity crossed_book.
Proof.
  apply (proj2 (X17_liquidity_is_smaller_top_volume crossed_book)
           crossed_book_wf).
  - discriminate.
  - discriminate.
Defined.

Lemma numbers_app_none l l' : numbers l = None -> numbers (l ++ l') = None.
Proof.
  induction l as [|v l IH]; cbn [numbers app]; [discriminate|].
  destruct (num_of v); [|reflexivity].
  destruct (numbers l); [discriminate|].
  intros _. rewrite IH; reflexivity.
Qed.

(** X18.  [update_dynamic_buffers] on the edges.  A product without a
    spread history raises [KeyError] and leaves the object as it is.  While
    the history holds fewer than 4 spreads, the call only appends the
    spread: it returns whatever the history holds and whether or not the
    product has buffer parameters, and the parameters are unchanged.  With 4
    to 19 stored entries of which one is not a number, the call raises
    [TypeError] for a product with buffer parameters, after the history has
    been extended and with the parameters unchanged. *)
Theorem X18_update_dynamic_buffers_edges :
  forall (tr : Round2.Trader) (product : string) (spread : Q)
         (sh : list (value * value)),
    get key_eqb (Round2.trader_data tr) (VStr "spread_history")
    = Some (VDict sh) ->
    let extended h :=
      Round2.set_trader_data tr
        (set key_eqb (Round2.trader_data tr) (VStr "spread_history")
           (VDict (set key_eqb sh (VStr product)
                     (VList (h ++ [VFloat spread]))))) in
    (get key_eqb sh (VStr product) = None ->
     Round2.update_dynamic_buffers tr product spread = (tr, Raise KeyError))
    /\ (forall h,
           get key_eqb sh (VStr product) = Some (VList h) ->
           (List.length h < 4)%nat ->
           Round2.update_dynamic_buffers tr product spread
           = (extended h, Ok tt))
    /\ (forall h params,
           get key_eqb sh (VStr product) = Some (VList h) ->
           get String.eqb (Round2.dynamic_params tr) product = Some params ->
           (4 <= List.length h < 20)%nat ->
           numbers h = None ->
           Round2.update_dynamic_buffers tr product spread
           = (extended h, Raise TypeError)).
Proof.
  intros tr product spread sh Hsh extended. split; [|split].
  - intros Hnone. unfold Round2.update_dynamic_buffers.
    rewrite Hsh, Hnone. reflexivity.
  - intros h Hh Hlen. unfold Round2.update_dynamic_buffers.
    rewrite Hsh, Hh. cbv zeta.
    assert (E20 : (20 <? List.length (h ++ [VFloat spread]))%nat = false).
    { apply Nat.ltb_ge. rewrite length_app. cbn [List.length]. lia. }
    rewrite E20.
    assert (E5 : (5 <=? List.length (h ++ [VFloat spread]))%nat = false).
    { apply Nat.leb_gt. rewrite length_app. cbn [List.length]. lia. }
    rewrite E5. reflexivity.
  - intros h params Hh Hp Hlen Hnum. unfold Round2.update_dynamic_buffers.
    rewrite Hsh, Hh. cbv zeta.
    assert (E20 : (20 <? List.length (h ++ [VFloat spread]))%nat = false).
    { apply Nat.ltb_ge. rewrite length_app. cbn [List.length]. lia. }
    rewrite E20.
    assert (E5 : (5 <=? List.length (h ++ [VFloat spread]))%nat = true).
    { apply Nat.leb_le. rewrite length_app. cbn [List.length]. lia. }
    rewrite E5. rewrite (numbers_app_none h _ Hnum). reflexivity.
Qed.

Lemma X18_witness :
  Round2.update_dynamic_buffers Round2.init "PICNIC_BASKET1" 2
  = (Round2.set_trader_data Round2.init
       (set key_eqb (Round2.trader_data Round2.init) (VStr "spread_history")
          (VDict (set key_eqb empty_spread_history (VStr "PICNIC_BASKET1")
                    (VList [VFloat 2])))),
     Ok tt).
Proof.
  apply (proj1 (proj2 (X18_update_dynamic_buffers_edges Round2.init
                         "PICNIC_BASKET1" 2 empty_spread_history eq_refl))
           []).
  - reflexivity.
  - cbn [List.length]. lia.
Defined.

(** ** SQUID_INK in round 1 *)

(** X19.  Round 1 tracks SQUID_INK and never trades it: when the tick
    returns and the snapshot quotes SQUID_INK, the output mapping lists it
    with an empty order list, whatever its book, its history and the
    position; its mid price is recorded all the same when the book has both
    sides and no history is stored yet. *)
Theorem X19_squid_ink_never_traded :
  forall (state : TradingState),
    (forall result c td,
        Round1.run state = Ok (result, c, td) ->
        NoDup (keys (order_depths state)) ->
        In "SQUID_INK" (keys (order_depths state)) ->
        get String.eqb result "SQUID_INK" = Some [])
    /\ (forall ph result order_depth,
           get String.eqb (order_depths state) "SQUID_INK"
           = Some order_depth ->
           one_sided order_depth = false ->
           get key_eqb ph (VStr "SQUID_INK") = None ->
           Round1.process_product state (VDict ph, result) "SQUID_INK"
           = Ok (VDict (set key_eqb ph (VStr "SQUID_INK")
                          (VList [VFloat (mid_price_of order_depth)])),
                 set String.eqb result "SQUID_INK" [])).
Proof.
  intros state. split.
  - intros result c td Hrun Hnd Hin.
    pose proof (round1_run_entries
                  (fun p os => p = "SQUID_INK" -> os = [])
                  state result c td) as Hent.
    assert (Hkeys : keys result = keys (order_depths state)).
    { unfold Round1.run in Hrun.
      destruct (match traderData state with
                | BlobEmpty => Ok (VDict [])
                | BlobUndecodable => Raise JSONDecodeError
                | BlobValue v => Ok v
                end) as [ph|e]; cbn [Py.bind] in Hrun; [|discriminate].
      destruct (for_each (Round1.process_product state)
                  (keys (order_depths state)) (ph, []))
        as [[ph' result']|e] eqn:E; cbn [Py.bind] in Hrun; [|discriminate].
      apply Ok_inj in Hrun.
      assert (Hr : result' = result) by congruence. subst result'.
      destruct (round1_loop_keys state _ _ _ E Hnd) as [Hk _].
      exact Hk. }
    rewrite <- Hkeys in Hin.
    destruct (In_keys_get result "SQUID_INK" Hin) as [os Hos].
    rewrite Hos. f_equal.
    apply (Hent ltac:(intros p d L os' _ _ _ Hsq; exact Hsq) Hrun
             "SQUID_INK" os Hos eq_refl).
  - intros ph result od Hod Htwo Hget. unfold Round1.process_product.
    rewrite Hod.
    change (get String.eqb Round1.position_limits "SQUID_INK")
      with (Some 50).
    cbv beta iota. unfold Round1.fair_price_of. rewrite Htwo.
    rewrite (push_mid_fresh ph "SQUID_INK" _ Hget).
    rewrite get_set_str_same.
    destruct (average_one (mid_price_of od)) as (F & HF & _).
    rewrite HF. reflexivity.
Qed.

Lemma X19_witness :
  get String.eqb [("SQUID_INK", []); ("KELP", [])] "SQUID_INK"
  = Some ([] : list Order).
Proof.
  eapply (proj1 (X19_squid_ink_never_traded tick_squid_ink)).
  - vm_compute. reflexivity.
  - cbn [tick_squid_ink order_depths keys map fst]. solve_nodup.
  - left. reflexivity.
Defined.

(** ** Round 2 under the protocol of the exchange *)

Lemma restore_round2 t es t' es' :
  restore (round2_trader_data t es)
    (BlobValue (VDict (round2_trader_data t' es')))
  = round2_trader_data t' (update String.eqb es es').
Proof.
  unfold restore, try_merge, round2_trader_data.
  cbn [iter keys map fst merge_keys merge_key hashable negb get key_eqb
       String.eqb Ascii.eqb Bool.eqb loaded_item dict_update set fst snd].
  rewrite update_encode. reflexivity.
Qed.

Lemma restore_is_round2 td b :
  is_round2_data td -> round2_blob b -> is_round2_data (restore td b).
Proof.
  intros (t & es & Hnd & ->) [->|(td' & (t' & es' & Hnd' & ->) & ->)].
  - exists t, es. split; [exact Hnd|reflexivity].
  - rewrite restore_round2. exists t', (update String.eqb es es').
    split; [|reflexivity]. apply update_nodup. exact Hnd.
Qed.

Lemma mean_reversion_round2 t es product order_depth L p :
  exists F,
    mean_reversion (round2_trader_data t es) product order_depth L p
    = (round2_trader_data t
         (push_price es product (mid_price_of order_depth)),
       Ok (book_walk product F L p order_depth)).
Proof.
  unfold mean_reversion.
  change (get key_eqb (round2_trader_data t es) (VStr "price_history"))
    with (Some (VDict (encode_history es))).
  cbv beta iota. rewrite push_mid_encode.
  change (set key_eqb (round2_trader_data t es) (VStr "price_history")
            (VDict (encode_history
                      (push_price es product (mid_price_of order_depth)))))
    with (round2_trader_data t
            (push_price es product (mid_price_of order_depth))).
  rewrite get_encode.
  destruct (push_price_get es product (mid_price_of order_depth))
    as (h & Hget & Hlen).
  rewrite Hget. cbn [option_map].
  destruct (average_floats h Hlen) as [F HF]. rewrite HF. cbn [Py.bind].
  exists F. reflexivity.
Qed.

Lemma round2_process_product_plain sqrt_float state tr result product t es :
  Round2.trader_data tr = round2_trader_data t es ->
  NoDup (keys es) ->
  In product (keys (order_depths state)) ->
  exists tr' result' es',
    Round2.process_product sqrt_float state (tr, result) product
    = (tr', Ok result')
    /\ Round2.trader_data tr' = round2_trader_data t es'
    /\ NoDup (keys es').
Proof.
  intros Htd Hnd Hin. unfold Round2.process_product.
  destruct (get String.eqb Round2.POSITION_LIMITS product) as [L|].
  2:{ exists tr, result, es. auto. }
  destruct (In_keys_get _ _ Hin) as [od Hod]. rewrite Hod.
  destruct (one_sided od).
  { eexists tr, _, es. auto. }
  destruct (String.eqb product "RAINFOREST_RESIN" || String.eqb product "KELP").
  { rewrite Htd.
    destruct (mean_reversion_round2 t es product od L
                (position_of state product)) as [F HF].
    rewrite HF. eexists. eexists. eexists.
    split; [reflexivity|].
    cbn [Round2.set_trader_data Round2.trader_data].
    split; [reflexivity|]. apply push_price_nodup. exact Hnd. }
  destruct (String.eqb product "CROISSANTS").
  { eexists. eexists. exists es. split; [reflexivity|].
    cbn [Round2.update_croissant_history Round2.set_croissant_history
         Round2.trader_data].
    auto. }
  eexists tr, _, es. auto.
Qed.

Lemma round2_product_loop_plain sqrt_float state products tr result t es :
  Round2.trader_data tr = round2_trader_data t es ->
  NoDup (keys es) ->
  incl products (keys (order_depths state)) ->
  exists tr' result' es',
    Round2.product_loop sqrt_float state products (tr, result)
    = (tr', Ok result')
    /\ Round2.trader_data tr' = round2_trader_data t es'
    /\ NoDup (keys es').
Proof.
  revert tr result es. induction products as [|product rest IH];
    intros tr result es Htd Hnd Hincl; cbn [Round2.product_loop].
  - exists tr, result, es. auto.
  - assert (Hrest : incl rest (keys (order_depths state))).
    { intros x Hx. apply Hincl. right. exact Hx. }
    destruct (round2_process_product_plain sqrt_float state tr result product
                t es Htd Hnd (Hincl product (or_introl eq_refl)))
      as (tr1 & result1 & es1 & Hp & Htd1 & Hnd1).
    rewrite Hp. apply (IH tr1 result1 es1 Htd1 Hnd1 Hrest).
Qed.

Lemma round2_run_plain sqrt_float tr state :
  is_round2_data (Round2.trader_data tr) ->
  round2_blob (traderData state) ->
  exists tr' result es,
    Round2.run sqrt_float tr state
    = (tr', Ok (result, 0, VDict (Round2.trader_data tr')))
    /\ NoDup (keys es)
    /\ Round2.trader_data tr' = round2_trader_data (timestamp state) es.
Proof.
  intros Hplain Hblob. unfold Round2.run. cbv zeta.
  pose proof (restore_is_round2 _ _ Hplain Hblob) as (t & es & Hnd & Htd).
  destruct (round2_product_loop_plain sqrt_float state
              (keys (order_depths state))
              (Round2.set_trader_data tr
                 (restore (Round2.trader_data tr) (traderData state)))
              [] t es Htd Hnd (incl_refl _))
    as (tr2 & result2 & es2 & Hl & Htd2 & Hnd2).
  match goal with
  | |- context [Round2.product_loop ?a ?b ?c ?d] =>
      replace (Round2.product_loop a b c d) with (tr2, Ok result2)
        by (symmetry; exact Hl)
  end.
  eexists. exists result2, es2.
  split; [reflexivity|]. split; [exact Hnd2|].
  cbn [Round2.set_trader_data Round2.trader_data]. rewrite Htd2.
  reflexivity.
Qed.

Lemma served2_plain sqrt_float tr b :
  served2 sqrt_float tr b ->
  is_round2_data (Round2.trader_data tr) /\ round2_blob b.
Proof.
  induction 1 as [|tr state tr' result c v _ [IHt IHb] Hrun
                  |tr state tr' e _ [IHt IHb] Hrun
                  |tr b _ [IHt IHb]].
  - split; [|left; reflexivity].
    exists 0, []. split; [constructor|reflexivity].
  - destruct (round2_run_plain sqrt_float tr state IHt IHb)
      as (tr1 & result1 & es & Hr & Hnd & Htd).
    rewrite Hr in Hrun. injection Hrun as <- _ _ <-.
    assert (Hp : is_round2_data (Round2.trader_data tr1)).
    { exists (timestamp state), es. auto. }
    split; [exact Hp|]. right. exists (Round2.trader_data tr1). auto.
  - destruct (round2_run_plain sqrt_float tr state IHt IHb)
      as (tr1 & result1 & es & Hr & _).
    rewrite Hr in Hrun. discriminate.
  - split; [|exact IHb].
    exists 0, []. split; [constructor|reflexivity].
Qed.

(** X21.  Under the protocol of the exchange a tick of round 2 never
    raises.  The blob it returns is the serialization of [trader_data]:
    the timestamp of the tick, float price histories under distinct
    products, and the spread histories and open positions still as the
    constructor made them.  Restoring that blob into a fresh trader
    reproduces [trader_data] exactly; the rolling z-score window and the
    buffer parameters are not in the blob and restart as the constructor
    sets them. *)
Theorem X21_round2_state_round_trip :
  forall (sqrt_float : Q -> Q) (tr : Round2.Trader) (state : TradingState),
    served2 sqrt_float tr (traderData state) ->
    exists tr' result es,
      Round2.run sqrt_float tr state
      = (tr', Ok (result, 0, VDict (Round2.trader_data tr')))
      /\ NoDup (keys es)
      /\ Round2.trader_data tr' = round2_trader_data (timestamp state) es
      /\ Round2.set_trader_data Round2.init
           (restore (Round2.trader_data Round2.init)
              (BlobValue (VDict (Round2.trader_data tr'))))
         = Round2.mkTrader [] (Round2.trader_data tr')
             (Round2.dynamic_params Round2.init).
Proof.
  intros sqrt_float tr state Hserved.
  destruct (served2_plain sqrt_float tr _ Hserved) as [Hplain Hblob].
  destruct (round2_run_plain sqrt_float tr state Hplain Hblob)
    as (tr' & result & es & Hrun & Hnd & Htd).
  exists tr', result, es.
  split; [exact Hrun|]. split; [exact Hnd|]. split; [exact Htd|].
  rewrite Htd.
  change (Round2.trader_data Round2.init) with (round2_trader_data 0 []).
  rewrite restore_round2, (update_fresh [] es Hnd). reflexivity.
Qed.

Lemma X21_witness :
  exists tr' result es,
    Round2.run sqrt_milli Round2.init tick_first
    = (tr', Ok (result, 0, VDict (Round2.trader_data tr')))
    /\ NoDup (keys es)
    /\ Round2.trader_data tr' = round2_trader_data (timestamp tick_first) es
    /\ Round2.set_trader_data Round2.init
         (restore (Round2.trader_data Round2.init)
            (BlobValue (VDict (Round2.trader_data tr'))))
       = Round2.mkTrader [] (Round2.trader_data tr')
           (Round2.dynamic_params Round2.init).
Proof.
  apply (X21_round2_state_round_trip sqrt_milli Round2.init tick_first).
  change (traderData tick_first) with BlobEmpty. apply served2_start.
Defined.

(** ** What the restoration merges *)

Lemma get_update {V : Type} (a b : list (string * V)) k :
  NoDup (keys b) ->
  get String.eqb (update String.eqb a b) k
  = match get String.eqb b k with
    | Some v => Some v
    | None => get String.eqb a k
    end.
Proof.
  unfold update. revert a.
  induction b as [|[k0 v0] b IH]; intros a Hnd; cbn [fold_left fst snd get];
    [reflexivity|].
  cbn [keys map fst] in Hnd. inversion Hnd as [|? ? Hnot Hnd']; subst.
  rewrite (IH _ Hnd').
  destruct (String.eqb k0 k) eqn:E.
  - apply String.eqb_eq in E. subst k0.
    assert (Hb : get String.eqb b k = None)
      by (apply get_None_not_In; exact Hnot).
    rewrite Hb. apply (get_set_same String.eqb string_eqb_iff).
  - apply String.eqb_neq in E.
    destruct (get String.eqb b k); [reflexivity|].
    apply (get_set_other String.eqb string_eqb_iff). exact E.
Qed.

(** X22.  What the restoration of rounds 2 and 3 merges, on the state that
    the traders serialize: the timestamp of the blob replaces the one of the
    object, and the price histories are merged product by product: the
    history that the blob has for a product replaces the one of the object,
    and the histories of the object for the products that the blob lacks
    stay. *)
Theorem X22_restore_merges_per_product :
  forall (t t' : Z) (es es' : list (string * list Q)),
    NoDup (keys es') ->
    exists merged,
      restore (plain_trader_data t es)
        (BlobValue (VDict (plain_trader_data t' es')))
      = plain_trader_data t' merged
      /\ restore (round2_trader_data t es)
           (BlobValue (VDict (round2_trader_data t' es')))
         = round2_trader_data t' merged
      /\ forall product,
          get String.eqb merged product
          = match get String.eqb es' product with
            | Some h => Some h
            | None => get String.eqb es product
            end.
Proof.
  intros t t' es es' Hnd. exists (update String.eqb es es').
  split; [apply restore_plain|]. split; [apply restore_round2|].
  intros product. apply get_update. exact Hnd.
Qed.

Lemma X22_witness :
  exists merged,
    restore (plain_trader_data 0 [("KELP", [1%Q]); ("RAINFOREST_RESIN", [2%Q])])
      (BlobValue (VDict (plain_trader_data 5 [("KELP", [3%Q])])))
    = plain_trader_data 5 merged
    /\ restore (round2_trader_data 0
                  [("KELP", [1%Q]); ("RAINFOREST_RESIN", [2%Q])])
         (BlobValue (VDict (round2_trader_data 5 [("KELP", [3%Q])])))
       = round2_trader_data 5 merged
    /\ forall product,
        get String.eqb merged product
        = match get String.eqb [("KELP", [3%Q])] product with
          | Some h => Some h
          | None =>
              get String.eqb [("KELP", [1%Q]); ("RAINFOREST_RESIN", [2%Q])]
                product
          end.
Proof.
  apply (X22_restore_merges_per_product 0 5
           [("KELP", [1%Q]); ("RAINFOREST_RESIN", [2%Q])]
           [("KELP", [3%Q])]).
  cbn [keys map fst]. solve_nodup.
Defined.

(** ** The volume-weighted prices of round 2 *)

Lemma weighted_sum_bounds book lo hi :
  (forall pv, In pv book -> lo <= fst pv <= hi) ->
  lo * total_volume book <= weighted_sum book <= hi * total_volume book.
Proof.
  induction book as [|[p v] book IH]; intros H;
    cbn [weighted_sum total_volume fold_right fst snd].
  - lia.
  - fold (weighted_sum book). fold (total_volume book).
    assert (Hp : lo <= p <= hi) by (apply (H (p, v)); left; reflexivity).
    assert (Hrest : forall pv, In pv book -> lo <= fst pv <= hi).
    { intros pv Hin. apply H. right. exact Hin. }
    specialize (IH Hrest).
    pose proof (Z.abs_nonneg v). nia.
Qed.

Lemma spec_vwap_bounds book :
  Forall (fun pv => snd pv <> 0) book -> book <> [] ->
  (inject_Z (min_list (keys book)) <= spec_vwap book)%Q
  /\ (spec_vwap book <= inject_Z (max_list (keys book)))%Q.
Proof.
  intros Hnz Hne.
  pose proof (total_volume_pos book Hnz Hne) as Hpos.
  destruct (weighted_sum_bounds book (min_list (keys book))
              (max_list (keys book))) as [Hlo Hhi].
  { intros [p v] Hin. cbn [fst]. split.
    - apply min_list_le. apply (In_keys _ _ _ Hin).
    - apply max_list_ge. apply (In_keys _ _ _ Hin). }
  assert (HposQ : (0 < inject_Z (total_volume book))%Q).
  { change 0%Q with (inject_Z 0). rewrite <- Zlt_Qlt. exact Hpos. }
  unfold spec_vwap. split.
  - apply Qle_shift_div_l; [exact HposQ|].
    rewrite <- inject_Z_mult, <- Zle_Qle. exact Hlo.
  - apply Qle_shift_div_r; [exact HposQ|].
    rewrite <- inject_Z_mult, <- Zle_Qle. exact Hhi.
Qed.

(** X23.  On a side of a book of the data model that is not empty, the
    volume-weighted average price of [calculate_fair_value] is defined and
    lies between the lowest and the highest price of the side: the bid VWAP
    is at most the best bid and the ask VWAP at least the best ask, so that
    on a book that is not crossed the bid VWAP is at most the ask VWAP. *)
Theorem X23_vwap_within_side :
  forall (order_depth : OrderDepth),
    wf_depth order_depth ->
    buy_orders order_depth <> [] -> sell_orders order_depth <> [] ->
    exists bid_vwap ask_vwap,
      Round2.vwap (fun v => v) (buy_orders order_depth) = Ok bid_vwap
      /\ Round2.vwap Z.abs (sell_orders order_depth) = Ok ask_vwap
      /\ (inject_Z (min_list (keys (buy_orders order_depth))) <= bid_vwap)%Q
      /\ (bid_vwap <= inject_Z (best_bid_of order_depth))%Q
      /\ (inject_Z (best_ask_of order_depth) <= ask_vwap)%Q
      /\ (ask_vwap <= inject_Z (max_list (keys (sell_orders order_depth))))%Q
      /\ (best_bid_of order_depth <= best_ask_of order_depth ->
          (bid_vwap <= ask_vwap)%Q).
Proof.
  intros od (Hb & Ha & _ & _) Hnb Hna.
  assert (Hbnz : Forall (fun pv => snd pv <> 0) (buy_orders od)).
  { eapply Forall_impl; [|exact Hb]. intros pv H. cbv beta in H. lia. }
  assert (Hanz : Forall (fun pv => snd pv <> 0) (sell_orders od)).
  { eapply Forall_impl; [|exact Ha]. intros pv H. cbv beta in H. lia. }
  assert (Hbf : Forall (fun pv => snd pv = Z.abs (snd pv)) (buy_orders od)).
  { eapply Forall_impl; [|exact Hb]. intros pv H. cbv beta in H. lia. }
  assert (Haf : Forall (fun pv => Z.abs (snd pv) = Z.abs (snd pv))
                  (sell_orders od)).
  { apply Forall_forall. intros pv _. reflexivity. }
  exists (spec_vwap (buy_orders od)), (spec_vwap (sell_orders od)).
  split; [apply (vwap_spec (fun v => v) _ Hbf Hbnz Hnb)|].
  split; [apply (vwap_spec Z.abs _ Haf Hanz Hna)|].
  destruct (spec_vwap_bounds _ Hbnz Hnb) as [Hb1 Hb2].
  destruct (spec_vwap_bounds _ Hanz Hna) as [Ha1 Ha2].
  split; [exact Hb1|]. split; [exact Hb2|].
  split; [exact Ha1|]. split; [exact Ha2|].
  intros Hle. rewrite Zle_Qle in Hle.
  eapply Qle_trans; [exact Hb2|]. eapply Qle_trans; [exact Hle|exact Ha1].
Qed.

Lemma X23_witness :
  exists bid_vwap ask_vwap,
    Round2.vwap (fun v => v) (buy_orders small_book) = Ok bid_vwap
    /\ Round2.vwap Z.abs (sell_orders small_book) = Ok ask_vwap
    /\ (inject_Z (min_list (keys (buy_orders small_book))) <= bid_vwap)%Q
    /\ (bid_vwap <= inject_Z (best_bid_of small_book))%Q
    /\ (inject_Z (best_ask_of small_book) <= ask_vwap)%Q
    /\ (ask_vwap <= inject_Z (max_list (keys (sell_orders small_book))))%Q
    /\ (best_bid_of small_book <= best_ask_of small_book ->
        (bid_vwap <= ask_vwap)%Q).
Proof.
  apply (X23_vwap_within_side small_book small_book_wf).
  - discriminate.
  - discriminate.
Defined.

(** ** The size of the serialized state *)

Lemma Forall_set_snd {V : Type} (R : V -> Prop) (d : list (string * V)) k v :
  Forall (fun e => R (snd e)) d -> R v ->
  Forall (fun e => R (snd e)) (set String.eqb d k v).
Proof.
  intros Hd Hv. induction d as [|[k' v'] d IH]; cbn [set].
  - constructor; [exact Hv|constructor].
  - inversion Hd as [|? ? Hk Hd']; subst.
    destruct (String.eqb k' k); constructor; auto.
Qed.

Lemma set_set {V : Type} (d : list (string * V)) k v v' :
  set String.eqb (set String.eqb d k v) k v' = set String.eqb d k v'.
Proof.
  induction d as [|[k' w] d IH]; cbn [set].
  - rewrite String.eqb_refl. reflexivity.
  - destruct (String.eqb k' k) eqn:E; cbn [set]; rewrite E.
    + reflexivity.
    + rewrite IH. reflexivity.
Qed.

Lemma push_price_bounded es product mid_price :
  bounded_histories es ->
  bounded_histories (push_price es product mid_price).
Proof.
  intros Hb. unfold push_price, mem.
  destruct (get String.eqb es product) as [h|] eqn:Eg.
  - rewrite Eg.
    assert (Hh : (1 <= List.length h <= 5)%nat).
    { apply (get_In String.eqb string_eqb_iff) in Eg.
      unfold bounded_histories in Hb. rewrite Forall_forall in Hb.
      apply (Hb (product, h) Eg). }
    destruct (5 <? List.length (h ++ [mid_price]))%nat eqn:E5.
    + rewrite set_set.
      apply (Forall_set_snd (fun h => (1 <= List.length h <= 5)%nat));
        [exact Hb|].
      apply Nat.ltb_lt in E5. unfold last_n. rewrite length_skipn. lia.
    + apply Nat.ltb_ge in E5.
      apply (Forall_set_snd (fun h => (1 <= List.length h <= 5)%nat));
        [exact Hb|].
      rewrite length_app in *. cbn [List.length] in *. lia.
  - rewrite (get_set_same String.eqb string_eqb_iff).
    cbn [app List.length Nat.ltb Nat.leb]. rewrite set_set.
    apply (Forall_set_snd (fun h => (1 <= List.length h <= 5)%nat));
      [exact Hb|].
    cbn [List.length]. lia.
Qed.

Lemma update_bounded a b :
  bounded_histories a -> bounded_histories b ->
  bounded_histories (update String.eqb a b).
Proof.
  unfold update. revert a.
  induction b as [|[k v] b IH]; intros a Ha Hb; cbn [fold_left fst snd];
    [exact Ha|].
  inversion Hb as [|? ? Hv Hb']; subst.
  apply IH; [|exact Hb'].
  apply (Forall_set_snd (fun h => (1 <= List.length h <= 5)%nat));
    [exact Ha|exact Hv].
Qed.

Lemma pb_process_product_bounded sqrt_float tr product state t es :
  Round3.trader_data tr = plain_trader_data t es ->
  bounded_histories es ->
  exists es',
    Round3.trader_data
      (fst (Round3.pb_process_product sqrt_float tr product state))
    = plain_trader_data t es'
    /\ bounded_histories es'.
Proof.
  intros Htd Hb. unfold Round3.pb_process_product.
  destruct (get String.eqb (order_depths state) product) as [od|];
    [|exists es; auto].
  destruct (get String.eqb Round3.pb_position_limits product) as [L|];
    [|exists es; auto].
  destruct (one_sided od); [exists es; auto|].
  destruct (String.eqb product "RAINFOREST_RESIN" || String.eqb product "KELP").
  { rewrite Htd.
    destruct (mean_reversion_plain t es product od L
                (position_of state product)) as [F HF].
    rewrite HF. eexists. split; [reflexivity|].
    apply push_price_bounded. exact Hb. }
  destruct (String.eqb product "CROISSANTS"); exists es; auto.
Qed.

Lemma pb_loop_bounded sqrt_float state products tr result t es :
  Round3.trader_data tr = plain_trader_data t es ->
  bounded_histories es ->
  exists es',
    Round3.trader_data
      (fst (Round3.pb_loop sqrt_float tr state products result))
    = plain_trader_data t es'
    /\ bounded_histories es'.
Proof.
  revert tr result es. induction products as [|product rest IH];
    intros tr result es Htd Hb; cbn [Round3.pb_loop].
  - exists es. auto.
  - destruct (mem String.eqb Round3.pb_position_limits product);
      [|apply (IH tr result es Htd Hb)].
    destruct (pb_process_product_bounded sqrt_float tr product state t es
                Htd Hb) as (es1 & Htd1 & Hb1).
    destruct (Round3.pb_process_product sqrt_float tr product state)
      as [tr1 [orders|e]]; cbn [fst] in Htd1.
    + apply (IH tr1 _ es1 Htd1 Hb1).
    + exists es1. auto.
Qed.

Lemma round3_run_bounded sqrt_float tr state t es :
  restore (Round3.trader_data tr) (traderData state) = plain_trader_data t es ->
  bounded_histories es ->
  exists t' es',
    Round3.trader_data (fst (Round3.run sqrt_float tr state))
    = plain_trader_data t' es'
    /\ bounded_histories es'.
Proof.
  intros Htd Hb. unfold Round3.run.
  set (tr2 := Round3.vr_update_market_data
                (Round3.set_trader_data tr
                   (restore (Round3.trader_data tr) (traderData state)))
                state).
  assert (Htd2 : Round3.trader_data tr2 = plain_trader_data t es).
  { unfold tr2. rewrite vr_update_trader_data. exact Htd. }
  destruct (Round3.voucher_loop tr2 state (keys (order_depths state)) [])
    as [result1|e]; [|exists t, es; auto].
  destruct (pb_loop_bounded sqrt_float state (keys (order_depths state)) tr2
              result1 t es Htd2 Hb) as (es3 & Htd3 & Hb3).
  destruct (Round3.pb_loop sqrt_float tr2 state (keys (order_depths state))
              result1) as [tr3 [result|e]]; cbn [fst] in *.
  - exists (timestamp state), es3. split; [|exact Hb3].
    cbn [Round3.set_trader_data Round3.trader_data]. rewrite Htd3.
    reflexivity.
  - exists t, es3. auto.
Qed.

Lemma round2_process_product_bounded sqrt_float state st product t es :
  Round2.trader_data (fst st) = round2_trader_data t es ->
  bounded_histories es ->
  exists es',
    Round2.trader_data
      (fst (Round2.process_product sqrt_float state st product))
    = round2_trader_data t es'
    /\ bounded_histories es'.
Proof.
  destruct st as [tr result]. cbn [fst]. intros Htd Hb.
  unfold Round2.process_product.
  destruct (get String.eqb Round2.POSITION_LIMITS product) as [L|];
    [|exists es; auto].
  destruct (get String.eqb (order_depths state) product) as [od|];
    [|exists es; auto].
  destruct (one_sided od); [exists es; auto|].
  destruct (String.eqb product "RAINFOREST_RESIN" || String.eqb product "KELP").
  { rewrite Htd.
    destruct (mean_reversion_round2 t es product od L
                (position_of state product)) as [F HF].
    rewrite HF. eexists. split; [reflexivity|].
    apply push_price_bounded. exact Hb. }
  destruct (String.eqb product "CROISSANTS"); exists es; auto.
Qed.

Lemma round2_product_loop_bounded sqrt_float state products st t es :
  Round2.trader_data (fst st) = round2_trader_data t es ->
  bounded_histories es ->
  exists es',
    Round2.trader_data
      (fst (Round2.product_loop sqrt_float state products st))
    = round2_trader_data t es'
    /\ bounded_histories es'.
Proof.
  revert st es. induction products as [|product rest IH];
    intros st es Htd Hb; cbn [Round2.product_loop].
  - exists es. auto.
  - destruct (round2_process_product_bounded sqrt_float state st product t es
                Htd Hb) as (es1 & Htd1 & Hb1).
    destruct (Round2.process_product sqrt_float state st product)
      as [tr1 [result1|e]]; cbn [fst] in Htd1.
    + apply (IH (tr1, result1) es1 Htd1 Hb1).
    + exists es1. auto.
Qed.

Lemma round2_run_bounded sqrt_float tr state t es :
  restore (Round2.trader_data tr) (traderData state) = round2_trader_data t es ->
  bounded_histories es ->
  exists t' es',
    Round2.trader_data (fst (Round2.run sqrt_float tr state))
    = round2_trader_data t' es'
    /\ bounded_histories es'.
Proof.
  intros Htd Hb. unfold Round2.run. cbv zeta.
  destruct (round2_product_loop_bounded sqrt_float state
              (keys (order_depths state))
              (Round2.set_trader_data tr
                 (restore (Round2.trader_data tr) (traderData state)), [])
              t es Htd Hb) as (es2 & Htd2 & Hb2).
  destruct (Round2.product_loop _ _ _ _) as [tr2 [result|e]]; cbn [fst] in *.
  - exists (timestamp state), es2. split; [|exact Hb2].
    cbn [Round2.set_trader_data Round2.trader_data]. rewrite Htd2.
    reflexivity.
  - exists t, es2. auto.
Qed.

Lemma served_bounded sqrt_float tr b :
  served sqrt_float tr b ->
  (exists t es,
      Round3.trader_data tr = plain_trader_data t es /\ bounded_histories es)
  /\ (b = BlobEmpty
      \/ exists t es,
          b = BlobValue (VDict (plain_trader_data t es))
          /\ bounded_histories es).
Proof.
  assert (Hrestore : forall td b0,
             (exists t es, td = plain_trader_data t es /\ bounded_histories es) ->
             (b0 = BlobEmpty
              \/ exists t es,
                  b0 = BlobValue (VDict (plain_trader_data t es))
                  /\ bounded_histories es) ->
             exists t es,
               restore td b0 = plain_trader_data t es /\ bounded_histories es).
  { intros td b0 (t & es & -> & Hb) [->|(t' & es' & -> & Hb')].
    - exists t, es. auto.
    - rewrite restore_plain. exists t', (update String.eqb es es').
      split; [reflexivity|]. apply update_bounded; assumption. }
  intros Hserved.
  induction Hserved as [|tr state tr' result c v Hs [IHt IHb] Hrun
                        |tr state tr' e Hs [IHt IHb] Hrun
                        |tr b Hs [IHt IHb]].
  - split; [|left; reflexivity].
    exists 0, []. split; [reflexivity|constructor].
  - destruct (Hrestore _ _ IHt IHb) as (t1 & es1 & Hr & Hb1).
    destruct (round3_run_bounded sqrt_float tr state t1 es1 Hr Hb1)
      as (t2 & es2 & Htd2 & Hb2).
    rewrite Hrun in Htd2. cbn [fst] in Htd2.
    destruct (served_plain sqrt_float tr _ Hs) as [Hplain Hblob].
    destruct (round3_run_plain sqrt_float tr state tr' _ Hplain Hblob Hrun)
      as [_ Hv].
    destruct (Hv result c v eq_refl) as [-> _].
    split; [exists t2, es2; auto|].
    right. exists t2, es2. rewrite Htd2. auto.
  - destruct (Hrestore _ _ IHt IHb) as (t1 & es1 & Hr & Hb1).
    destruct (round3_run_bounded sqrt_float tr state t1 es1 Hr Hb1)
      as (t2 & es2 & Htd2 & Hb2).
    rewrite Hrun in Htd2. cbn [fst] in Htd2.
    split; [exists t2, es2; auto|exact IHb].
  - split; [|exact IHb].
    exists 0, []. split; [reflexivity|constructor].
Qed.

Lemma served2_bounded sqrt_float tr b :
  served2 sqrt_float tr b ->
  (exists t es,
      Round2.trader_data tr = round2_trader_data t es
      /\ bounded_histories es)
  /\ (b = BlobEmpty
      \/ exists t es,
          b = BlobValue (VDict (round2_trader_data t es))
          /\ bounded_histories es).
Proof.
  assert (Hrestore : forall td b0,
             (exists t es, td = round2_trader_data t es
                           /\ bounded_histories es) ->
             (b0 = BlobEmpty
              \/ exists t es,
                  b0 = BlobValue (VDict (round2_trader_data t es))
                  /\ bounded_histories es) ->
             exists t es,
               restore td b0 = round2_trader_data t es
               /\ bounded_histories es).
  { intros td b0 (t & es & -> & Hb) [->|(t' & es' & -> & Hb')].
    - exists t, es. auto.
    - rewrite restore_round2. exists t', (update String.eqb es es').
      split; [reflexivity|]. apply update_bounded; assumption. }
  intros Hserved.
  induction Hserved as [|tr state tr' result c v Hs [IHt IHb] Hrun
                        |tr state tr' e Hs [IHt IHb] Hrun
                        |tr b Hs [IHt IHb]].
  - split; [|left; reflexivity].
    exists 0, []. split; [reflexivity|constructor].
  - destruct (Hrestore _ _ IHt IHb) as (t1 & es1 & Hr & Hb1).
    destruct (round2_run_bounded sqrt_float tr state t1 es1 Hr Hb1)
      as (t2 & es2 & Htd2 & Hb2).
    destruct (served2_plain sqrt_float tr _ Hs) as [Hplain Hblob].
    destruct (round2_run_plain sqrt_float tr state Hplain Hblob)
      as (tr1 & result1 & es3 & Hr1 & _).
    rewrite Hrun in Htd2. cbn [fst] in Htd2.
    rewrite Hrun in Hr1. injection Hr1 as <- _ _ ->.
    split; [exists t2, es2; auto|].
    right. exists t2, es2. rewrite Htd2. auto.
  - destruct (Hrestore _ _ IHt IHb) as (t1 & es1 & Hr & Hb1).
    destruct (round2_run_bounded sqrt_float tr state t1 es1 Hr Hb1)
      as (t2 & es2 & Htd2 & Hb2).
    rewrite Hrun in Htd2. cbn [fst] in Htd2.
    split; [exists t2, es2; auto|exact IHb].
  - split; [|exact IHb].
    exists 0, []. split; [reflexivity|constructor].
Qed.

(** X24.  The serialized state does not grow with the number of ticks:
    under the protocol of the exchange, every price history that a trader
    of round 2 or round 3 holds, and every one in the blob that the exchange
    holds for it, has one to five prices. *)
Theorem X24_price_histories_bounded :
  forall (sqrt_float : Q -> Q),
    (forall tr b,
        served sqrt_float tr b ->
        (exists t es,
            Round3.trader_data tr = plain_trader_data t es
            /\ bounded_histories es)
        /\ (b = BlobEmpty
            \/ exists t es,
                b = BlobValue (VDict (plain_trader_data t es))
                /\ bounded_histories es))
    /\ (forall tr b,
           served2 sqrt_float tr b ->
           (exists t es,
               Round2.trader_data tr = round2_trader_data t es
               /\ bounded_histories es)
           /\ (b = BlobEmpty
               \/ exists t es,
                   b = BlobValue (VDict (round2_trader_data t es))
                   /\ bounded_histories es)).
Proof.
  intros sqrt_float. split.
  - intros tr b H. apply (served_bounded sqrt_float tr b H).
  - intros tr b H. apply (served2_bounded sqrt_float tr b H).
Qed.

Lemma X24_witness :
  (exists t es,
      Round3.trader_data (fst (Round3.run sqrt_milli Round3.init tick_first))
      = plain_trader_data t es
      /\ bounded_histories es)
  /\ (BlobValue blob_after_first = BlobEmpty
      \/ exists t es,
          BlobValue blob_after_first
          = BlobValue (VDict (plain_trader_data t es))
          /\ bounded_histories es).
Proof.
  apply (proj1 (X24_price_histories_bounded sqrt_milli)).
  eapply (served_tick sqrt_milli Round3.init tick_first).
  - change (traderData tick_first) with BlobEmpty. apply served_start.
  - vm_compute. reflexivity.
Defined.

(** ** Round 1 under the protocol of the exchange *)

Lemma round1_fair_price_plain es product order_depth :
  NoDup (keys es) -> bounded_histories es ->
  exists es' F,
    Round1.fair_price_of (VDict (encode_history es)) product order_depth
    = Ok (VDict (encode_history es'), F)
    /\ NoDup (keys es') /\ bounded_histories es'.
Proof.
  intros Hnd Hb. unfold Round1.fair_price_of.
  destruct (one_sided order_depth).
  - rewrite get_encode.
    destruct (get String.eqb es product) as [h|] eqn:Eg; cbn [option_map].
    + assert (Hh : (0 < List.length h)%nat).
      { apply (get_In String.eqb string_eqb_iff) in Eg.
        unfold bounded_histories in Hb. rewrite Forall_forall in Hb.
        pose proof (Hb (product, h) Eg) as Hl. cbn [snd] in Hl. lia. }
      destruct (average_floats h Hh) as [F HF]. rewrite HF. cbn [Py.bind].
      exists es, F. auto.
    + destruct (average_singleton
                  (if String.eqb product "RAINFOREST_RESIN"
                   then 10000 else 1000)) as (F & HF & _).
      rewrite HF. cbn [Py.bind]. exists es, F. auto.
  - rewrite push_mid_encode, get_encode.
    destruct (push_price_get es product (mid_price_of order_depth))
      as (h & Hget & Hlen).
    rewrite Hget. cbn [option_map].
    destruct (average_floats h Hlen) as [F HF]. rewrite HF. cbn [Py.bind].
    exists (push_price es product (mid_price_of order_depth)), F.
    split; [reflexivity|]. split.
    + apply push_price_nodup. exact Hnd.
    + apply push_price_bounded. exact Hb.
Qed.

Lemma round1_loop_plain state products es result :
  NoDup (keys es) -> bounded_histories es ->
  incl products (keys (order_depths state)) ->
  Forall (fun product =>
            get String.eqb Round1.position_limits product <> None) products ->
  exists es' result',
    for_each (Round1.process_product state) products
      (VDict (encode_history es), result)
    = Ok (VDict (encode_history es'), result')
    /\ NoDup (keys es') /\ bounded_histories es'.
Proof.
  revert es result. induction products as [|product rest IH];
    intros es result Hnd Hb Hincl Hconf; cbn [for_each].
  - exists es, result. auto.
  - inversion Hconf as [|? ? Hp Hrest]; subst.
    assert (Hincl' : incl rest (keys (order_depths state))).
    { intros x Hx. apply Hincl. right. exact Hx. }
    destruct (In_keys_get _ _ (Hincl product (or_introl eq_refl)))
      as [od Hod].
    destruct (get String.eqb Round1.position_limits product) as [L|] eqn:EL;
      [|congruence].
    destruct (round1_fair_price_plain es product od Hnd Hb)
      as (es1 & F & HF & Hnd1 & Hb1).
    assert (Hstep : exists result1,
               Round1.process_product state
                 (VDict (encode_history es), result) product
               = Ok (VDict (encode_history es1), result1)).
    { unfold Round1.process_product. rewrite Hod, EL, HF. cbn [Py.bind].
      destruct (String.eqb product "SQUID_INK"); eauto. }
    destruct Hstep as [result1 Hstep]. rewrite Hstep.
    apply (IH es1 result1 Hnd1 Hb1 Hincl' Hrest).
Qed.

Lemma served1_plain b :
  served1 b ->
  b = BlobEmpty
  \/ exists es,
      NoDup (keys es) /\ bounded_histories es
      /\ b = BlobValue (VDict (encode_history es)).
Proof.
  induction 1 as [|state result c v _ IH Hrun]; [left; reflexivity|].
  right.
  assert (Hstart : exists es,
             NoDup (keys es) /\ bounded_histories es
             /\ match traderData state with
                | BlobEmpty => Ok (VDict [])
                | BlobUndecodable => Raise JSONDecodeError
                | BlobValue v => Ok v
                end = Ok (VDict (encode_history es))).
  { destruct IH as [->|(es & Hnd & Hb & ->)].
    - exists []. repeat split; constructor.
    - exists es. auto. }
  destruct Hstart as (es & Hnd & Hb & Hstart).
  unfold Round1.run in Hrun. rewrite Hstart in Hrun. cbn [Py.bind] in Hrun.
  destruct (for_each (Round1.process_product state)
              (keys (order_depths state)) (VDict (encode_history es), []))
    as [[ph' result']|e] eqn:E; cbn [Py.bind] in Hrun; [|discriminate].
  assert (Hconf : Forall (fun product =>
                            get String.eqb Round1.position_limits product
                            <> None) (keys (order_depths state))).
  { clear -E. revert E.
    generalize (VDict (encode_history es), @nil (string * list Order)).
    induction (keys (order_depths state)) as [|product rest IH];
      intros st E; [constructor|].
    cbn [for_each] in E.
    destruct (Round1.process_product state st product) as [st1|e] eqn:Es;
      [|discriminate].
    constructor; [|apply (IH st1 E)].
    apply (round1_process_result state st product st1 Es). }
  destruct (round1_loop_plain state (keys (order_depths state)) es []
              Hnd Hb (incl_refl _) Hconf) as (es' & result1 & Hl & Hnd' & Hb').
  assert (Heq : Ok (ph', result') = Ok (VDict (encode_history es'), result1)).
  { rewrite <- E. exact Hl. }
  apply Ok_inj in Heq. apply Ok_inj in Hrun.
  exists es'. split; [exact Hnd'|]. split; [exact Hb'|].
  congruence.
Qed.

(** X25.  Under the protocol of the exchange a tick of round 1 returns
    exactly when every product of the snapshot has a position limit.  The
    blob it returns holds float price histories of one to five prices under
    distinct products, and the conversion count is 0. *)
Theorem X25_round1_tick_returns :
  forall (state : TradingState),
    served1 (traderData state) ->
    ((forall product,
         In product (keys (order_depths state)) ->
         get String.eqb Round1.position_limits product <> None) ->
     exists result es,
       Round1.run state = Ok (result, 0, VDict (encode_history es))
       /\ NoDup (keys es) /\ bounded_histories es)
    /\ (forall result c v,
           Round1.run state = Ok (result, c, v) ->
           forall product,
             In product (keys (order_depths state)) ->
             get String.eqb Round1.position_limits product <> None).
Proof.
  intros state Hserved. split.
  - intros Hconf.
    assert (Hstart : exists es,
               NoDup (keys es) /\ bounded_histories es
               /\ match traderData state with
                  | BlobEmpty => Ok (VDict [])
                  | BlobUndecodable => Raise JSONDecodeError
                  | BlobValue v => Ok v
                  end = Ok (VDict (encode_history es))).
    { destruct (served1_plain _ Hserved) as [->|(es & Hnd & Hb & ->)].
      - exists []. repeat split; constructor.
      - exists es. auto. }
    destruct Hstart as (es & Hnd & Hb & Hstart).
    apply Forall_forall in Hconf.
    destruct (round1_loop_plain state (keys (order_depths state)) es []
                Hnd Hb (incl_refl _) Hconf)
      as (es' & result1 & Hl & Hnd' & Hb').
    exists result1, es'. split; [|auto].
    unfold Round1.run. rewrite Hstart. cbn [Py.bind].
    match goal with
    | |- context [for_each ?f ?l ?st] =>
        replace (for_each f l st)
          with (Ok (VDict (encode_history es'), result1))
          by (symmetry; exact Hl)
    end.
    reflexivity.
  - intros result c v Hrun product Hin HL.
    assert (HL' : get String.eqb Round1.position_limits product = None).
    { destruct (get String.eqb Round1.position_limits product); congruence. }
    assert (Hstep : forall st, exists e,
               Round1.process_product state st product = Raise e).
    { intros [ph res]. exists KeyError. unfold Round1.process_product.
      rewrite HL'.
      destruct (get String.eqb (order_depths state) product); reflexivity. }
    unfold Round1.run in Hrun.
    destruct (match traderData state with
              | BlobEmpty => Ok (VDict [])
              | BlobUndecodable => Raise JSONDecodeError
              | BlobValue v => Ok v
              end) as [ph|e]; cbn [Py.bind] in Hrun; [|discriminate].
    destruct (for_each_raises (Round1.process_product state)
                (keys (order_depths state)) (ph, []) product Hin Hstep)
      as [e He].
    rewrite He in Hrun. discriminate.
Qed.

Lemma X25_witness :
  exists result es,
    Round1.run tick_squid_ink = Ok (result, 0, VDict (encode_history es))
    /\ NoDup (keys es) /\ bounded_histories es.
Proof.
  apply (proj1 (X25_round1_tick_returns tick_squid_ink served1_start)).
  intros product [<-|[<-|[]]]; discriminate.
Defined.
